(** * CloudOutputDevice: reconciliation of the remote cluster status and the
      single-upload pipeline

    A shallow embedding of
    [plugins/UM3NetworkPrinting/src/Cloud/CloudOutputDevice.py].

    - Python objects that are shared and mutated in place (the printer and
      print job output models) live in a store indexed by references; the
      device's [_printers] and [_print_jobs] lists hold references.
    - Methods of the device are computations in a state-and-exception monad
      over the device fields, the two stores and a chronological trace of the
      observable events (Qt signals, messages shown or hidden, log lines and
      calls to the cloud API client together with the callbacks handed over).
    - Python dictionaries are [gmap]s, Python sets are [gset]s; the order in
      which a Python set is iterated is left arbitrary.
    - A Python [str] is kept as the bytes of its UTF-8 encoding: equality,
      concatenation, the order of the code points and splitting at an ASCII
      separator are the ones of the bytes, while [len] and [strip] read the
      bytes as characters. *)

From Stdlib Require Import Floats Ascii.
From stdpp Require Import gmap strings list fin_maps.

(* [set_solver] clears hypotheses by name; not finding one is harmless. *)
#[local] Set Warnings "-clear-no-such-hyp".

Open Scope string_scope.

(** References to objects in a store. *)
Definition ref := nat.

(** ** Data received from the cloud ([Models.py]) *)

Module CloudClusterPrinterConfigurationMaterial.
Record t := mk {
  guid : string;
  brand : string;
  color : string;
  material : string
}.
End CloudClusterPrinterConfigurationMaterial.

Module CloudClusterPrinterConfiguration.
Record t := mk {
  extruder_index : nat;
  material : CloudClusterPrinterConfigurationMaterial.t;
  print_core_id : string
}.
End CloudClusterPrinterConfiguration.

Module CloudClusterPrinter.
Record t := mk {
  uuid : string;
  friendly_name : string;
  machine_variant : string;
  status : string;
  enabled : bool;
  firmware_version : string;
  configuration : list CloudClusterPrinterConfiguration.t
}.
End CloudClusterPrinter.

Module CloudClusterPrintJob.
Record t := mk {
  uuid : string;
  name : string;
  printer_uuid : string;
  owner : string;
  status : string;
  time_total : Z;
  time_elapsed : Z
}.
End CloudClusterPrintJob.

Module CloudClusterStatus.
Record t := mk {
  printers : list CloudClusterPrinter.t;
  print_jobs : list CloudClusterPrintJob.t
}.
End CloudClusterStatus.

Module CloudJobUploadRequest.
Record t := mk {
  job_name : string;
  file_size : nat;
  content_type : string
}.
End CloudJobUploadRequest.

(** The upload slot handed back by the cloud; the device only passes it on. *)
Module CloudJobResponse.
Record t := mk {
  job_id : string;
  upload_url : string
}.
End CloudJobResponse.

Module CloudPrintResponse.
Record t := mk {
  cluster_job_id : string
}.
End CloudPrintResponse.

(** ** Output models ([cura.PrinterOutput], [UM3PrintJobOutputModel]) *)

Module MaterialOutputModel.
Record t := mk {
  guid : string;
  type : string;
  brand : string;
  color : string;
  name : string
}.
End MaterialOutputModel.

Module ExtruderOutputModel.
Record t := mk {
  position : nat;
  hotendID : string;
  activeMaterial : option MaterialOutputModel.t
}.

Definition updateHotendID (id : string) (e : t) : t :=
  mk (position e) id (activeMaterial e).

Definition updateActiveMaterial (m : MaterialOutputModel.t) (e : t) : t :=
  mk (position e) (hotendID e) (Some m).
End ExtruderOutputModel.

(** The controller handed to the models; it only remembers its device. *)
Record PrinterOutputController := mkController {
  output_device : string
}.

Module PrinterOutputModel.
Record t := mk {
  output_controller : PrinterOutputController;
  firmware_version : string;
  key : string;
  name : string;
  type : string;
  state : string;
  extruders : list ExtruderOutputModel.t
}.

Definition updateKey (k : string) (m : t) : t :=
  mk (output_controller m) (firmware_version m) k (name m) (type m)
     (state m) (extruders m).

Definition updateName (n : string) (m : t) : t :=
  mk (output_controller m) (firmware_version m) (key m) n (type m)
     (state m) (extruders m).

Definition updateType (ty : string) (m : t) : t :=
  mk (output_controller m) (firmware_version m) (key m) (name m) ty
     (state m) (extruders m).

Definition updateState (s : string) (m : t) : t :=
  mk (output_controller m) (firmware_version m) (key m) (name m) (type m)
     s (extruders m).

(** Mutation of the extruder object at one position of [extruders]. *)
Definition updateExtruder (index : nat)
    (f : ExtruderOutputModel.t → ExtruderOutputModel.t) (m : t) : t :=
  mk (output_controller m) (firmware_version m) (key m) (name m) (type m)
     (state m) (alter f index (extruders m)).

(** Modelled from the spec: the constructor of [PrinterOutputModel] is not
    part of this file.  The entity owns an ordered list of extruder
    sub-objects, created once at construction, one per requested extruder,
    none of which has an active material yet. *)
Definition new (controller : PrinterOutputController)
    (number_of_extruders : nat) (firmware : string) : t :=
  mk controller firmware "" "" "" ""
     ((λ i, ExtruderOutputModel.mk i "" None) <$> seq 0 number_of_extruders).
End PrinterOutputModel.

Module UM3PrintJobOutputModel.
Record t := mk {
  output_controller : PrinterOutputController;
  key : string;
  name : string;
  assignedPrinter : option ref;
  timeTotal : Z;
  timeElapsed : Z;
  owner : string;
  state : string
}.

Definition updateAssignedPrinter (p : ref) (m : t) : t :=
  mk (output_controller m) (key m) (name m) (Some p) (timeTotal m)
     (timeElapsed m) (owner m) (state m).

Definition updateTimeTotal (x : Z) (m : t) : t :=
  mk (output_controller m) (key m) (name m) (assignedPrinter m) x
     (timeElapsed m) (owner m) (state m).

Definition updateTimeElapsed (x : Z) (m : t) : t :=
  mk (output_controller m) (key m) (name m) (assignedPrinter m) (timeTotal m)
     x (owner m) (state m).

Definition updateOwner (x : string) (m : t) : t :=
  mk (output_controller m) (key m) (name m) (assignedPrinter m) (timeTotal m)
     (timeElapsed m) x (state m).

Definition updateState (x : string) (m : t) : t :=
  mk (output_controller m) (key m) (name m) (assignedPrinter m) (timeTotal m)
     (timeElapsed m) (owner m) x.

(** Modelled from the spec: the constructor of [UM3PrintJobOutputModel] is
    not part of this file.  A fresh job entity has its identity and name
    and no assigned printer yet.  The times, owner and state it starts with
    are given neither by the spec nor by this file; zero and the empty
    string stand for them here. *)
Definition new (controller : PrinterOutputController) (k n : string) : t :=
  mk controller k n None 0 0 "" "".
End UM3PrintJobOutputModel.

(** ** Messages shown to the user ([UM.Message]) *)

Record Message := mkMessage {
  text : string;
  title : string;
  progress : option Z;
  lifetime : Z;
  dismissable : bool;
  use_inactivity_timer : bool
}.

Definition setProgress (p : Z) (m : Message) : Message :=
  mkMessage (text m) (title m) (Some p) (lifetime m) (dismissable m)
            (use_inactivity_timer m).

(** The translated texts of class [T]. *)
Module T.
Definition BLOCKED_UPLOADING : string :=
  "Sending new jobs (temporarily) blocked, still sending the previous print job.".
Definition COULD_NOT_EXPORT : string := "Could not export print job.".
Definition WRITE_FAILED : string :=
  "There are no file formats available to write with!".
Definition SENDING_DATA_TEXT : string := "Sending data to remote cluster".
Definition SENDING_DATA_TITLE : string := "Sending data to remote cluster".
Definition ERROR : string := "Error".
Definition UPLOAD_ERROR : string := "Could not upload the data to the printer.".
Definition UPLOAD_SUCCESS_TITLE : string := "Data Sent".
Definition UPLOAD_SUCCESS_TEXT : string :=
  "Print job was successfully sent to the printer.".
End T.

(** ** Observable events *)

Inductive AuthState :=
| NotAuthenticated
| AuthenticationRequested
| Authenticated
| AuthenticationDenied
| AuthenticationReceived.

(** The bound methods and lambdas the device hands to the API client. *)
Inductive Callback :=
| cb_onStatusCallFinished
| cb_onPrintJobCreated (mesh : string)
| cb_onPrintJobUploaded
| cb_updateUploadProgress
| cb_onUploadError_UPLOAD_ERROR
| cb_onUploadSuccess.

Inductive Event :=
| writeStarted
| writeFinished
| writeError
| printersChanged
| printJobsChanged
| Message_show (m : Message)
| Message_hide (m : Message)
| Logger_log (level : string) (line : string)
| api_getClusterStatus (cluster_id : string) (on_finished : Callback)
| api_requestUpload (request : CloudJobUploadRequest.t) (on_finished : Callback)
| api_uploadMesh (upload_response : CloudJobResponse.t) (mesh : string)
    (on_finished on_progress on_error : Callback)
| api_requestPrint (cluster_id job_id : string) (on_finished : Callback).

(** Whether an event is the [printJobsChanged] signal. *)
Definition is_printJobsChanged (e : Event) : bool :=
  match e with printJobsChanged => true | _ => false end.

(** ** The device and the world it runs in *)

Record CloudOutputDevice := mkDevice {
  _device_id : string;
  _printers : list ref;
  _print_jobs : list ref;
  _number_of_extruders : nat;
  _sending_job : bool;
  _progress_message : option Message;
  _last_response_time : option float;
  _authentication_state : AuthState
}.

Record World := mkWorld {
  self : CloudOutputDevice;
  printer_store : ref → PrinterOutputModel.t;
  printer_next : ref;
  job_store : ref → UM3PrintJobOutputModel.t;
  job_next : ref;
  trace : list Event
}.

(** The device right after [__init__]: no printers, no jobs, no upload. *)
Definition __init__ (device_id : string) : CloudOutputDevice :=
  mkDevice device_id [] [] 2 false None None NotAuthenticated.

Definition empty_printer : PrinterOutputModel.t :=
  PrinterOutputModel.new (mkController "") 0 "".

Definition empty_job : UM3PrintJobOutputModel.t :=
  UM3PrintJobOutputModel.new (mkController "") "" "".

Definition initial_world (device_id : string) : World :=
  mkWorld (__init__ device_id) (λ _, empty_printer) 0 (λ _, empty_job) 0 [].

Definition with_printers (l : list ref) (d : CloudOutputDevice) :=
  mkDevice (_device_id d) l (_print_jobs d) (_number_of_extruders d)
           (_sending_job d) (_progress_message d) (_last_response_time d)
           (_authentication_state d).

Definition with_print_jobs (l : list ref) (d : CloudOutputDevice) :=
  mkDevice (_device_id d) (_printers d) l (_number_of_extruders d)
           (_sending_job d) (_progress_message d) (_last_response_time d)
           (_authentication_state d).

Definition with_sending_job (b : bool) (d : CloudOutputDevice) :=
  mkDevice (_device_id d) (_printers d) (_print_jobs d) (_number_of_extruders d)
           b (_progress_message d) (_last_response_time d)
           (_authentication_state d).

Definition with_progress_message (m : option Message) (d : CloudOutputDevice) :=
  mkDevice (_device_id d) (_printers d) (_print_jobs d) (_number_of_extruders d)
           (_sending_job d) m (_last_response_time d)
           (_authentication_state d).

Definition with_authentication_state (a : AuthState) (d : CloudOutputDevice) :=
  mkDevice (_device_id d) (_printers d) (_print_jobs d) (_number_of_extruders d)
           (_sending_job d) (_progress_message d) (_last_response_time d) a.

Definition with_self (f : CloudOutputDevice → CloudOutputDevice) (w : World) :=
  mkWorld (f (self w)) (printer_store w) (printer_next w) (job_store w)
          (job_next w) (trace w).

Definition with_event (e : Event) (w : World) :=
  mkWorld (self w) (printer_store w) (printer_next w) (job_store w)
          (job_next w) (trace w ++ [e]).

(** Update of a store at one reference. *)
Definition store_update {A} (r : ref) (x : A) (h : ref → A) : ref → A :=
  λ r', if decide (r' = r) then x else h r'.

Definition with_printer (r : ref) (m : PrinterOutputModel.t) (w : World) :=
  mkWorld (self w) (store_update r m (printer_store w)) (printer_next w)
          (job_store w) (job_next w) (trace w).

Definition with_job (r : ref) (m : UM3PrintJobOutputModel.t) (w : World) :=
  mkWorld (self w) (printer_store w) (printer_next w)
          (store_update r m (job_store w)) (job_next w) (trace w).

Definition alloc_printer (m : PrinterOutputModel.t) (w : World) :=
  mkWorld (self w) (store_update (printer_next w) m (printer_store w))
          (S (printer_next w)) (job_store w) (job_next w) (trace w).

Definition alloc_job (m : UM3PrintJobOutputModel.t) (w : World) :=
  mkWorld (self w) (printer_store w) (printer_next w)
          (store_update (job_next w) m (job_store w)) (S (job_next w))
          (trace w).

(** ** The monad of device methods *)

Inductive Exn :=
| KeyError (k : string)
| TypeError
| ValueError
| IndexError
| StopIteration
| WriteRequestFailedError (message : string).

Inductive Result (A : Type) :=
| Ok (a : A) (w : World)
| Raise (e : Exn) (w : World).
Arguments Ok {A} a w.
Arguments Raise {A} e w.

(** The world a run ends in, and the exception it raised if any. *)
Definition world_of {A} (r : Result A) : World :=
  match r with Ok _ w | Raise _ w => w end.

Definition raised {A} (r : Result A) : option Exn :=
  match r with Ok _ _ => None | Raise e _ => Some e end.

Definition M (A : Type) : Type := World → Result A.

#[global] Instance M_ret : MRet M := λ A a w, Ok a w.

#[global] Instance M_bind : MBind M := λ A B f m w,
  match m w with
  | Ok a w' => f a w'
  | Raise e w' => Raise e w'
  end.

Definition get : M World := λ w, Ok w w.

Definition modify (f : World → World) : M unit := λ w, Ok tt (f w).

Definition emit (e : Event) : M unit := modify (with_event e).

Definition raise {A} (e : Exn) : M A := λ w, Raise e w.

(** [try: body except exn: handler] for the exceptions [catches] selects;
    any other exception propagates. *)
Definition try_except {A} (body : M A) (catches : Exn → bool) (handler : M A)
  : M A := λ w,
  match body w with
  | Ok a w' => Ok a w'
  | Raise e w' => if catches e then handler w' else Raise e w'
  end.

(** [for x in l: body x] *)
Fixpoint for_each {A} (l : list A) (body : A → M unit) : M unit :=
  match l with
  | [] => mret tt
  | x :: l' => body x ;; for_each l' body
  end.

(** ** Python containers *)

(** [{key(x): x for x in l}]: later items replace earlier ones. *)
Definition dict_of {A} (key : A → string) (l : list A) : gmap string A :=
  foldl (λ d x, <[key x := x]> d) ∅ l.

(** [d[k]] *)
Definition dict_get {A} (d : gmap string A) (k : string) : M A :=
  match d !! k with
  | Some x => mret x
  | None => raise (KeyError k)
  end.

(** [l.remove(x)]: drops the first occurrence, [ValueError] when absent. *)
Fixpoint list_remove (x : ref) (l : list ref) : option (list ref) :=
  match l with
  | [] => None
  | y :: l' => if decide (y = x) then Some l'
               else cons y <$> list_remove x l'
  end.

(** [s.split(sep)] for a one-character separator. *)
Fixpoint split (sep : Ascii.ascii) (s : string) : list string :=
  match s with
  | EmptyString => [EmptyString]
  | String c s' =>
      if Ascii.eqb c sep then EmptyString :: split sep s'
      else match split sep s' with
           | [] => [String c EmptyString]
           | piece :: pieces => String c piece :: pieces
           end
  end.

(** The characters [str.strip()] removes are the ones [str.isspace]
    accepts.  Encoded, they take one byte (U+0009 to U+000D and U+001C to
    U+0020), two bytes (U+0085 and U+00A0, both after 0xC2), or three bytes
    (U+1680, U+2000 to U+200A, U+2028, U+2029, U+202F, U+205F and
    U+3000). *)
Definition is_whitespace (c : Ascii.ascii) : bool :=
  let n := Ascii.nat_of_ascii c in
  Nat.leb 9 n && Nat.leb n 13 || Nat.leb 28 n && Nat.leb n 32.

Definition is_whitespace2 (c1 c2 : Ascii.ascii) : bool :=
  let n1 := Ascii.nat_of_ascii c1 in
  let n2 := Ascii.nat_of_ascii c2 in
  Nat.eqb n1 194 && (Nat.eqb n2 133 || Nat.eqb n2 160).

Definition is_whitespace3 (c1 c2 c3 : Ascii.ascii) : bool :=
  let n1 := Ascii.nat_of_ascii c1 in
  let n2 := Ascii.nat_of_ascii c2 in
  let n3 := Ascii.nat_of_ascii c3 in
  Nat.eqb n1 225 && Nat.eqb n2 154 && Nat.eqb n3 128
  || Nat.eqb n1 226 && Nat.eqb n2 128
     && (Nat.leb 128 n3 && Nat.leb n3 138
         || Nat.eqb n3 168 || Nat.eqb n3 169 || Nat.eqb n3 175)
  || Nat.eqb n1 226 && Nat.eqb n2 129 && Nat.eqb n3 159
  || Nat.eqb n1 227 && Nat.eqb n2 128 && Nat.eqb n3 128.

(** Dropping the white space a string starts with; [backwards] when the
    bytes come in reverse, last byte of the string first. *)
Fixpoint drop_whitespace (backwards : bool) (s : string) : string :=
  match s with
  | EmptyString => EmptyString
  | String c1 s1 =>
      if is_whitespace c1 then drop_whitespace backwards s1
      else
        match s1 with
        | EmptyString => s
        | String c2 s2 =>
            if (if backwards then is_whitespace2 c2 c1
                else is_whitespace2 c1 c2)
            then drop_whitespace backwards s2
            else
              match s2 with
              | EmptyString => s
              | String c3 s3 =>
                  if (if backwards then is_whitespace3 c3 c2 c1
                      else is_whitespace3 c1 c2 c3)
                  then drop_whitespace backwards s3
                  else s
              end
        end
  end.

Definition lstrip (s : string) : string := drop_whitespace false s.

Definition rstrip (s : string) : string :=
  String.rev (drop_whitespace true (String.rev s)).

Definition strip (s : string) : string := rstrip (lstrip s).

(** [len(s)] of a [str]: its characters, which are the bytes that do not
    continue a character. *)
Definition is_continuation_byte (c : Ascii.ascii) : bool :=
  let n := Ascii.nat_of_ascii c in
  Nat.leb 128 n && Nat.leb n 191.

Fixpoint str_len (s : string) : nat :=
  match s with
  | EmptyString => 0
  | String c s' => (if is_continuation_byte c then 0 else 1) + str_len s'
  end.

(** ** Collaborators of the device *)

(** Material groups of the material manager and their root containers. *)
Module MaterialContainer.
Record t := mk {
  color_code : string;
  brand : string;
  material : string;
  getName : string
}.
End MaterialContainer.

Module MaterialGroup.
Record t := mk {
  is_read_only : bool;
  name : string;
  root_material_node : MaterialContainer.t
}.
End MaterialGroup.

(** [sorted(groups, key = lambda x: x.name)]: a stable sort by name. *)
Fixpoint insert_by_name (g : MaterialGroup.t) (l : list MaterialGroup.t)
  : list MaterialGroup.t :=
  match l with
  | [] => [g]
  | h :: l' =>
      if String.leb (MaterialGroup.name g) (MaterialGroup.name h)
      then g :: l
      else h :: insert_by_name g l'
  end.

Definition sorted_by_name (l : list MaterialGroup.t) : list MaterialGroup.t :=
  foldr insert_by_name [] l.

(** File formats, streams and writers of the file handler. *)
Inductive OutputMode := TextMode | BinaryMode.

Record FileFormat := mkFileFormat {
  mime_type : string;
  extension : string;
  mode : OutputMode
}.

Inductive Stream :=
| StringIO (value : string)
| BytesIO (value : string).

Definition getvalue (s : Stream) : string :=
  match s with StringIO v | BytesIO v => v end.

(** [len(stream.getvalue())]: the characters of a text stream, the bytes of
    a binary one. *)
Definition len_getvalue (s : Stream) : nat :=
  match s with
  | StringIO v => str_len v
  | BytesIO v => String.length v
  end.

Section Device.

(** Scene nodes are only passed on to the writer. *)
Variable SceneNode : Type.

Record FileWriter := mkFileWriter {
  write : Stream → list SceneNode → Stream
}.

Record FileHandler := mkFileHandler {
  getSupportedFileTypesWrite : list FileFormat;
  getWriterByMimeType : string → option FileWriter
}.

(** [CuraApplication.getInstance()]: the mesh file handler, the metadata
    entry ["file_formats"] of the global container stack when there is one,
    and the material manager's lookup by GUID.  A global stack is taken to
    carry the entry, as the machine definitions do: a stack without it,
    where [getMetaDataEntry] returns [None] and the call of [split] on it
    raises, is outside this model. *)
Variable getMeshFileHandler : FileHandler.
Variable getGlobalContainerStack : option string.
Variable getMaterialGroupListByGUID : string → option (list MaterialGroup.t).

(** [Version(self.firmwareVersion) >= Version("4.4")] *)
Variable firmware_at_least_4_4 : bool.

(** [super()._update()] of the base device class. *)
Variable super__update : M unit.

(** The order in which Python iterates over a set: some enumeration of its
    elements, each once. *)
Variable set_iter : gset string → list string.
Hypothesis set_iter_perm : ∀ X, set_iter X ≡ₚ elements X.

(** *** Upload pipeline *)

Definition _resetUploadProgress : M unit :=
  w ← get;
  match _progress_message (self w) with
  | Some m =>
      emit (Message_hide m);;
      modify (with_self (with_progress_message None))
  | None => mret tt
  end.

Definition _onUploadError (message : option string) : M unit :=
  _resetUploadProgress;;
  match message with
  | Some (String _ _ as message) =>
      emit (Message_show (mkMessage message T.ERROR None 10 true true))
  | _ => mret tt
  end;;
  modify (with_self (with_sending_job false));;
  emit writeError.

Definition _onUploadSuccess (response : CloudPrintResponse.t) : M unit :=
  emit (Logger_log "i"
    "The cluster will be printing this print job with the ID %s");;
  _resetUploadProgress;;
  emit (Message_show (mkMessage T.UPLOAD_SUCCESS_TEXT T.UPLOAD_SUCCESS_TITLE
                                None 5 true true));;
  modify (with_self (with_sending_job false));;
  emit writeFinished.

Definition _updateUploadProgress (progress : Z) : M unit :=
  w ← get;
  let message :=
    match _progress_message (self w) with
    | Some m => m
    | None => mkMessage T.SENDING_DATA_TEXT T.SENDING_DATA_TITLE
                        (Some (-1)%Z) 0 false false
    end in
  let message := setProgress progress message in
  modify (with_self (with_progress_message (Some message)));;
  emit (Message_show message).

Definition _sendPrintJob (file_name content_type : string) (stream : Stream)
  : M unit :=
  let mesh := getvalue stream in
  let request := CloudJobUploadRequest.mk file_name (len_getvalue stream)
                                          content_type in
  emit (api_requestUpload request (cb_onPrintJobCreated mesh)).

Definition _onPrintJobCreated (mesh : string)
    (job_response : CloudJobResponse.t) : M unit :=
  emit (api_uploadMesh job_response mesh cb_onPrintJobUploaded
                       cb_updateUploadProgress cb_onUploadError_UPLOAD_ERROR).

Definition _onPrintJobUploaded (job_id : string) : M unit :=
  w ← get;
  emit (api_requestPrint (_device_id (self w)) job_id cb_onUploadSuccess).

Definition _determineFileFormat (file_handler : option FileHandler)
  : M (option FileFormat) :=
  let file_formats :=
    match file_handler with
    | Some h => getSupportedFileTypesWrite h
    | None => getSupportedFileTypesWrite getMeshFileHandler
    end in
  match getGlobalContainerStack with
  | None =>
      emit (Logger_log "e" "Missing global stack!");;
      mret None
  | Some file_formats_entry =>
      let machine_file_formats := split ";"%char file_formats_entry in
      let machine_file_formats := strip <$> machine_file_formats in
      let machine_file_formats :=
        if bool_decide ("application/x-ufp" ∉ machine_file_formats)
           && firmware_at_least_4_4
        then "application/x-ufp" :: machine_file_formats
        else machine_file_formats in
      let format_by_mimetype := dict_of mime_type file_formats in
      file_formats ← mapM (dict_get format_by_mimetype) machine_file_formats;
      match file_formats with
      | [] =>
          emit (Logger_log "e"
            "There are no file formats available to write with!");;
          raise (WriteRequestFailedError T.WRITE_FAILED)
      | file_format :: _ => mret (Some file_format)
      end
  end.

Definition _determineWriter (file_handler : option FileHandler)
    (file_format : option FileFormat) : M (option FileWriter) :=
  file_format ← match file_format with
                | Some f => mret f
                | None => raise TypeError
                end;
  let writer :=
    match file_handler with
    | Some h => getWriterByMimeType h (mime_type file_format)
    | None => getWriterByMimeType getMeshFileHandler (mime_type file_format)
    end in
  match writer with
  | None =>
      emit (Logger_log "e"
        "Unexpected error when trying to get the FileWriter");;
      mret None
  | Some writer => mret (Some writer)
  end.

Definition requestWrite (nodes : list SceneNode) (file_name : option string)
    (limit_mime_types : bool) (file_handler : option FileHandler) : M unit :=
  w ← get;
  if _sending_job (self w) then
    _onUploadError (Some T.BLOCKED_UPLOADING)
  else
    modify (with_self (with_sending_job true));;
    emit writeStarted;;
    file_format ← _determineFileFormat file_handler;
    writer ← _determineWriter file_handler file_format;
    match writer with
    | None =>
        emit (Logger_log "e" "Missing file or mesh writer!");;
        _onUploadError (Some T.COULD_NOT_EXPORT)
    | Some writer =>
        file_format ← match file_format with
                      | Some f => mret f
                      | None => raise TypeError
                      end;
        let stream :=
          match mode file_format with
          | TextMode => StringIO ""
          | BinaryMode => BytesIO ""
          end in
        let stream := write writer stream nodes in
        file_name ← match file_name with
                    | Some n => mret n
                    | None => raise TypeError
                    end;
        _sendPrintJob (file_name ++ "." ++ extension file_format)
                      (mime_type file_format) stream
    end.

(** *** Printer model sync *)

Definition _createMaterialOutputModel
    (material : CloudClusterPrinterConfigurationMaterial.t)
  : M MaterialOutputModel.t :=
  let material_group_list :=
    default [] (getMaterialGroupListByGUID
                  (CloudClusterPrinterConfigurationMaterial.guid material)) in
  let read_only_material_group_list :=
    List.filter MaterialGroup.is_read_only material_group_list in
  let non_read_only_material_group_list :=
    List.filter (λ x, negb (MaterialGroup.is_read_only x))
                material_group_list in
  let material_group :=
    match read_only_material_group_list with
    | _ :: _ => head (sorted_by_name read_only_material_group_list)
    | [] =>
        match non_read_only_material_group_list with
        | _ :: _ => head (sorted_by_name non_read_only_material_group_list)
        | [] => None
        end
    end in
  '(color, brand, material_type, name) ←
    match material_group with
    | Some material_group =>
        let container := MaterialGroup.root_material_node material_group in
        mret (MaterialContainer.color_code container,
              MaterialContainer.brand container,
              MaterialContainer.material container,
              MaterialContainer.getName container)
    | None =>
        emit (Logger_log "w"
          ("Unable to find material with guid "
           ++ CloudClusterPrinterConfigurationMaterial.guid material
           ++ ". Using data as provided by cluster"));;
        mret (CloudClusterPrinterConfigurationMaterial.color material,
              CloudClusterPrinterConfigurationMaterial.brand material,
              CloudClusterPrinterConfigurationMaterial.material material,
              if String.eqb
                   (CloudClusterPrinterConfigurationMaterial.material material)
                   "empty"
              then "Empty" else "Unknown")
    end;
  mret (MaterialOutputModel.mk
          (CloudClusterPrinterConfigurationMaterial.guid material)
          material_type brand color name).

(** In-place mutation of the printer model behind a reference. *)
Definition modify_printer (model : ref)
    (f : PrinterOutputModel.t → PrinterOutputModel.t) : M unit :=
  modify (λ w, with_printer model (f (printer_store w model)) w).

(** [extruder.activeMaterial is None
     or extruder.activeMaterial.guid != extruder_data.material.guid] *)
Definition material_outdated (extruder : ExtruderOutputModel.t)
    (extruder_data : CloudClusterPrinterConfiguration.t) : bool :=
  match ExtruderOutputModel.activeMaterial extruder with
  | None => true
  | Some active =>
      negb (String.eqb (MaterialOutputModel.guid active)
              (CloudClusterPrinterConfigurationMaterial.guid
                 (CloudClusterPrinterConfiguration.material extruder_data)))
  end.

(** The loop over [range(0, len(printer.configuration))]; an [IndexError]
    on either list leaves the loop. *)
Fixpoint _updatePrinter_extruders (model : ref)
    (printer : CloudClusterPrinter.t) (indices : list nat) : M unit :=
  match indices with
  | [] => mret tt
  | index :: indices' =>
      w ← get;
      match PrinterOutputModel.extruders (printer_store w model) !! index,
            CloudClusterPrinter.configuration printer !! index with
      | Some extruder, Some extruder_data =>
          modify_printer model
            (PrinterOutputModel.updateExtruder index
               (ExtruderOutputModel.updateHotendID
                  (CloudClusterPrinterConfiguration.print_core_id
                     extruder_data)));;
          (if material_outdated extruder extruder_data then
             material ← _createMaterialOutputModel
               (CloudClusterPrinterConfiguration.material extruder_data);
             modify_printer model
               (PrinterOutputModel.updateExtruder index
                  (ExtruderOutputModel.updateActiveMaterial material))
           else mret tt);;
          _updatePrinter_extruders model printer indices'
      | _, _ => mret tt
      end
  end.

Definition _updatePrinter (model : ref) (printer : CloudClusterPrinter.t)
  : M unit :=
  modify_printer model
    (PrinterOutputModel.updateKey (CloudClusterPrinter.uuid printer));;
  modify_printer model
    (PrinterOutputModel.updateName (CloudClusterPrinter.friendly_name printer));;
  modify_printer model
    (PrinterOutputModel.updateType
       (CloudClusterPrinter.machine_variant printer));;
  modify_printer model
    (PrinterOutputModel.updateState
       (if CloudClusterPrinter.enabled printer
        then CloudClusterPrinter.status printer
        else "disabled"));;
  _updatePrinter_extruders model printer
    (seq 0 (length (CloudClusterPrinter.configuration printer))).

Definition _addPrinter (printer : CloudClusterPrinter.t) : M unit :=
  w ← get;
  let model := printer_next w in
  modify (alloc_printer
            (PrinterOutputModel.new
               (mkController (_device_id (self w)))
               (length (CloudClusterPrinter.configuration printer))
               (CloudClusterPrinter.firmware_version printer)));;
  modify (with_self (λ d, with_printers (_printers d ++ [model]) d));;
  _updatePrinter model printer.

(** [{p.uuid: p for p in printers}] *)
Definition remote_printers (printers : list CloudClusterPrinter.t)
  : gmap string CloudClusterPrinter.t :=
  dict_of CloudClusterPrinter.uuid printers.

(** [{p.key: p for p in self._printers}] *)
Definition current_printers (w : World) : gmap string ref :=
  dict_of (λ p, PrinterOutputModel.key (printer_store w p))
          (_printers (self w)).

Definition removed_printer_ids (current : gmap string ref)
    (remote : gmap string CloudClusterPrinter.t) : gset string :=
  dom current ∖ dom remote.

Definition new_printer_ids (current : gmap string ref)
    (remote : gmap string CloudClusterPrinter.t) : gset string :=
  dom remote ∖ dom current.

Definition updated_printer_ids (current : gmap string ref)
    (remote : gmap string CloudClusterPrinter.t) : gset string :=
  dom current ∩ dom remote.

(** [self._printers.remove(model)] *)
Definition _printers_remove (model : ref) : M unit :=
  w ← get;
  match list_remove model (_printers (self w)) with
  | Some l => modify (with_self (with_printers l))
  | None => raise ValueError
  end.

Definition _updatePrinters (printers : list CloudClusterPrinter.t) : M unit :=
  w ← get;
  let remote_printers := remote_printers printers in
  let current_printers := current_printers w in
  let removed_printer_ids :=
    removed_printer_ids current_printers remote_printers in
  let new_printer_ids := new_printer_ids current_printers remote_printers in
  let updated_printer_ids :=
    updated_printer_ids current_printers remote_printers in
  for_each (set_iter removed_printer_ids) (λ printer_guid,
    model ← dict_get current_printers printer_guid;
    _printers_remove model);;
  for_each (set_iter new_printer_ids) (λ printer_guid,
    printer ← dict_get remote_printers printer_guid;
    _addPrinter printer);;
  for_each (set_iter updated_printer_ids) (λ printer_guid,
    model ← dict_get current_printers printer_guid;
    printer ← dict_get remote_printers printer_guid;
    _updatePrinter model printer);;
  emit printersChanged.

(** *** Job model sync *)

Definition modify_job (model : ref)
    (f : UM3PrintJobOutputModel.t → UM3PrintJobOutputModel.t) : M unit :=
  modify (λ w, with_job model (f (job_store w model)) w).

(** [next(p for p in self._printers if job.printer_uuid == p.key)] *)
Definition next_printer_of (job : CloudClusterPrintJob.t) : M ref :=
  w ← get;
  match List.find (λ p, String.eqb (CloudClusterPrintJob.printer_uuid job)
                          (PrinterOutputModel.key (printer_store w p)))
                  (_printers (self w)) with
  | Some p => mret p
  | None => raise StopIteration
  end.

Definition _addPrintJob (job : CloudClusterPrintJob.t) : M unit :=
  found ← try_except (printer ← next_printer_of job; mret (Some printer))
             (λ e, match e with StopIteration => true | _ => false end)
             (emit (Logger_log "w" "Missing printer %s for job %s in %s");;
              mret None);
  match found with
  | None => mret tt
  | Some printer =>
      w ← get;
      let model := job_next w in
      modify (alloc_job
                (UM3PrintJobOutputModel.new
                   (PrinterOutputModel.output_controller
                      (printer_store w printer))
                   (CloudClusterPrintJob.uuid job)
                   (CloudClusterPrintJob.name job)));;
      modify_job model (UM3PrintJobOutputModel.updateAssignedPrinter printer);;
      modify (with_self (λ d, with_print_jobs (_print_jobs d ++ [model]) d))
  end.

Definition _updateUM3PrintJobOutputModel (model : ref)
    (job : CloudClusterPrintJob.t) : M unit :=
  modify_job model
    (UM3PrintJobOutputModel.updateTimeTotal
       (CloudClusterPrintJob.time_total job));;
  modify_job model
    (UM3PrintJobOutputModel.updateTimeElapsed
       (CloudClusterPrintJob.time_elapsed job));;
  modify_job model
    (UM3PrintJobOutputModel.updateOwner (CloudClusterPrintJob.owner job));;
  modify_job model
    (UM3PrintJobOutputModel.updateState (CloudClusterPrintJob.status job)).

(** [{j.uuid: j for j in jobs}] *)
Definition remote_jobs (jobs : list CloudClusterPrintJob.t)
  : gmap string CloudClusterPrintJob.t :=
  dict_of CloudClusterPrintJob.uuid jobs.

(** [{j.key: j for j in self._print_jobs}] *)
Definition current_jobs (w : World) : gmap string ref :=
  dict_of (λ j, UM3PrintJobOutputModel.key (job_store w j))
          (_print_jobs (self w)).

(** [self._print_jobs.remove(model)] *)
Definition _print_jobs_remove (model : ref) : M unit :=
  w ← get;
  match list_remove model (_print_jobs (self w)) with
  | Some l => modify (with_self (with_print_jobs l))
  | None => raise ValueError
  end.

Definition _updatePrintJobs (jobs : list CloudClusterPrintJob.t) : M unit :=
  w ← get;
  let remote_jobs := remote_jobs jobs in
  let current_jobs := current_jobs w in
  let remote_job_ids : gset string := dom remote_jobs in
  let current_job_ids : gset string := dom current_jobs in
  for_each (set_iter (current_job_ids ∖ remote_job_ids)) (λ removed_job_id,
    model ← dict_get current_jobs removed_job_id;
    _print_jobs_remove model);;
  for_each (set_iter (remote_job_ids ∖ dom current_jobs)) (λ new_job_id,
    job ← dict_get remote_jobs new_job_id;
    _addPrintJob job);;
  for_each (set_iter (current_job_ids ∩ remote_job_ids)) (λ updated_job_id,
    model ← dict_get current_jobs updated_job_id;
    job ← dict_get remote_jobs updated_job_id;
    _updateUM3PrintJobOutputModel model job);;
  if bool_decide (remote_job_ids ≠ current_job_ids)
  then emit printJobsChanged
  else mret tt.

(** *** Poll scheduler *)

Definition CHECK_CLUSTER_INTERVAL : float := 2.0%float.

(** Modelled from the spec: [setAuthenticationState] belongs to the base
    device class; it moves the device's authentication state. *)
Definition setAuthenticationState (a : AuthState) : M unit :=
  modify (with_self (with_authentication_state a)).

(** [self._last_response_time and
     time() - self._last_response_time < self.CHECK_CLUSTER_INTERVAL],
    where [now] is the reading of [time()]; [None] and zero count as
    false. *)
Definition checked_recently (now : float) (w : World) : bool :=
  match _last_response_time (self w) with
  | None => false
  | Some t =>
      negb (PrimFloat.eqb t 0%float)
      && PrimFloat.ltb (PrimFloat.sub now t) CHECK_CLUSTER_INTERVAL
  end.

Definition _update (now : float) (isLoggedIn : bool) : M unit :=
  super__update;;
  w ← get;
  if checked_recently now w then mret tt
  else if isLoggedIn then
    setAuthenticationState Authenticated;;
    emit (api_getClusterStatus (_device_id (self w)) cb_onStatusCallFinished)
  else
    setAuthenticationState NotAuthenticated.

Definition _onStatusCallFinished (status : CloudClusterStatus.t) : M unit :=
  _updatePrinters (CloudClusterStatus.printers status);;
  _updatePrintJobs (CloudClusterStatus.print_jobs status).

(** *** Callbacks run by the event loop *)

Inductive CallbackArgument :=
| arg_status (status : CloudClusterStatus.t)
| arg_job_response (job_response : CloudJobResponse.t)
| arg_job_id (job_id : string)
| arg_progress (progress : Z)
| arg_error
| arg_print_response (response : CloudPrintResponse.t).

Definition invoke (cb : Callback) (arg : CallbackArgument) : M unit :=
  match cb, arg with
  | cb_onStatusCallFinished, arg_status status => _onStatusCallFinished status
  | cb_onPrintJobCreated mesh, arg_job_response r => _onPrintJobCreated mesh r
  | cb_onPrintJobUploaded, arg_job_id job_id => _onPrintJobUploaded job_id
  | cb_updateUploadProgress, arg_progress p => _updateUploadProgress p
  | cb_onUploadError_UPLOAD_ERROR, _ => _onUploadError (Some T.UPLOAD_ERROR)
  | cb_onUploadSuccess, arg_print_response r => _onUploadSuccess r
  | _, _ => raise TypeError
  end.

(** *** Views of the tables for the monitor page *)

(** [[print_job for print_job in self._print_jobs
      if print_job.state == "queued" or print_job.state == "error"]] *)
Definition queuedPrintJobs (w : World) : list ref :=
  filter (λ print_job,
            UM3PrintJobOutputModel.state (job_store w print_job) = "queued"
            ∨ UM3PrintJobOutputModel.state (job_store w print_job) = "error")
         (_print_jobs (self w)).

(** [[print_job for print_job in self._print_jobs
      if print_job.assignedPrinter is not None
         and print_job.state != "queued"]] *)
Definition activePrintJobs (w : World) : list ref :=
  filter (λ print_job,
            UM3PrintJobOutputModel.assignedPrinter (job_store w print_job)
            ≠ None
            ∧ UM3PrintJobOutputModel.state (job_store w print_job) ≠ "queued")
         (_print_jobs (self w)).

(** [None] for an empty table, [self._printers[0]] otherwise. *)
Definition activePrinter (w : World) : option ref :=
  match _printers (self w) with
  | [] => None
  | _ :: _ => _printers (self w) !! 0
  end.

(** ** Sample data for the scenarios *)

Definition sample_gcode_format : FileFormat :=
  mkFileFormat "text/x-gcode" "gcode" TextMode.

Definition sample_gcode_writer : FileWriter :=
  mkFileWriter (λ stream _,
    match stream with
    | StringIO v => StringIO (v ++ "G28")
    | BytesIO v => BytesIO (v ++ "G28")
    end).

(** A file handler that can write G-code and nothing else. *)
Definition sample_file_handler : FileHandler :=
  mkFileHandler [sample_gcode_format]
    (λ mime, if String.eqb mime "text/x-gcode"
             then Some sample_gcode_writer else None).

Definition sample_material : CloudClusterPrinterConfigurationMaterial.t :=
  CloudClusterPrinterConfigurationMaterial.mk
    "506c9f0d-e3aa-4bd4-b2d2-23e2425b1aa9" "Generic" "#ffc924" "PLA".

Definition sample_configuration (index : nat) (core : string)
  : CloudClusterPrinterConfiguration.t :=
  CloudClusterPrinterConfiguration.mk index sample_material core.

(** A dual-extrusion printer as the cloud reports it. *)
Definition sample_printer (uuid name status : string)
  : CloudClusterPrinter.t :=
  CloudClusterPrinter.mk uuid name "Ultimaker 3" status true "5.2.11"
    [sample_configuration 0 "AA 0.4"; sample_configuration 1 "BB 0.4"].

(** A printer reported with a single extruder configuration. *)
Definition sample_single_extruder_printer : CloudClusterPrinter.t :=
  CloudClusterPrinter.mk "P9" "Solo" "Ultimaker 2+" "idle" true "3.3.0"
    [sample_configuration 0 "0.4 mm"].

Definition sample_job (uuid printer_uuid status : string) (elapsed : Z)
  : CloudClusterPrintJob.t :=
  CloudClusterPrintJob.mk uuid "benchy" printer_uuid "alice" status
                          3600 elapsed.

(** The local model of [sample_printer uuid name status]. *)
Definition sample_printer_model (uuid name status : string)
  : PrinterOutputModel.t :=
  PrinterOutputModel.mk (mkController "cluster-1") "5.2.11" uuid name
    "Ultimaker 3" status
    [ExtruderOutputModel.mk 0 "AA 0.4" None;
     ExtruderOutputModel.mk 1 "BB 0.4" None].

Definition sample_job_model (uuid : string) (printer : ref)
  : UM3PrintJobOutputModel.t :=
  UM3PrintJobOutputModel.mk (mkController "cluster-1") uuid "benchy"
    (Some printer) 3600 10 "alice" "printing".

(** A device that knows printers [P1] and [P2] and job [J1] on [P1]. *)
Definition sample_world : World :=
  mkWorld
    (mkDevice "cluster-1" [0; 1] [0] 2 false None None Authenticated)
    (store_update 1 (sample_printer_model "P2" "Two" "idle")
       (store_update 0 (sample_printer_model "P1" "One" "printing")
          (λ _, empty_printer)))
    2
    (store_update 0 (sample_job_model "J1" 0) (λ _, empty_job))
    1
    [].

(** The same device, last answered at second 100. *)
Definition sample_world_polled : World :=
  with_self (λ d, mkDevice (_device_id d) (_printers d) (_print_jobs d)
                           (_number_of_extruders d) (_sending_job d)
                           (_progress_message d) (Some 100%float)
                           (_authentication_state d))
            sample_world.

(** * Properties *)

Local Open Scope list_scope.
Local Open Scope nat_scope.

(** ** Vocabulary of the statements *)

(** [wp c Q w]: run from [w], the method [c] returns normally and its result
    and final world satisfy [Q]. *)
Definition wp {A} (c : M A) (Q : A → World → Prop) (w : World) : Prop :=
  match c w with
  | Ok a w' => Q a w'
  | Raise _ _ => False
  end.

(** Whether an event is a line of the log. *)
Definition is_log (e : Event) : bool :=
  match e with Logger_log _ _ => true | _ => false end.

(** The event of [_resetUploadProgress], if a progress message is up. *)
Definition hide_events (w : World) : list Event :=
  match _progress_message (self w) with
  | Some m => [Message_hide m]
  | None => []
  end.

(** The event of the error message [_onUploadError] shows, if it got a
    non-empty text. *)
Definition error_message_events (message : option string) : list Event :=
  match message with
  | Some (String _ _ as message) =>
      [Message_show (mkMessage message T.ERROR None 10 true true)]
  | _ => []
  end.

(** The trace grew by log lines only. *)
Definition logs_only (w w' : World) : Prop :=
  ∃ evs, trace w' = trace w ++ evs ∧ Forall (λ e, is_log e = true) evs.

(** [printer_step model w w']: between [w] and [w'] nothing changed but the
    printer model behind [model] and the log. *)
Definition printer_step (model : ref) (w w' : World) : Prop :=
  self w' = self w ∧ printer_next w' = printer_next w ∧
  job_store w' = job_store w ∧ job_next w' = job_next w ∧
  (∀ r, r ≠ model → printer_store w' r = printer_store w r) ∧
  logs_only w w'.

(** A method returns [a] from every world. *)
Definition returns {A} (c : M A) (a : A) : Prop := ∀ w, ∃ w', c w = Ok a w'.

(** [extruder_updated e d e']: [e'] is the extruder [e] after one round of
    the loop of [_updatePrinter] with the remote configuration [d]. *)
Definition extruder_updated (e : ExtruderOutputModel.t)
    (d : CloudClusterPrinterConfiguration.t) (e' : ExtruderOutputModel.t)
  : Prop :=
  ExtruderOutputModel.position e' = ExtruderOutputModel.position e ∧
  ExtruderOutputModel.hotendID e'
  = CloudClusterPrinterConfiguration.print_core_id d ∧
  (material_outdated e d = true →
     ∃ mat,
       returns (_createMaterialOutputModel
                  (CloudClusterPrinterConfiguration.material d)) mat ∧
       ExtruderOutputModel.activeMaterial e' = Some mat) ∧
  (material_outdated e d = false →
     ExtruderOutputModel.activeMaterial e'
     = ExtruderOutputModel.activeMaterial e).

(** Everything of a printer model but its extruders. *)
Definition same_header (m m' : PrinterOutputModel.t) : Prop :=
  PrinterOutputModel.output_controller m'
  = PrinterOutputModel.output_controller m ∧
  PrinterOutputModel.firmware_version m'
  = PrinterOutputModel.firmware_version m ∧
  PrinterOutputModel.key m' = PrinterOutputModel.key m ∧
  PrinterOutputModel.name m' = PrinterOutputModel.name m ∧
  PrinterOutputModel.type m' = PrinterOutputModel.type m ∧
  PrinterOutputModel.state m' = PrinterOutputModel.state m.

(** [printer_updated m printer m']: [m'] is the printer model [m] after
    [_updatePrinter] with the remote [printer]. *)
Definition printer_updated (m : PrinterOutputModel.t)
    (printer : CloudClusterPrinter.t) (m' : PrinterOutputModel.t) : Prop :=
  PrinterOutputModel.output_controller m'
  = PrinterOutputModel.output_controller m ∧
  PrinterOutputModel.firmware_version m'
  = PrinterOutputModel.firmware_version m ∧
  PrinterOutputModel.key m' = CloudClusterPrinter.uuid printer ∧
  PrinterOutputModel.name m' = CloudClusterPrinter.friendly_name printer ∧
  PrinterOutputModel.type m' = CloudClusterPrinter.machine_variant printer ∧
  PrinterOutputModel.state m'
  = (if CloudClusterPrinter.enabled printer
     then CloudClusterPrinter.status printer else "disabled") ∧
  length (PrinterOutputModel.extruders m')
  = length (PrinterOutputModel.extruders m) ∧
  (∀ i, length (CloudClusterPrinter.configuration printer) ≤ i →
     PrinterOutputModel.extruders m' !! i
     = PrinterOutputModel.extruders m !! i) ∧
  (∀ i e d,
     PrinterOutputModel.extruders m !! i = Some e →
     CloudClusterPrinter.configuration printer !! i = Some d →
     ∃ e', PrinterOutputModel.extruders m' !! i = Some e' ∧
           extruder_updated e d e').

(** [job_updated m job m']: [m'] is the job model [m] with its four scalar
    fields refreshed from the remote [job] and nothing else changed. *)
Definition job_updated (m : UM3PrintJobOutputModel.t)
    (job : CloudClusterPrintJob.t) (m' : UM3PrintJobOutputModel.t) : Prop :=
  UM3PrintJobOutputModel.output_controller m'
  = UM3PrintJobOutputModel.output_controller m ∧
  UM3PrintJobOutputModel.key m' = UM3PrintJobOutputModel.key m ∧
  UM3PrintJobOutputModel.name m' = UM3PrintJobOutputModel.name m ∧
  UM3PrintJobOutputModel.assignedPrinter m'
  = UM3PrintJobOutputModel.assignedPrinter m ∧
  UM3PrintJobOutputModel.timeTotal m' = CloudClusterPrintJob.time_total job ∧
  UM3PrintJobOutputModel.timeElapsed m'
  = CloudClusterPrintJob.time_elapsed job ∧
  UM3PrintJobOutputModel.owner m' = CloudClusterPrintJob.owner job ∧
  UM3PrintJobOutputModel.state m' = CloudClusterPrintJob.status job.

(** Nothing changed between [w] and [w'] but the job model behind [model]. *)
Definition job_step (model : ref) (w w' : World) : Prop :=
  self w' = self w ∧ printer_store w' = printer_store w ∧
  printer_next w' = printer_next w ∧ job_next w' = job_next w ∧
  trace w' = trace w ∧
  ∀ r, r ≠ model → job_store w' r = job_store w r.

(** The job's key as the store of [w] has it. *)
Definition job_key (w : World) (r : ref) : string :=
  UM3PrintJobOutputModel.key (job_store w r).

(** The printer's key as the store of [w] has it. *)
Definition printer_key (w : World) (r : ref) : string :=
  PrinterOutputModel.key (printer_store w r).

(** The model [_addPrinter] constructs for a remote printer. *)
Definition new_printer_model (w : World) (printer : CloudClusterPrinter.t)
  : PrinterOutputModel.t :=
  PrinterOutputModel.new
    (mkController (_device_id (self w)))
    (length (CloudClusterPrinter.configuration printer))
    (CloudClusterPrinter.firmware_version printer).

(** The printer table is well formed: its references are allocated and no
    two of its entities share a key. *)
Definition printers_wf (w : World) : Prop :=
  (∀ q, q ∈ _printers (self w) → q < printer_next w) ∧
  NoDup (printer_key w <$> _printers (self w)).

(** The job table is well formed: its references are allocated. *)
Definition jobs_wf (w : World) : Prop :=
  ∀ q, q ∈ _print_jobs (self w) → q < job_next w.

(** The printer the generator of [_addPrintJob] yields first for a remote
    job: the first entity of the printer table with the job's printer
    UUID. *)
Definition printer_of (w : World) (job : CloudClusterPrintJob.t)
  : option ref :=
  List.find (λ p, String.eqb (CloudClusterPrintJob.printer_uuid job)
                    (PrinterOutputModel.key (printer_store w p)))
            (_printers (self w)).

(** The job model [_addPrintJob] leaves behind for a remote job found on
    [printer]. *)
Definition new_job_model (w : World) (job : CloudClusterPrintJob.t)
    (printer : ref) : UM3PrintJobOutputModel.t :=
  UM3PrintJobOutputModel.updateAssignedPrinter printer
    (UM3PrintJobOutputModel.new
       (PrinterOutputModel.output_controller (printer_store w printer))
       (CloudClusterPrintJob.uuid job) (CloudClusterPrintJob.name job)).

(** No two entities of the job table share a key. *)
Definition jobs_unique (w : World) : Prop :=
  NoDup (job_key w <$> _print_jobs (self w)).

(** Every entity of the job table has an assigned printer, and that printer
    entity has been allocated. *)
Definition jobs_linked (w : World) : Prop :=
  ∀ q, q ∈ _print_jobs (self w) →
    ∃ p, UM3PrintJobOutputModel.assignedPrinter (job_store w q) = Some p ∧
         p < printer_next w.

(** The machine's file formats in order of preference, as
    [_determineFileFormat] computes them from the metadata entry. *)
Definition machine_file_formats (file_formats_entry : string) : list string :=
  let formats := strip <$> split ";"%char file_formats_entry in
  if bool_decide ("application/x-ufp" ∉ formats) && firmware_at_least_4_4
  then "application/x-ufp" :: formats
  else formats.

(** The formats the application can write, by MIME type. *)
Definition format_by_mimetype (file_handler : option FileHandler)
  : gmap string FileFormat :=
  dict_of mime_type
    (getSupportedFileTypesWrite (default getMeshFileHandler file_handler)).

(** The writer [_determineWriter] asks the file handler for. *)
Definition writer_of (file_handler : option FileHandler)
    (file_format : FileFormat) : option FileWriter :=
  getWriterByMimeType (default getMeshFileHandler file_handler)
                      (mime_type file_format).

(** The stream [requestWrite] hands to the writer. *)
Definition new_stream (file_format : FileFormat) : Stream :=
  match mode file_format with
  | TextMode => StringIO ""
  | BinaryMode => BytesIO ""
  end.

(** The message [_updateUploadProgress] creates when there is none. *)
Definition new_progress_message : Message :=
  mkMessage T.SENDING_DATA_TEXT T.SENDING_DATA_TITLE (Some (-1)%Z) 0
            false false.

(** Neither table nor store differs between [w] and [w']. *)
Definition same_tables (w w' : World) : Prop :=
  _printers (self w') = _printers (self w) ∧
  _print_jobs (self w') = _print_jobs (self w) ∧
  printer_store w' = printer_store w ∧ printer_next w' = printer_next w ∧
  job_store w' = job_store w ∧ job_next w' = job_next w.

(** The stream after the writer has run, what it holds, and the upload
    request [_sendPrintJob] builds for it. *)
Definition written (writer : FileWriter) (file_format : FileFormat)
    (nodes : list SceneNode) : Stream :=
  write writer (new_stream file_format) nodes.

Definition mesh_of (writer : FileWriter) (file_format : FileFormat)
    (nodes : list SceneNode) : string :=
  getvalue (written writer file_format nodes).

Definition upload_request (file_name : string) (file_format : FileFormat)
    (stream : Stream) : CloudJobUploadRequest.t :=
  CloudJobUploadRequest.mk (file_name ++ "." ++ extension file_format)
                           (len_getvalue stream) (mime_type file_format).

(** The world right after [requestWrite] has taken the sending flag. *)
Definition write_started (w : World) : World :=
  with_event writeStarted (with_self (with_sending_job true) w).

(** ** Reasoning about device methods *)

Lemma bind_run {A B} (m : M A) (k : A → M B) w :
  (m ≫= k) w = match m w with
               | Ok a w' => k a w'
               | Raise e w' => Raise e w'
               end.
Proof. reflexivity. Qed.

Lemma wp_ret {A} (a : A) Q w : Q a w → wp (mret a) Q w.
Proof. done. Qed.

Lemma wp_bind {A B} (m : M A) (k : A → M B) Q w :
  wp m (λ a w', wp (k a) Q w') w → wp (m ≫= k) Q w.
Proof.
  unfold wp, mbind, M_bind. by destruct (m w).
Qed.

Lemma wp_mono {A} (c : M A) (Q Q' : A → World → Prop) w :
  wp c Q w → (∀ a w', Q a w' → Q' a w') → wp c Q' w.
Proof.
  unfold wp. destruct (c w); [eauto | done].
Qed.

Lemma wp_get Q w : Q w w → wp get Q w.
Proof. done. Qed.

Lemma wp_modify f Q w : Q tt (f w) → wp (modify f) Q w.
Proof. done. Qed.

Lemma wp_emit e Q w : Q tt (with_event e w) → wp (emit e) Q w.
Proof. done. Qed.

Lemma wp_run {A} (c : M A) Q w :
  wp c Q w → ∃ a w', c w = Ok a w' ∧ Q a w'.
Proof.
  unfold wp. destruct (c w); [eauto | done].
Qed.

Lemma wp_of_run {A} (c : M A) (Q : A → World → Prop) w a w' :
  c w = Ok a w' → Q a w' → wp c Q w.
Proof.
  unfold wp. by intros ->.
Qed.

Lemma wp_dict_get {A} (d : gmap string A) k x Q w :
  d !! k = Some x → Q x w → wp (dict_get d k) Q w.
Proof.
  unfold dict_get. by intros ->.
Qed.

(** A loop establishes an invariant that may mention the items already
    processed. *)
Lemma wp_for_each {A} (I : list A → World → Prop) (l : list A)
    (body : A → M unit) w :
  I [] w →
  (∀ done x rest w1, l = done ++ x :: rest → I done w1 →
     wp (body x) (λ _ w2, I (done ++ [x]) w2) w1) →
  wp (for_each l body) (λ _ w', I l w') w.
Proof.
  intros Hinit Hstep.
  cut (∀ rest done w1, l = done ++ rest → I done w1 →
         wp (for_each rest body) (λ _ w', I l w') w1).
  { intros H. by apply (H l [] w). }
  induction rest as [|x rest IH]; intros done w1 Hl HI; simpl.
  - rewrite app_nil_r in Hl. subst done. by apply wp_ret.
  - apply wp_bind. eapply wp_mono; [by eapply Hstep|].
    intros [] w2 HI2. apply (IH (done ++ [x])); [|done].
    by rewrite <- app_assoc.
Qed.

(** ** Dictionaries built from lists, and set iteration *)

Lemma dict_of_snoc {A} (key : A → string) l x :
  dict_of key (l ++ [x]) = <[key x := x]> (dict_of key l).
Proof.
  unfold dict_of. by rewrite foldl_app.
Qed.

Lemma dict_of_lookup_Some {A} (key : A → string) l k x :
  dict_of key l !! k = Some x → x ∈ l ∧ key x = k.
Proof.
  induction l as [|y l IH] using rev_ind.
  - unfold dict_of. simpl. by rewrite lookup_empty.
  - rewrite dict_of_snoc. destruct (decide (key y = k)) as [<-|Hne].
    + rewrite lookup_insert_eq. intros [= ->]. split; [|done].
      apply elem_of_app. right. by apply list_elem_of_singleton.
    + rewrite lookup_insert_ne by done. intros [Hin Hk]%IH. split; [|done].
      apply elem_of_app. by left.
Qed.

Lemma dom_dict_of {A} (key : A → string) l k :
  k ∈ dom (dict_of key l) ↔ ∃ x, x ∈ l ∧ key x = k.
Proof.
  rewrite elem_of_dom. split.
  - intros [x Hx]. exists x. by apply dict_of_lookup_Some.
  - intros (x & Hin & <-).
    induction l as [|y l IH] using rev_ind; [by apply elem_of_nil in Hin|].
    rewrite dict_of_snoc. destruct (decide (key y = key x)) as [Heq|Hne].
    + rewrite Heq, lookup_insert_eq. eauto.
    + rewrite lookup_insert_ne by done. apply IH.
      apply elem_of_app in Hin as [Hin|Hin]; [done|].
      apply list_elem_of_singleton in Hin. by subst.
Qed.

Lemma dict_of_lookup_NoDup {A} (key : A → string) l x :
  NoDup (key <$> l) → x ∈ l → dict_of key l !! key x = Some x.
Proof.
  induction l as [|y l IH] using rev_ind; [by intros _ ?%elem_of_nil|].
  rewrite fmap_app, dict_of_snoc. simpl.
  intros (Hl & Hdisj & _)%NoDup_app [Hin|Hin%list_elem_of_singleton]%elem_of_app.
  - rewrite lookup_insert_ne; [by apply IH|].
    intros Heq. apply (Hdisj (key x)).
    + apply list_elem_of_fmap. eauto.
    + rewrite Heq. by apply list_elem_of_singleton.
  - subst. by rewrite lookup_insert_eq.
Qed.

Lemma set_iter_elem_of X k : k ∈ set_iter X ↔ k ∈ X.
Proof.
  rewrite (set_iter_perm X). apply elem_of_elements.
Qed.

Lemma set_iter_NoDup X : NoDup (set_iter X).
Proof.
  rewrite (set_iter_perm X). apply NoDup_elements.
Qed.

(** ** Identity diff *)

(** The two differences and the intersection of two key sets are pairwise
    disjoint, cover the union, and every key of the union lies in exactly
    one of them. *)
Lemma key_sets_partition (current remote : gset string) :
  let removed := current ∖ remote in
  let added := remote ∖ current in
  let updated := current ∩ remote in
  (removed ## added) ∧ (removed ## updated) ∧ (added ## updated) ∧
  removed ∪ added ∪ updated = current ∪ remote ∧
  (∀ k, k ∈ current ∪ remote →
        (k ∈ removed ∧ (k ∉ added) ∧ (k ∉ updated)) ∨
        ((k ∉ removed) ∧ k ∈ added ∧ (k ∉ updated)) ∨
        ((k ∉ removed) ∧ (k ∉ added) ∧ k ∈ updated)).
Proof.
  clear set_iter_perm set_iter super__update firmware_at_least_4_4
    getMaterialGroupListByGUID getGlobalContainerStack getMeshFileHandler.
  intros removed added updated. unfold removed, added, updated.
  assert (Hem : ∀ (k : string) (X : gset string), k ∈ X ∨ k ∉ X).
  { intros k X. destruct (decide (k ∈ X)); auto. }
  split_and!; set_solver.
Qed.

(** ** Upload pipeline *)

Lemma _resetUploadProgress_run w :
  ∃ w', _resetUploadProgress w = Ok tt w' ∧
        self w' = with_progress_message None (self w) ∧
        printer_store w' = printer_store w ∧
        printer_next w' = printer_next w ∧
        job_store w' = job_store w ∧ job_next w' = job_next w ∧
        trace w' = trace w ++ hide_events w.
Proof.
  unfold _resetUploadProgress, hide_events, mbind, M_bind, get. simpl.
  destruct w as [[] ? ? ? ? ?]; simpl.
  destruct _progress_message0; simpl; eexists; split_and!; try done.
  by rewrite app_nil_r.
Qed.

(** Whatever the message (also without one), [_onUploadError] returns with
    the progress message dismissed first, the error message shown next, the
    sending flag cleared and [writeError] emitted last. *)
Lemma _onUploadError_run message w :
  ∃ w', _onUploadError message w = Ok tt w' ∧
        _sending_job (self w') = false ∧
        _progress_message (self w') = None ∧
        _printers (self w') = _printers (self w) ∧
        _print_jobs (self w') = _print_jobs (self w) ∧
        printer_store w' = printer_store w ∧
        printer_next w' = printer_next w ∧
        job_store w' = job_store w ∧ job_next w' = job_next w ∧
        trace w' = trace w ++ hide_events w ++ error_message_events message
                           ++ [writeError].
Proof.
  unfold _onUploadError, _resetUploadProgress, hide_events,
    error_message_events, mbind, M_bind, get, emit, modify. simpl.
  destruct w as [[] ? ? ? ? ?]; simpl.
  destruct _progress_message0, message as [[|]|]; simpl;
    eexists; (split; [done|]); split_and!; simpl;
    rewrite <- ?app_assoc; done.
Qed.

(** While the sending flag is set, [requestWrite] is [_onUploadError] with
    the blocked message: no API call, and the flag ends up cleared. *)
Lemma requestWrite_while_sending nodes file_name limit_mime_types file_handler w :
  _sending_job (self w) = true →
  requestWrite nodes file_name limit_mime_types file_handler w
  = _onUploadError (Some T.BLOCKED_UPLOADING) w.
Proof.
  intros Hs. unfold requestWrite, mbind, M_bind, get at 1. simpl.
  by rewrite Hs.
Qed.

(** Looking a list of keys up in a dictionary either yields as many values,
    or raises [KeyError]; the world is not touched. *)
Lemma mapM_dict_get {A} (d : gmap string A) (ks : list string) w :
  (∃ xs, mapM (dict_get d) ks w = Ok xs w ∧ length xs = length ks) ∨
  (∃ k, mapM (dict_get d) ks w = Raise (KeyError k) w).
Proof.
  induction ks as [|k ks IH].
  - left. by exists [].
  - change (mapM (dict_get d) (k :: ks) w) with
      (match dict_get d k w with
       | Ok x w1 =>
           match mapM (dict_get d) ks w1 with
           | Ok xs w2 => Ok (x :: xs) w2
           | Raise e w2 => Raise e w2
           end
       | Raise e w1 => Raise e w1
       end).
    unfold dict_get at 1 3.
    destruct (d !! k) as [x|]; simpl; [|right; eauto].
    destruct IH as [(xs & -> & Hlen)|(k' & ->)]; [left|right; eauto].
    exists (x :: xs). simpl. by rewrite Hlen.
Qed.

Lemma split_nonempty sep s : split sep s ≠ [].
Proof.
  destruct s as [|c s]; simpl; [done|].
  destruct (Ascii.eqb c sep); [done|]. by destruct (split sep s).
Qed.

(** [_determineFileFormat] returns a format, returns [None] for want of a
    global stack, or raises [KeyError] for a machine format the application
    cannot write.  The list it indexes is never empty, so the
    [WriteRequestFailedError] it is written to raise never comes. *)
Lemma _determineFileFormat_outcomes file_handler w :
  match _determineFileFormat file_handler w with
  | Ok (Some _) w' => w' = w ∧ is_Some getGlobalContainerStack
  | Ok None w' =>
      w' = with_event (Logger_log "e" "Missing global stack!") w ∧
      getGlobalContainerStack = None
  | Raise (KeyError _) w' => w' = w
  | Raise _ _ => False
  end.
Proof.
  unfold _determineFileFormat.
  destruct getGlobalContainerStack as [entry|]; [|done].
  match goal with
  | |- context [mapM (dict_get ?d) ?machine] =>
      pose proof (mapM_dict_get d machine w) as Hrun;
      assert (Hne : machine ≠ [])
  end.
  { destruct (_ && _); [done|].
    pose proof (split_nonempty ";"%char entry). by destruct (split _ _). }
  rewrite bind_run.
  destruct Hrun as [(xs & -> & Hlen)|(k & ->)]; [|done].
  destruct xs as [|x xs]; [|by eauto].
  match type of Hlen with _ = length ?machine => by destruct machine end.
Qed.

(** Whenever the choice of a file format or of a writer raises, the
    exception leaves [requestWrite] with the sending flag set. *)
Lemma requestWrite_raises_with_flag_set
    nodes file_name limit_mime_types file_handler w e w' :
  _sending_job (self w) = false →
  requestWrite nodes file_name limit_mime_types file_handler w = Raise e w' →
  _sending_job (self w') = true.
Proof.
  intros Hidle. unfold requestWrite, mbind, M_bind, get at 1. simpl.
  rewrite Hidle. simpl.
  set (w1 := with_event writeStarted
               (with_self (with_sending_job true) w)).
  pose proof (_determineFileFormat_outcomes file_handler w1) as Hfmt.
  destruct (_determineFileFormat file_handler w1) as [[fmt|] w2|e2 w2].
  - destruct Hfmt as [-> _]. unfold _determineWriter, mbind, M_bind. simpl.
    destruct (match file_handler with
              | Some h => getWriterByMimeType h (mime_type fmt)
              | None => getWriterByMimeType getMeshFileHandler (mime_type fmt)
              end) as [writer|]; simpl.
    + destruct file_name; simpl; [done|]. by intros [= <- <-].
    + destruct (_onUploadError_run (Some T.COULD_NOT_EXPORT)
                  (with_event (Logger_log "e" "Missing file or mesh writer!")
                     (with_event
                        (Logger_log "e"
                           "Unexpected error when trying to get the FileWriter")
                        w1))) as (w3 & -> & _). done.
  - destruct Hfmt as [-> _]. simpl. by intros [= <- <-].
  - destruct e2; try done. rewrite Hfmt. by intros [= <- <-].
Qed.

(** X2: the success handler always returns: it hides the progress message,
    shows the success message, clears the sending flag and emits
    [writeFinished] last. *)
Theorem onUploadSuccess_clears_flag
    (response : CloudPrintResponse.t) (w : World) :
  ∃ w', _onUploadSuccess response w = Ok tt w' ∧
        _sending_job (self w') = false ∧
        _progress_message (self w') = None ∧
        trace w' = trace w
          ++ [Logger_log "i"
                "The cluster will be printing this print job with the ID %s"]
          ++ hide_events w
          ++ [Message_show (mkMessage T.UPLOAD_SUCCESS_TEXT
                              T.UPLOAD_SUCCESS_TITLE None 5 true true);
              writeFinished].
Proof.
  unfold _onUploadSuccess, _resetUploadProgress, hide_events,
    mbind, M_bind, get, emit, modify. simpl.
  destruct w as [[] ? ? ? ? ?]; simpl.
  destruct _progress_message0; simpl;
    eexists; (split; [done|]); split_and!; simpl;
    rewrite <- ?app_assoc; done.
Qed.

(** X3: a progress report creates the progress message only when there is
    none, and otherwise updates the one there is. *)
Theorem updateUploadProgress_reuses_message (progress : Z) (w : World) :
  ∃ w' message,
    _updateUploadProgress progress w = Ok tt w' ∧
    _progress_message (self w') = Some (setProgress progress message) ∧
    _sending_job (self w') = _sending_job (self w) ∧
    trace w' = trace w ++ [Message_show (setProgress progress message)] ∧
    match _progress_message (self w) with
    | Some m => message = m
    | None => message = mkMessage T.SENDING_DATA_TEXT T.SENDING_DATA_TITLE
                                  (Some (-1)%Z) 0 false false
    end.
Proof.
  unfold _updateUploadProgress, mbind, M_bind, get, emit, modify. simpl.
  destruct (_progress_message (self w)) as [m|];
    eexists _, _; (split; [reflexivity|]); by split_and!.
Qed.

(** ** Poll scheduler *)

(** C9: once the base class update has run, a poll does nothing more and
    calls nothing when the device has a last response time [t] that is not
    zero and [now - t < 2.0] holds for the doubles [now] and [t].  Without a
    last response time, with the time zero, or when [now - t < 2.0] fails
    (two seconds or more have passed), a logged-out account only moves the
    device to [NotAuthenticated], and a logged-in account moves it to
    [Authenticated] and issues exactly one status request, whose callback
    reconciles the printers first and the print jobs second. *)
Theorem update_poll (now : float) (isLoggedIn : bool) (w w1 : World) :
  super__update w = Ok tt w1 →
  (∀ t, _last_response_time (self w1) = Some t →
        PrimFloat.eqb t 0%float = false →
        PrimFloat.ltb (PrimFloat.sub now t) 2%float = true →
        _update now isLoggedIn w = Ok tt w1) ∧
  (_last_response_time (self w1) = None
   ∨ (∃ t, _last_response_time (self w1) = Some t ∧
           (PrimFloat.eqb t 0%float = true
            ∨ PrimFloat.ltb (PrimFloat.sub now t) 2%float = false)) →
   (isLoggedIn = false →
      ∃ w', _update now isLoggedIn w = Ok tt w' ∧
            w' = with_self (with_authentication_state NotAuthenticated) w1 ∧
            _authentication_state (self w') = NotAuthenticated ∧
            trace w' = trace w1) ∧
   (isLoggedIn = true →
      ∃ w', _update now isLoggedIn w = Ok tt w' ∧
            w' = with_event
                   (api_getClusterStatus (_device_id (self w1))
                                         cb_onStatusCallFinished)
                   (with_self (with_authentication_state Authenticated) w1) ∧
            _authentication_state (self w') = Authenticated ∧
            trace w' = trace w1 ++
              [api_getClusterStatus (_device_id (self w1))
                                    cb_onStatusCallFinished])) ∧
  (∀ status w2,
     invoke cb_onStatusCallFinished (arg_status status) w2 =
     match _updatePrinters (CloudClusterStatus.printers status) w2 with
     | Ok _ w3 => _updatePrintJobs (CloudClusterStatus.print_jobs status) w3
     | Raise e w3 => Raise e w3
     end).
Proof.
  intros Hsuper.
  unfold _update, mbind, M_bind. rewrite Hsuper. simpl.
  unfold checked_recently, CHECK_CLUSTER_INTERVAL.
  split_and!.
  - intros t -> Hnonzero Hsoon. by rewrite Hnonzero, Hsoon.
  - intros Hlate.
    assert (Hpoll : match _last_response_time (self w1) with
                    | None => false
                    | Some t =>
                        negb (PrimFloat.eqb t 0)
                        && PrimFloat.ltb (PrimFloat.sub now t) 2
                    end = false).
    { destruct Hlate as [->|(t & -> & [->| ->])]; [done|done|].
      apply andb_false_r. }
    rewrite Hpoll.
    split; intros ->; eexists; by split_and!.
  - done.
Qed.

(** ** Job model sync: single steps *)

Lemma find_none_iff {A} (f : A → bool) (l : list A) :
  List.find f l = None ↔ ∀ x, x ∈ l → f x = false.
Proof.
  induction l as [|y l IH]; simpl.
  - split; [by intros _ x ?%elem_of_nil | done].
  - destruct (f y) eqn:Hy.
    + split; [done|]. intros H. specialize (H y (list_elem_of_here _ _)).
      congruence.
    + rewrite IH. split.
      * intros H x [->|Hx]%elem_of_cons; auto.
      * intros H x Hx. apply H. by apply elem_of_cons; right.
Qed.

(** C6: when no printer of the local table has the job's printer UUID, adding
    the job returns normally and leaves the world as it was but for one
    warning in the log: no job entity is created and the job list is
    untouched. *)
Theorem addPrintJob_without_printer (job : CloudClusterPrintJob.t) (w : World) :
  (∀ p, p ∈ _printers (self w) →
        PrinterOutputModel.key (printer_store w p)
        ≠ CloudClusterPrintJob.printer_uuid job) →
  _addPrintJob job w
  = Ok tt (with_event
             (Logger_log "w" "Missing printer %s for job %s in %s") w).
Proof.
  intros Hno.
  assert (Hfind : List.find
            (λ p, String.eqb (CloudClusterPrintJob.printer_uuid job)
                    (PrinterOutputModel.key (printer_store w p)))
            (_printers (self w)) = None).
  { apply find_none_iff. intros p Hp. apply String.eqb_neq.
    intros Heq. by apply (Hno p Hp). }
  unfold _addPrintJob, try_except, next_printer_of, mbind, M_bind, get.
  simpl. by rewrite Hfind.
Qed.

(** ** Stores and steps *)

Lemma store_update_eq {A} (r : ref) (x : A) h : store_update r x h r = x.
Proof. unfold store_update. by rewrite decide_True. Qed.

Lemma store_update_ne {A} (r r' : ref) (x : A) h :
  r' ≠ r → store_update r x h r' = h r'.
Proof. intros. unfold store_update. by rewrite decide_False. Qed.

Lemma logs_only_refl w : logs_only w w.
Proof. exists []. by rewrite app_nil_r. Qed.

Lemma logs_only_trans w1 w2 w3 :
  logs_only w1 w2 → logs_only w2 w3 → logs_only w1 w3.
Proof.
  intros (e1 & H1 & F1) (e2 & H2 & F2). exists (e1 ++ e2). split.
  - by rewrite H2, H1, app_assoc.
  - by apply Forall_app.
Qed.

Lemma logs_only_trace_eq w1 w2 w2' :
  trace w2' = trace w2 → logs_only w1 w2 → logs_only w1 w2'.
Proof. intros Heq (e & H & F). exists e. by rewrite Heq. Qed.

Lemma printer_step_refl model w : printer_step model w w.
Proof. unfold printer_step. split_and!; auto using logs_only_refl. Qed.

Lemma printer_step_trans model w1 w2 w3 :
  printer_step model w1 w2 → printer_step model w2 w3 →
  printer_step model w1 w3.
Proof.
  intros (?&?&?&?&Hs1&?) (?&?&?&?&Hs2&?). unfold printer_step.
  split_and!; try congruence; [|by eapply logs_only_trans].
  intros r Hr. by rewrite Hs2, Hs1.
Qed.

Lemma printer_step_with_printer model m w :
  printer_step model w (with_printer model m w).
Proof.
  unfold printer_step. simpl. split_and!; try done.
  - intros r Hr. by apply store_update_ne.
  - exists []. simpl. by rewrite app_nil_r.
Qed.

Lemma _createMaterialOutputModel_run material :
  ∃ m, ∀ w, ∃ w',
    _createMaterialOutputModel material w = Ok m w' ∧
    self w' = self w ∧ printer_store w' = printer_store w ∧
    printer_next w' = printer_next w ∧ job_store w' = job_store w ∧
    job_next w' = job_next w ∧ logs_only w w'.
Proof.
  unfold _createMaterialOutputModel, mbind, M_bind.
  match goal with
  | |- context [match ?g with Some _ => _ | None => _ end] =>
      destruct g as [group|]
  end; eexists; intros w; eexists; simpl; (split; [reflexivity|]);
    split_and!; try done.
  - apply logs_only_refl.
  - eexists [_]. split; [reflexivity|]. by repeat constructor.
Qed.

Lemma _createMaterialOutputModel_returns material :
  ∃ m, returns (_createMaterialOutputModel material) m.
Proof.
  destruct (_createMaterialOutputModel_run material) as [m Hm].
  exists m. intros w. destruct (Hm w) as (w' & Hrun & _). eauto.
Qed.

(** ** Printer model sync: one printer *)

Lemma same_header_refl m : same_header m m.
Proof. by unfold same_header. Qed.

Lemma same_header_trans m1 m2 m3 :
  same_header m1 m2 → same_header m2 m3 → same_header m1 m3.
Proof.
  unfold same_header. intros (?&?&?&?&?&?) (?&?&?&?&?&?).
  split_and!; congruence.
Qed.

Lemma _updatePrinter_extruders_spec model printer k : ∀ a w,
  a + k = length (CloudClusterPrinter.configuration printer) →
  wp (_updatePrinter_extruders model printer (seq a k)) (λ _ w',
    printer_step model w w' ∧
    same_header (printer_store w model) (printer_store w' model) ∧
    length (PrinterOutputModel.extruders (printer_store w' model))
    = length (PrinterOutputModel.extruders (printer_store w model)) ∧
    (∀ i, i < a ∨ a + k ≤ i →
       PrinterOutputModel.extruders (printer_store w' model) !! i
       = PrinterOutputModel.extruders (printer_store w model) !! i) ∧
    (∀ i e d, a ≤ i →
       PrinterOutputModel.extruders (printer_store w model) !! i = Some e →
       CloudClusterPrinter.configuration printer !! i = Some d →
       ∃ e', PrinterOutputModel.extruders (printer_store w' model) !! i
             = Some e' ∧ extruder_updated e d e')) w.
Proof.
  induction k as [|k IH]; intros a w Hlen; simpl.
  - apply wp_ret. split_and!;
      auto using printer_step_refl, same_header_refl.
    intros i e d Hai _ Hd%lookup_lt_Some. lia.
  - apply wp_bind, wp_get.
    destruct (PrinterOutputModel.extruders (printer_store w model) !! a)
      as [e|] eqn:He.
    2:{ apply wp_ret. split_and!;
          auto using printer_step_refl, same_header_refl.
        intros i e d Hai Hi%lookup_lt_Some _.
        apply lookup_ge_None in He. lia. }
    destruct (CloudClusterPrinter.configuration printer !! a)
      as [d|] eqn:Hd.
    2:{ apply lookup_ge_None in Hd. lia. }
    apply wp_bind. unfold modify_printer at 1. apply wp_modify.
    match goal with |- wp _ _ ?x => remember x as w1 eqn:Ew1 end.
    assert (Hw1 : printer_step model w w1)
      by (rewrite Ew1; apply printer_step_with_printer).
    assert (He1 : PrinterOutputModel.extruders (printer_store w1 model)
                  = alter (ExtruderOutputModel.updateHotendID
                             (CloudClusterPrinterConfiguration.print_core_id d))
                          a (PrinterOutputModel.extruders
                               (printer_store w model))).
    { rewrite Ew1. simpl. by rewrite store_update_eq. }
    assert (Hh1 : same_header (printer_store w model) (printer_store w1 model)).
    { rewrite Ew1. simpl. by rewrite store_update_eq. }
    clear Ew1.
    (* the world after the material was brought up to date *)
    assert (Hmat : ∃ w2 e2,
      wp (if material_outdated e d
          then material ← _createMaterialOutputModel
                 (CloudClusterPrinterConfiguration.material d);
               modify_printer model
                 (PrinterOutputModel.updateExtruder a
                    (ExtruderOutputModel.updateActiveMaterial material))
          else mret tt) (λ _ w', w' = w2) w1 ∧
      printer_step model w w2 ∧
      same_header (printer_store w model) (printer_store w2 model) ∧
      PrinterOutputModel.extruders (printer_store w2 model)
      = <[a := e2]> (PrinterOutputModel.extruders (printer_store w model)) ∧
      extruder_updated e d e2).
    { destruct (material_outdated e d) eqn:Hout.
      - destruct (_createMaterialOutputModel_run
                    (CloudClusterPrinterConfiguration.material d))
          as [mat Hmat].
        destruct (Hmat w1) as (w1' & Hrun & Hs & Hps & Hpn & Hjs & Hjn & Hlog).
        eexists _, (ExtruderOutputModel.updateActiveMaterial mat
                      (ExtruderOutputModel.updateHotendID
                         (CloudClusterPrinterConfiguration.print_core_id d) e)).
        split_and!.
        + apply wp_bind. eapply wp_of_run; [exact Hrun|].
          unfold modify_printer. by apply wp_modify.
        + eapply printer_step_trans; [exact Hw1|].
          eapply printer_step_trans; [|apply printer_step_with_printer].
          unfold printer_step. rewrite Hps. by split_and!.
        + simpl. rewrite store_update_eq, Hps. apply Hh1.
        + simpl. rewrite store_update_eq, Hps. simpl. rewrite He1.
          apply list_eq. intros i. destruct (decide (i = a)) as [->|Hne].
          * rewrite !list_lookup_alter_eq, He.
            by rewrite list_lookup_insert_eq by (by eapply lookup_lt_Some).
          * by rewrite !list_lookup_alter_ne, list_lookup_insert_ne.
        + unfold extruder_updated. simpl.
          split_and!; [done|done| |congruence].
          intros _. exists mat. split; [|done].
          intros w0. destruct (Hmat w0) as (w0' & Hrun0 & _). eauto.
      - eexists w1, (ExtruderOutputModel.updateHotendID
                       (CloudClusterPrinterConfiguration.print_core_id d) e).
        split_and!; try done.
        + rewrite He1. apply list_eq. intros i.
          destruct (decide (i = a)) as [->|Hne].
          * rewrite list_lookup_alter_eq, He.
            by rewrite list_lookup_insert_eq by (by eapply lookup_lt_Some).
          * by rewrite list_lookup_alter_ne, list_lookup_insert_ne.
        + unfold extruder_updated. simpl.
          split_and!; [done|done|congruence|done]. }
    destruct Hmat as (w2 & e2 & Hwp & Hw2 & Hh2 & He2 & Hupd).
    apply wp_bind. eapply wp_mono; [exact Hwp|].
    intros [] ? ->.
    eapply wp_mono; [apply (IH (S a) w2); lia|].
    intros [] w' (Hstep & Hh & Hl & Hout & Hin). simpl.
    split_and!.
    + by eapply printer_step_trans.
    + by eapply same_header_trans.
    + by rewrite Hl, He2, length_insert.
    + intros i Hi. rewrite Hout by lia. rewrite He2.
      apply list_lookup_insert_ne. lia.
    + intros i e0 d0 Hai Hei Hdi.
      destruct (decide (i = a)) as [->|Hne].
      * rewrite Hout by lia. rewrite He2.
        rewrite list_lookup_insert_eq by (by eapply lookup_lt_Some).
        exists e2. split; [done|]. congruence.
      * apply Hin; [lia| |done].
        rewrite He2. by rewrite list_lookup_insert_ne.
Qed.

Lemma _updatePrinter_spec model printer w :
  wp (_updatePrinter model printer) (λ _ w',
    printer_step model w w' ∧
    printer_updated (printer_store w model) printer (printer_store w' model)) w.
Proof.
  unfold _updatePrinter.
  do 4 (apply wp_bind; unfold modify_printer at 1; apply wp_modify).
  match goal with |- wp _ _ ?x => remember x as w1 eqn:Ew1 end.
  assert (Hstep : printer_step model w w1).
  { rewrite Ew1. repeat (eapply printer_step_trans;
      [|apply printer_step_with_printer]). apply printer_step_refl. }
  assert (Hm : printer_store w1 model
    = PrinterOutputModel.mk
        (PrinterOutputModel.output_controller (printer_store w model))
        (PrinterOutputModel.firmware_version (printer_store w model))
        (CloudClusterPrinter.uuid printer)
        (CloudClusterPrinter.friendly_name printer)
        (CloudClusterPrinter.machine_variant printer)
        (if CloudClusterPrinter.enabled printer
         then CloudClusterPrinter.status printer else "disabled")
        (PrinterOutputModel.extruders (printer_store w model))).
  { rewrite Ew1. simpl. by rewrite !store_update_eq. }
  clear Ew1.
  eapply wp_mono;
    [apply (_updatePrinter_extruders_spec model printer _ 0 w1); lia|].
  intros [] w' (Hstep' & Hh & Hl & Hout & Hin). simpl.
  destruct Hh as (Hc & Hf & Hk & Hn & Ht & Hs).
  rewrite Hm in Hc, Hf, Hk, Hn, Ht, Hs, Hl, Hout, Hin. simpl in *.
  split; [by eapply printer_step_trans|].
  unfold printer_updated. split_and!; try done.
  - intros i Hi. apply Hout. lia.
  - intros i e d He Hd. apply (Hin i e d); [lia|done|done].
Qed.



(** ** Removal loops *)

Lemma list_remove_Some x l :
  x ∈ l → ∃ l', list_remove x l = Some l' ∧
                (∀ q, q ∈ l' → q ∈ l) ∧ (∀ q, q ∈ l → q ≠ x → q ∈ l') ∧
                (NoDup l → NoDup l').
Proof.
  induction l as [|y l IH]; [by intros ?%elem_of_nil|].
  intros Hin. simpl. destruct (decide (y = x)) as [->|Hne].
  - exists l. split_and!; [done| | |].
    + intros q Hq. by apply elem_of_cons; right.
    + intros q [->|Hq]%elem_of_cons Hqx; done.
    + by intros [_ ?]%NoDup_cons.
  - apply elem_of_cons in Hin as [->|Hin]; [done|].
    destruct (IH Hin) as (l' & -> & Hsub & Hkeep & Hnd).
    exists (y :: l'). split_and!; [done| | |].
    + intros q [->|Hq]%elem_of_cons; [apply list_elem_of_here|].
      apply elem_of_cons; right. by apply Hsub.
    + intros q [->|Hq]%elem_of_cons Hqx; [apply list_elem_of_here|].
      apply elem_of_cons; right. by apply Hkeep.
    + intros [Hy Hl]%NoDup_cons. apply NoDup_cons. split; [|by apply Hnd].
      intros Hy'. by apply Hy, Hsub.
Qed.

(** The loop [for x in xs: l.remove(d[x])] over distinct keys [xs], each
    bound in [d] to an element of the list with that key: it returns
    normally, only the list changes, it only loses elements, and it keeps
    every element whose key is not in [xs]. *)
Lemma remove_loop_spec
    (get_list : World → list ref) (set_list : list ref → World → World)
    (remove : ref → M unit) (d : gmap string ref) (keyf : ref → string) :
  (∀ l w, get_list (set_list l w) = l) →
  (∀ l1 l2 w, set_list l2 (set_list l1 w) = set_list l2 w) →
  (∀ w, set_list (get_list w) w = w) →
  (∀ r w, remove r w = match list_remove r (get_list w) with
                       | Some l => Ok tt (set_list l w)
                       | None => Raise ValueError w
                       end) →
  ∀ xs w, NoDup xs →
    (∀ x, x ∈ xs → ∃ r, d !! x = Some r ∧ r ∈ get_list w ∧ keyf r = x) →
    ∃ l', for_each xs (λ x, model ← dict_get d x; remove model) w
          = Ok tt (set_list l' w) ∧
          (∀ q, q ∈ l' → q ∈ get_list w) ∧
          (∀ q, q ∈ get_list w → keyf q ∉ xs → q ∈ l') ∧
          (NoDup (get_list w) → NoDup l').
Proof.
  intros Hgs Hss Hsg Hremove.
  induction xs as [|x xs IH]; intros w Hnd Hxs; simpl.
  - exists (get_list w). by rewrite Hsg.
  - apply NoDup_cons in Hnd as [Hx Hnd].
    destruct (Hxs x (list_elem_of_here _ _)) as (r & Hdx & Hr & Hkr).
    destruct (list_remove_Some r _ Hr) as (l1 & Hl1 & Hsub & Hkeep & Hnd1).
    unfold mbind, M_bind, dict_get at 1. rewrite Hdx. simpl.
    rewrite Hremove, Hl1.
    destruct (IH (set_list l1 w) Hnd) as (l' & Hrun & Hsub' & Hkeep' & Hnd').
    { intros x' Hx'.
      destruct (Hxs x' (proj2 (elem_of_cons _ _ _) (or_intror Hx')))
        as (r' & Hdx' & Hr' & Hkr').
      exists r'. split_and!; [done| |done].
      rewrite Hgs. apply Hkeep; [done|]. intros ->. congruence. }
    rewrite Hgs in Hsub', Hkeep', Hnd'. rewrite Hss in Hrun.
    exists l'. split_and!; [done| | |].
    + intros q Hq. by apply Hsub, Hsub'.
    + intros q Hq Hnot. apply Hkeep'.
      * apply Hkeep; [done|]. intros ->. apply Hnot. rewrite Hkr.
        apply list_elem_of_here.
      * intros Hin. apply Hnot. by apply elem_of_cons; right.
    + intros Hl. by apply Hnd', Hnd1.
Qed.

(** ** Job model sync *)

Lemma _updateUM3PrintJobOutputModel_run model job w :
  ∃ w', _updateUM3PrintJobOutputModel model job w = Ok tt w' ∧
        job_step model w w' ∧
        job_updated (job_store w model) job (job_store w' model).
Proof.
  eexists. split; [reflexivity|]. unfold job_step, job_updated. simpl.
  rewrite !store_update_eq. split_and!; try done.
  intros r Hr. by rewrite !store_update_ne.
Qed.

Lemma _addPrintJob_run job w :
  ∃ w', _addPrintJob job w = Ok tt w' ∧
        printer_store w' = printer_store w ∧
        printer_next w' = printer_next w ∧
        _printers (self w') = _printers (self w) ∧
        job_next w ≤ job_next w' ∧
        (∀ r, r < job_next w → job_store w' r = job_store w r) ∧
        (∀ q, q ∈ _print_jobs (self w') →
              q ∈ _print_jobs (self w) ∨ job_next w ≤ q < job_next w') ∧
        (∀ q, q ∈ _print_jobs (self w) → q ∈ _print_jobs (self w')) ∧
        logs_only w w'.
Proof.
  unfold _addPrintJob, try_except, next_printer_of, mbind, M_bind, get.
  simpl.
  destruct (List.find _ (_printers (self w))) as [printer|]; simpl.
  - eexists. split; [reflexivity|]. simpl. split_and!; try done.
    + lia.
    + intros r Hr. rewrite !store_update_ne by lia. done.
    + intros q [Hq|Hq%list_elem_of_singleton]%elem_of_app; [by left|].
      right. lia.
    + intros q Hq. apply elem_of_app. by left.
    + exists []. by rewrite app_nil_r.
  - eexists. split; [reflexivity|]. simpl. split_and!; try done.
    + by left.
    + eexists. split; [done|]. by repeat constructor.
Qed.

Lemma _print_jobs_remove_eq r w :
  _print_jobs_remove r w
  = match list_remove r (_print_jobs (self w)) with
    | Some l => Ok tt (with_self (with_print_jobs l) w)
    | None => Raise ValueError w
    end.
Proof.
  unfold _print_jobs_remove, mbind, M_bind, get. simpl.
  by destruct (list_remove r (_print_jobs (self w))).
Qed.

Lemma set_iter_split X done x rest :
  set_iter X = done ++ x :: rest → x ∈ X ∧ x ∉ done.
Proof.
  intros Heq. split.
  - apply set_iter_elem_of. rewrite Heq. apply elem_of_app. right.
    apply list_elem_of_here.
  - pose proof (set_iter_NoDup X) as Hnd. rewrite Heq in Hnd.
    apply NoDup_app in Hnd as (_ & Hdisj & _).
    intros Hin. apply (Hdisj x Hin). apply list_elem_of_here.
Qed.

Lemma _updatePrintJobs_spec jobs w :
  let remote := remote_jobs jobs in
  let current := current_jobs w in
  wp (_updatePrintJobs jobs) (λ _ w',
    printer_store w' = printer_store w ∧
    printer_next w' = printer_next w ∧
    _printers (self w') = _printers (self w) ∧
    job_next w ≤ job_next w' ∧
    (∀ r, r < job_next w →
       ¬ (current !! job_key w r = Some r ∧ job_key w r ∈ dom remote) →
       job_store w' r = job_store w r) ∧
    (∀ r j, r < job_next w →
       current !! job_key w r = Some r → remote !! job_key w r = Some j →
       job_updated (job_store w r) j (job_store w' r)) ∧
    (∀ q, q ∈ _print_jobs (self w') →
       q ∈ _print_jobs (self w) ∨ job_next w ≤ q < job_next w') ∧
    (∀ q, q ∈ _print_jobs (self w) → job_key w q ∈ dom remote →
       q ∈ _print_jobs (self w')) ∧
    ∃ evs, Forall (λ e, is_log e = true) evs ∧
           trace w' = trace w ++ evs ++
             (if bool_decide (dom remote ≠ dom current)
              then [printJobsChanged] else [])) w.
Proof.
  intros remote current.
  assert (Hcur : ∀ x r, current !! x = Some r →
            r ∈ _print_jobs (self w) ∧ job_key w r = x).
  { intros x r. apply dict_of_lookup_Some. }
  unfold _updatePrintJobs. apply wp_bind, wp_get.
  fold remote current.
  (* removed jobs *)
  destruct (remove_loop_spec (λ w, _print_jobs (self w))
              (λ l, with_self (with_print_jobs l)) _print_jobs_remove
              current (job_key w))
    with (xs := set_iter (dom current ∖ dom remote)) (w := w)
    as (l1 & Hrun1 & Hsub1 & Hkeep1 & _);
    [done|done|by intros [[] ? ? ? ? ?]|apply _print_jobs_remove_eq
    |apply set_iter_NoDup| |].
  { intros x [Hx _]%set_iter_elem_of%elem_of_difference.
    apply elem_of_dom in Hx as [r Hr]. exists r.
    destruct (Hcur x r Hr). by split_and!. }
  simpl in Hsub1, Hkeep1.
  apply wp_bind. eapply wp_of_run; [exact Hrun1|].
  set (w1 := with_self (with_print_jobs l1) w).
  (* new jobs *)
  apply wp_bind.
  eapply wp_mono.
  { apply (wp_for_each (λ _ w2,
      printer_store w2 = printer_store w ∧
      printer_next w2 = printer_next w ∧
      _printers (self w2) = _printers (self w) ∧
      job_next w ≤ job_next w2 ∧
      (∀ r, r < job_next w → job_store w2 r = job_store w r) ∧
      (∀ q, q ∈ _print_jobs (self w2) →
         q ∈ l1 ∨ job_next w ≤ q < job_next w2) ∧
      (∀ q, q ∈ l1 → q ∈ _print_jobs (self w2)) ∧
      logs_only w w2)).
    - simpl. split_and!; auto. exists []. by rewrite app_nil_r.
    - intros done x rest w2 Hsplit
        (Hps & Hpn & Hpl & Hjn & Hjs & Hin & Hkeep & Hlog).
      apply set_iter_split in Hsplit as [Hx _].
      apply elem_of_difference in Hx as [Hx _].
      apply elem_of_dom in Hx as [j Hj].
      apply wp_bind. eapply wp_dict_get; [exact Hj|].
      destruct (_addPrintJob_run j w2)
        as (w2' & Hrun & Hps' & Hpn' & Hpl' & Hjn' & Hjs' & Hin' & Hkeep'
            & Hlog').
      eapply wp_of_run; [exact Hrun|].
      split_and!; try congruence.
      + lia.
      + intros r Hr. rewrite Hjs' by lia. by apply Hjs.
      + intros q Hq. destruct (Hin' q Hq) as [Hq'|Hq']; [|right; lia].
        destruct (Hin q Hq') as [?|?]; [by left|right; lia].
      + intros q Hq. by apply Hkeep', Hkeep.
      + by eapply logs_only_trans. }
  intros [] w2 (Hps2 & Hpn2 & Hpl2 & Hjn2 & Hjs2 & Hin2 & Hkeep2 & Hlog2).
  simpl.
  (* updated jobs *)
  apply wp_bind.
  eapply wp_mono.
  { apply (wp_for_each (λ done w3,
      self w3 = self w2 ∧ printer_store w3 = printer_store w2 ∧
      printer_next w3 = printer_next w2 ∧ job_next w3 = job_next w2 ∧
      trace w3 = trace w2 ∧
      (∀ r, ¬ (job_key w r ∈ done ∧ current !! job_key w r = Some r) →
         job_store w3 r = job_store w2 r) ∧
      (∀ r j, job_key w r ∈ done → current !! job_key w r = Some r →
         remote !! job_key w r = Some j →
         job_updated (job_store w2 r) j (job_store w3 r)))).
    - split_and!; try done. by intros r j ?%elem_of_nil.
    - intros done x rest w3 Hsplit (Hs & Hps & Hpn & Hjn & Htr & Hsame & Hupd).
      apply set_iter_split in Hsplit as [Hx Hdone].
      apply elem_of_intersection in Hx as [Hxc Hxr].
      apply elem_of_dom in Hxc as [r0 Hr0]. apply elem_of_dom in Hxr as [j0 Hj0].
      destruct (Hcur x r0 Hr0) as [_ Hk0].
      apply wp_bind. eapply wp_dict_get; [exact Hr0|].
      apply wp_bind. eapply wp_dict_get; [exact Hj0|].
      destruct (_updateUM3PrintJobOutputModel_run r0 j0 w3)
        as (w3' & Hrun & (Hs' & Hps' & Hpn' & Hjn' & Htr' & Hother) & Hup').
      eapply wp_of_run; [exact Hrun|].
      assert (H0 : job_store w3 r0 = job_store w2 r0).
      { apply Hsame. rewrite Hk0. by intros [? _]. }
      split_and!; try congruence.
      + intros r Hr. rewrite Hother.
        * apply Hsame. intros [Hin Hc]. apply Hr. split; [|done].
          apply elem_of_app. by left.
        * intros ->. apply Hr. rewrite Hk0. split; [|done].
          apply elem_of_app. right. apply list_elem_of_here.
      + intros r j [Hin|Hin%list_elem_of_singleton]%elem_of_app Hc Hj.
        * rewrite Hother; [by apply Hupd|].
          intros ->. rewrite Hk0 in Hin. done.
        * rewrite Hin in Hc, Hj.
          assert (r = r0) as -> by congruence.
          assert (j = j0) as -> by congruence.
          by rewrite <- H0. }
  intros [] w3 (Hs3 & Hps3 & Hpn3 & Hjn3 & Htr3 & Hsame3 & Hupd3). simpl.
  (* the notification *)
  assert (Hpost :
    printer_store w3 = printer_store w ∧
    printer_next w3 = printer_next w ∧
    _printers (self w3) = _printers (self w) ∧
    job_next w ≤ job_next w3 ∧
    (∀ r, r < job_next w →
       ¬ (current !! job_key w r = Some r ∧ job_key w r ∈ dom remote) →
       job_store w3 r = job_store w r) ∧
    (∀ r j, r < job_next w →
       current !! job_key w r = Some r → remote !! job_key w r = Some j →
       job_updated (job_store w r) j (job_store w3 r)) ∧
    (∀ q, q ∈ _print_jobs (self w3) →
       q ∈ _print_jobs (self w) ∨ job_next w ≤ q < job_next w3) ∧
    (∀ q, q ∈ _print_jobs (self w) → job_key w q ∈ dom remote →
       q ∈ _print_jobs (self w3)) ∧
    logs_only w w3).
  { split_and!; try congruence.
    - intros r Hr Hnot. rewrite <- Hjs2 by done. apply Hsame3.
      intros [Hin Hc]. apply Hnot. split; [done|].
      apply set_iter_elem_of in Hin. set_solver.
    - intros r j Hr Hc Hj. rewrite <- (Hjs2 r) by done.
      apply Hupd3; [|done|done].
      apply set_iter_elem_of, elem_of_intersection.
      split; apply elem_of_dom; eauto.
    - intros q Hq. rewrite Hs3 in Hq. rewrite Hjn3.
      destruct (Hin2 q Hq) as [Hq'|Hq']; [left; by apply Hsub1|by right].
    - intros q Hq Hr. rewrite Hs3. apply Hkeep2, Hkeep1; [done|].
      intros Hin%set_iter_elem_of. set_solver.
    - eapply logs_only_trace_eq; [exact Htr3|done]. }
  destruct Hpost as (H1 & H2 & H3 & H4 & H5 & H6 & H7 & H8 & evs & Hevs & Hlogs).
  case_bool_decide.
  - apply wp_emit. simpl. split_and!; try done.
    exists evs. split; [done|]. by rewrite Hevs, <- app_assoc.
  - apply wp_ret. split_and!; try done.
    exists evs. split; [done|]. by rewrite Hevs, app_nil_r.
Qed.

(** C7: a job reconciliation pass returns normally and emits
    [printJobsChanged] exactly when the remote key set differs from the
    local one, that is when some key is added or removed, and then once; a
    pass over the same keys emits none. *)
Theorem updatePrintJobs_notification
    (jobs : list CloudClusterPrintJob.t) (w : World) :
  let remote_job_ids : gset string := dom (remote_jobs jobs) in
  let current_job_ids : gset string := dom (current_jobs w) in
  ∃ w' events,
    _updatePrintJobs jobs w = Ok tt w' ∧
    trace w' = trace w ++ events ∧
    (printJobsChanged ∈ events ↔ remote_job_ids ≠ current_job_ids) ∧
    (remote_job_ids ≠ current_job_ids ↔
     (current_job_ids ∖ remote_job_ids) ∪ (remote_job_ids ∖ current_job_ids)
     ≠ ∅) ∧
    length (List.filter is_printJobsChanged events)
    = (if bool_decide (remote_job_ids ≠ current_job_ids) then 1 else 0).
Proof.
  clear super__update firmware_at_least_4_4 getMaterialGroupListByGUID
    getGlobalContainerStack getMeshFileHandler.
  intros remote_job_ids current_job_ids.
  destruct (wp_run _ _ _ (_updatePrintJobs_spec jobs w))
    as ([] & w' & Hrun & _ & _ & _ & _ & _ & _ & _ & _ & evs & Hlogs & Htrace).
  fold remote_job_ids current_job_ids in Htrace.
  assert (Hnone : List.filter is_printJobsChanged evs = []).
  { clear Htrace. induction evs as [|e evs IH]; [done|].
    apply Forall_cons in Hlogs as [He Hlogs]. simpl.
    destruct e; try done. by apply IH. }
  assert (Hnotin : printJobsChanged ∉ evs).
  { intros Hin. rewrite Forall_forall in Hlogs. by apply Hlogs in Hin. }
  eexists w', _. split_and!; [done|exact Htrace| | |].
  - case_bool_decide as Hd.
    + split; [done|]. intros _. apply elem_of_app. right.
      apply list_elem_of_here.
    + rewrite app_nil_r. split; [done|]. intros Hne. by destruct Hd.
  - split.
    + intros Hne Hempty. apply Hne. apply set_eq. intros k.
      destruct (decide (k ∈ remote_job_ids));
        destruct (decide (k ∈ current_job_ids)); set_solver.
    + intros Hne Heq. apply Hne. rewrite Heq. set_solver.
  - rewrite List.filter_app, length_app, Hnone. simpl.
    by case_bool_decide.
Qed.

(** ** Printer model sync: the whole table *)

Lemma new_printer_model_extruders w printer :
  length (PrinterOutputModel.extruders (new_printer_model w printer))
  = length (CloudClusterPrinter.configuration printer).
Proof.
  unfold new_printer_model. simpl. by rewrite length_fmap, length_seq.
Qed.

Lemma _addPrinter_spec printer w :
  wp (_addPrinter printer) (λ _ w',
    printer_next w' = S (printer_next w) ∧
    _printers (self w') = _printers (self w) ++ [printer_next w] ∧
    _print_jobs (self w') = _print_jobs (self w) ∧
    _device_id (self w') = _device_id (self w) ∧
    job_store w' = job_store w ∧ job_next w' = job_next w ∧
    (∀ r, r ≠ printer_next w → printer_store w' r = printer_store w r) ∧
    printer_updated (new_printer_model w printer) printer
                    (printer_store w' (printer_next w)) ∧
    logs_only w w') w.
Proof.
  unfold _addPrinter. apply wp_bind, wp_get.
  do 2 (apply wp_bind, wp_modify).
  match goal with |- wp _ _ ?x => remember x as w1 eqn:Ew1 end.
  eapply wp_mono; [apply _updatePrinter_spec|].
  intros [] w' ((Hs & Hpn & Hjs & Hjn & Hother & Hlog) & Hupd). simpl.
  rewrite Hs, Hpn, Hjs, Hjn.
  assert (Hnew : printer_store w1 (printer_next w)
                 = new_printer_model w printer).
  { rewrite Ew1. simpl. by rewrite store_update_eq. }
  rewrite Hnew in Hupd.
  split_and!; try (by rewrite Ew1).
  - intros r Hr. rewrite Hother by done. rewrite Ew1. simpl.
    by rewrite store_update_ne.
  - done.
  - eapply logs_only_trans; [|exact Hlog].
    exists []. rewrite Ew1. simpl. by rewrite app_nil_r.
Qed.

Lemma _printers_remove_eq r w :
  _printers_remove r w
  = match list_remove r (_printers (self w)) with
    | Some l => Ok tt (with_self (with_printers l) w)
    | None => Raise ValueError w
    end.
Proof.
  unfold _printers_remove, mbind, M_bind, get. simpl.
  by destruct (list_remove r (_printers (self w))).
Qed.

Lemma printer_updated_extruders m p m' :
  printer_updated m p m' →
  length (PrinterOutputModel.extruders m')
  = length (PrinterOutputModel.extruders m).
Proof. by intros (_ & _ & _ & _ & _ & _ & ? & _). Qed.

Lemma _updatePrinters_spec printers w :
  let remote := remote_printers printers in
  let current := current_printers w in
  wp (_updatePrinters printers) (λ _ w',
    job_store w' = job_store w ∧ job_next w' = job_next w ∧
    _print_jobs (self w') = _print_jobs (self w) ∧
    printer_next w ≤ printer_next w' ∧
    (∀ r, r < printer_next w →
       ¬ (current !! printer_key w r = Some r
          ∧ printer_key w r ∈ dom remote) →
       printer_store w' r = printer_store w r) ∧
    (∀ r p, r < printer_next w →
       current !! printer_key w r = Some r →
       remote !! printer_key w r = Some p →
       printer_updated (printer_store w r) p (printer_store w' r)) ∧
    (∀ r, printer_next w ≤ r < printer_next w' →
       r ∈ _printers (self w') ∧
       ∃ p, remote !! CloudClusterPrinter.uuid p = Some p ∧
            (CloudClusterPrinter.uuid p ∉ dom current) ∧
            length (PrinterOutputModel.extruders (printer_store w' r))
            = length (CloudClusterPrinter.configuration p) ∧
            ((∀ q, q ∈ _printers (self w) → q < printer_next w) →
             printer_updated (new_printer_model w p) p
                             (printer_store w' r))) ∧
    (∀ q, q ∈ _printers (self w') →
       q ∈ _printers (self w) ∨ printer_next w ≤ q < printer_next w') ∧
    (∀ q, q ∈ _printers (self w) → printer_key w q ∈ dom remote →
       q ∈ _printers (self w')) ∧
    (∃ evs, Forall (λ e, is_log e = true) evs ∧
            trace w' = trace w ++ evs ++ [printersChanged]) ∧
    ((∀ q, q ∈ _printers (self w) → q < printer_next w) →
     NoDup (_printers (self w)) → NoDup (_printers (self w'))) ∧
    ((∀ q, q ∈ _printers (self w) → q < printer_next w) →
     ∀ r1 r2, printer_next w ≤ r1 < printer_next w' →
              printer_next w ≤ r2 < printer_next w' →
              printer_key w' r1 = printer_key w' r2 → r1 = r2)) w.
Proof.
  intros remote current.
  assert (Hcur : ∀ x r, current !! x = Some r →
            r ∈ _printers (self w) ∧ printer_key w r = x).
  { intros x r. apply dict_of_lookup_Some. }
  assert (Hrem : ∀ x p, remote !! x = Some p →
            p ∈ printers ∧ CloudClusterPrinter.uuid p = x).
  { intros x p. apply dict_of_lookup_Some. }
  unfold _updatePrinters. apply wp_bind, wp_get.
  unfold removed_printer_ids, new_printer_ids, updated_printer_ids.
  fold remote current.
  (* removed printers *)
  destruct (remove_loop_spec (λ w, _printers (self w))
              (λ l, with_self (with_printers l)) _printers_remove
              current (printer_key w))
    with (xs := set_iter (dom current ∖ dom remote)) (w := w)
    as (l1 & Hrun1 & Hsub1 & Hkeep1 & Hnd1);
    [done|done|by intros [[] ? ? ? ? ?]|apply _printers_remove_eq
    |apply set_iter_NoDup| |].
  { intros x [Hx _]%set_iter_elem_of%elem_of_difference.
    apply elem_of_dom in Hx as [r Hr]. exists r.
    destruct (Hcur x r Hr). by split_and!. }
  simpl in Hsub1, Hkeep1, Hnd1.
  apply wp_bind. eapply wp_of_run; [exact Hrun1|].
  (* new printers *)
  apply wp_bind.
  eapply wp_mono.
  { apply (wp_for_each (λ done w2,
      job_store w2 = job_store w ∧ job_next w2 = job_next w ∧
      _print_jobs (self w2) = _print_jobs (self w) ∧
      _device_id (self w2) = _device_id (self w) ∧
      printer_next w ≤ printer_next w2 ∧
      (∀ r, r < printer_next w → printer_store w2 r = printer_store w r) ∧
      (∀ r, printer_next w ≤ r < printer_next w2 →
         r ∈ _printers (self w2) ∧
         ∃ p, remote !! CloudClusterPrinter.uuid p = Some p ∧
              (CloudClusterPrinter.uuid p ∉ dom current) ∧
              CloudClusterPrinter.uuid p ∈ done ∧
              printer_updated (new_printer_model w p) p
                              (printer_store w2 r)) ∧
      (∀ q, q ∈ _printers (self w2) →
         q ∈ l1 ∨ printer_next w ≤ q < printer_next w2) ∧
      (∀ q, q ∈ l1 → q ∈ _printers (self w2)) ∧
      logs_only w w2 ∧
      ((∀ q, q ∈ l1 → q < printer_next w) → NoDup l1 →
       NoDup (_printers (self w2))) ∧
      (∀ r1 r2, printer_next w ≤ r1 < printer_next w2 →
                printer_next w ≤ r2 < printer_next w2 →
                printer_key w2 r1 = printer_key w2 r2 → r1 = r2))).
    - simpl. split_and!; auto.
      + intros r Hr. lia.
      + exists []. by rewrite app_nil_r.
      + intros r1 r2 Hr1. lia.
    - intros done x rest w2 Hsplit
        (Hjs & Hjn & Hpj & Hid & Hpn & Hps & Hnew & Hin & Hkeep & Hlog
         & Hnd & Hinj).
      apply set_iter_split in Hsplit as [Hx Hfresh].
      apply elem_of_difference in Hx as [Hx Hxc].
      apply elem_of_dom in Hx as [p Hp].
      destruct (Hrem x p Hp) as [_ Hux].
      apply wp_bind. eapply wp_dict_get; [exact Hp|].
      eapply wp_mono; [apply _addPrinter_spec|].
      intros [] w2' (Hpn' & Hpl' & Hpj' & Hid' & Hjs' & Hjn' & Hother'
                     & Hupd' & Hlog').
      simpl. split_and!; try congruence.
      + lia.
      + intros r Hr. rewrite Hother' by lia. by apply Hps.
      + intros r Hr. rewrite Hpl'.
        destruct (decide (r = printer_next w2)) as [->|Hne].
        * split; [apply elem_of_app; right; apply list_elem_of_here|].
          exists p. rewrite Hux. split_and!; [done|done| |].
          { apply elem_of_app. right. apply list_elem_of_here. }
          unfold new_printer_model in *. by rewrite <- Hid.
        * destruct (Hnew r) as [Hr' (p' & ? & ? & ? & ?)]; [lia|].
          split; [apply elem_of_app; by left|].
          exists p'. rewrite Hother' by done. split_and!; try done.
          apply elem_of_app. by left.
      + intros q Hq. rewrite Hpl' in Hq.
        apply elem_of_app in Hq as [Hq|Hq%list_elem_of_singleton].
        * destruct (Hin q Hq) as [?|?]; [by left|right; lia].
        * right. lia.
      + intros q Hq. rewrite Hpl'. apply elem_of_app. left. by apply Hkeep.
      + by eapply logs_only_trans.
      + intros Hwf1 Hndl1. rewrite Hpl'. apply NoDup_app. split_and!.
        * by apply Hnd.
        * intros q Hq ->%list_elem_of_singleton.
          destruct (Hin _ Hq) as [Hq'%Hwf1|Hq']; lia.
        * apply NoDup_singleton.
      + (* the key of a new entity is the UUID it was created for *)
        assert (Hkey : ∀ r, printer_next w ≤ r < printer_next w2 →
                  printer_key w2' r ∈ done).
        { intros r Hr. destruct (Hnew r Hr) as (_ & p' & _ & _ & Hd & Hup).
          unfold printer_key. rewrite Hother' by lia.
          destruct Hup as (_ & _ & -> & _). done. }
        assert (Hkey' : printer_key w2' (printer_next w2) = x).
        { unfold printer_key. destruct Hupd' as (_ & _ & -> & _). done. }
        intros r1 r2 Hr1 Hr2 Heq.
        destruct (decide (r1 = printer_next w2)) as [->|Hne1];
          destruct (decide (r2 = printer_next w2)) as [->|Hne2]; [done| | |].
        * exfalso. apply Hfresh. rewrite <- Hkey', Heq. apply Hkey. lia.
        * exfalso. apply Hfresh. rewrite <- Hkey', <- Heq. apply Hkey. lia.
        * apply Hinj; [lia|lia|]. unfold printer_key in *.
          by rewrite !Hother' in Heq by done. }
  intros [] w2 (Hjs2 & Hjn2 & Hpj2 & Hid2 & Hpn2 & Hps2 & Hnew2 & Hin2
                & Hkeep2 & Hlog2 & Hnd2 & Hinj2).
  simpl.
  (* updated printers *)
  apply wp_bind.
  eapply wp_mono.
  { apply (wp_for_each (λ done w3,
      self w3 = self w2 ∧ printer_next w3 = printer_next w2 ∧
      job_store w3 = job_store w2 ∧ job_next w3 = job_next w2 ∧
      logs_only w2 w3 ∧
      (∀ r, ¬ (printer_key w r ∈ done
               ∧ current !! printer_key w r = Some r) →
         printer_store w3 r = printer_store w2 r) ∧
      (∀ r p, printer_key w r ∈ done →
         current !! printer_key w r = Some r →
         remote !! printer_key w r = Some p →
         printer_updated (printer_store w2 r) p (printer_store w3 r)))).
    - split_and!; try done; [apply logs_only_refl|].
      by intros r p ?%elem_of_nil.
    - intros done x rest w3 Hsplit (Hs & Hpn & Hjs & Hjn & Hlog & Hsame & Hupd).
      apply set_iter_split in Hsplit as [Hx Hdone].
      apply elem_of_intersection in Hx as [Hxc Hxr].
      apply elem_of_dom in Hxc as [r0 Hr0]. apply elem_of_dom in Hxr as [p0 Hp0].
      destruct (Hcur x r0 Hr0) as [_ Hk0].
      apply wp_bind. eapply wp_dict_get; [exact Hr0|].
      apply wp_bind. eapply wp_dict_get; [exact Hp0|].
      eapply wp_mono; [apply _updatePrinter_spec|].
      intros [] w3' ((Hs' & Hpn' & Hjs' & Hjn' & Hother & Hlog') & Hup').
      simpl.
      assert (H0 : printer_store w3 r0 = printer_store w2 r0).
      { apply Hsame. rewrite Hk0. by intros [? _]. }
      split_and!; try congruence.
      + by eapply logs_only_trans.
      + intros r Hr. rewrite Hother.
        * apply Hsame. intros [Hin Hc]. apply Hr. split; [|done].
          apply elem_of_app. by left.
        * intros ->. apply Hr. rewrite Hk0. split; [|done].
          apply elem_of_app. right. apply list_elem_of_here.
      + intros r p [Hin|Hin%list_elem_of_singleton]%elem_of_app Hc Hp.
        * rewrite Hother; [by apply Hupd|].
          intros ->. rewrite Hk0 in Hin. done.
        * rewrite Hin in Hc, Hp.
          assert (r = r0) as -> by congruence.
          assert (p = p0) as -> by congruence.
          by rewrite <- H0. }
  intros [] w3 (Hs3 & Hpn3 & Hjs3 & Hjn3 & Hlog3 & Hsame3 & Hupd3). simpl.
  apply wp_emit. simpl.
  assert (Hupdated : ∀ r, printer_key w r ∈ set_iter (dom current ∩ dom remote)
            ∧ current !! printer_key w r = Some r ↔
            current !! printer_key w r = Some r
            ∧ printer_key w r ∈ dom remote).
  { intros r. rewrite set_iter_elem_of, elem_of_intersection.
    split; [by intros [[_ ?] ?]|]. intros [Hc Hr]. split_and!; try done.
    apply elem_of_dom. eauto. }
  split_and!; try congruence.
  - intros r Hr Hnot. rewrite <- Hps2 by done. apply Hsame3.
    by rewrite Hupdated.
  - intros r p Hr Hc Hp. rewrite <- (Hps2 r) by done.
    apply Hupd3; [|done|done]. apply Hupdated. split; [done|].
    apply elem_of_dom. eauto.
  - intros r Hr. rewrite Hpn3 in Hr. rewrite Hs3.
    destruct (Hnew2 r Hr) as [Hin (p & Hp & Hpc & _ & Hup)].
    split; [done|]. exists p. split_and!; [done|done| |].
    + destruct (decide (current !! printer_key w r = Some r
                        ∧ printer_key w r ∈ dom remote))
        as [[Hc [p' Hp']%elem_of_dom]|Hnot].
      * destruct (proj2 (Hupdated r)) as [Hk _].
        { split; [done|]. apply elem_of_dom. eauto. }
        rewrite (printer_updated_extruders _ _ _ (Hupd3 r p' Hk Hc Hp')).
        rewrite (printer_updated_extruders _ _ _ Hup).
        apply new_printer_model_extruders.
      * rewrite Hsame3 by (by rewrite Hupdated).
        rewrite (printer_updated_extruders _ _ _ Hup).
        apply new_printer_model_extruders.
    + intros Hwf. rewrite Hsame3; [done|].
      intros [_ Hc]. destruct (Hcur _ _ Hc) as [Hq _].
      apply Hwf in Hq. lia.
  - intros q Hq. rewrite Hs3 in Hq. rewrite Hpn3.
    destruct (Hin2 q Hq) as [?|?]; [left; by apply Hsub1|by right].
  - intros q Hq Hr. rewrite Hs3. apply Hkeep2, Hkeep1; [done|].
    intros Hin%set_iter_elem_of. set_solver.
  - destruct (logs_only_trans _ _ _ Hlog2 Hlog3) as (evs & Hevs & Hlogs).
    exists evs. split; [done|]. by rewrite Hevs, <- app_assoc.
  - intros Hwf Hnd. rewrite Hs3. apply Hnd2; [|by apply Hnd1].
    intros q Hq. by apply Hwf, Hsub1.
  - intros Hwf r1 r2 Hr1 Hr2. rewrite Hpn3 in Hr1, Hr2.
    assert (Hnew3 : ∀ r, printer_next w ≤ r < printer_next w2 →
              printer_store w3 r = printer_store w2 r).
    { intros r Hr. apply Hsame3. intros [_ Hc].
      destruct (Hcur _ _ Hc) as [Hq _]. apply Hwf in Hq. lia. }
    unfold printer_key. simpl. rewrite !Hnew3 by done. by apply Hinj2.
Qed.

(** Where the entities of the table are after a pass and what keys they
    have: an old entity kept its key, a new one has a key the old table did
    not have. *)
Lemma _updatePrinters_keys printers w :
  printers_wf w →
  wp (_updatePrinters printers) (λ _ w',
    ∀ q, q ∈ _printers (self w') →
      (q ∈ _printers (self w) ∧ printer_key w' q = printer_key w q) ∨
      (printer_next w ≤ q < printer_next w' ∧
       printer_key w' q ∉ dom (current_printers w))) w.
Proof.
  intros [Hwf Hnd].
  eapply wp_mono; [apply _updatePrinters_spec|].
  intros [] w' (_ & _ & _ & _ & Hsame & Hupd & Hnew & Hin & _) q Hq.
  destruct (Hin q Hq) as [Hold|Hfresh]; [left|right]; (split; [done|]).
  - unfold printer_key.
    destruct (decide (current_printers w !! printer_key w q = Some q
                      ∧ printer_key w q ∈ dom (remote_printers printers)))
      as [[Hcq [p' Hp']%elem_of_dom]|Hnot].
    + destruct (Hupd q p' (Hwf q Hold) Hcq Hp') as (_ & _ & -> & _).
      by apply (dict_of_lookup_Some _ _ _ _ Hp').
    + by rewrite (Hsame q (Hwf q Hold) Hnot).
  - destruct (Hnew q Hfresh) as (_ & p' & _ & Hnotin & _ & Hup').
    destruct (Hup' Hwf) as (_ & _ & Hk' & _).
    unfold printer_key. by rewrite Hk'.
Qed.

Lemma wp_and {A} (c : M A) (Q Q' : A → World → Prop) w :
  wp c Q w → wp c Q' w → wp c (λ a w', Q a w' ∧ Q' a w') w.
Proof.
  unfold wp. by destruct (c w).
Qed.

(** C4: in a well-formed table, an entity whose UUID is again in the remote
    snapshot is still in the table after the pass, behind the same
    reference; its fields were refreshed in place from the remote record,
    and no other entity of the table carries its UUID. *)
Theorem updatePrinters_keeps_entity
    (printers : list CloudClusterPrinter.t) (w : World)
    (r : ref) (p : CloudClusterPrinter.t) :
  printers_wf w →
  r ∈ _printers (self w) →
  remote_printers printers !! printer_key w r = Some p →
  ∃ w', _updatePrinters printers w = Ok tt w' ∧
    r ∈ _printers (self w') ∧
    (∀ q, q ∈ _printers (self w') →
       printer_key w' q = printer_key w r → q = r) ∧
    let m := printer_store w r in
    let m' := printer_store w' r in
    PrinterOutputModel.key m' = PrinterOutputModel.key m ∧
    PrinterOutputModel.name m' = CloudClusterPrinter.friendly_name p ∧
    PrinterOutputModel.type m' = CloudClusterPrinter.machine_variant p ∧
    PrinterOutputModel.state m'
    = (if CloudClusterPrinter.enabled p
       then CloudClusterPrinter.status p else "disabled") ∧
    PrinterOutputModel.output_controller m'
    = PrinterOutputModel.output_controller m ∧
    PrinterOutputModel.firmware_version m'
    = PrinterOutputModel.firmware_version m ∧
    length (PrinterOutputModel.extruders m')
    = length (PrinterOutputModel.extruders m).
Proof.
  intros Hwfw Hr Hp. pose proof Hwfw as [Hwf Hnd].
  assert (Hcur : ∀ q, q ∈ _printers (self w) →
            current_printers w !! printer_key w q = Some q).
  { intros q Hq. by apply (dict_of_lookup_NoDup (printer_key w)). }
  destruct (wp_run _ _ _ (wp_and _ _ _ _ (_updatePrinters_spec printers w)
                            (_updatePrinters_keys printers w Hwfw)))
    as ([] & w' & Hrun & (_ & _ & _ & _ & _ & Hupd & _ & _ & Hkeep & _)
        & Hkeys).
  exists w'. split; [done|].
  destruct (Hupd r p (Hwf r Hr) (Hcur r Hr) Hp)
    as (Hc & Hf & Hk & Hn & Ht & Hs & Hl & _).
  assert (Hkr : PrinterOutputModel.key (printer_store w' r)
                = PrinterOutputModel.key (printer_store w r)).
  { rewrite Hk. by apply (dict_of_lookup_Some _ _ _ _ Hp). }
  split_and!; [| |by cbv zeta].
  - apply Hkeep; [done|]. apply elem_of_dom. eauto.
  - intros q Hq Hkey.
    destruct (Hkeys q Hq) as [[Hold Hkq]|[_ Hnotin]].
    + rewrite Hkq in Hkey.
      pose proof (Hcur q Hold) as Hq'. rewrite Hkey, (Hcur r Hr) in Hq'.
      congruence.
    + exfalso. apply Hnotin. rewrite Hkey. apply elem_of_dom.
      rewrite (Hcur r Hr). eauto.
Qed.

(** X1: well-formedness of the two tables is an invariant of the status
    callback: it holds for a new device and both reconciliation passes
    keep it. *)
Theorem tables_wf_invariant (status : CloudClusterStatus.t) (w : World) :
  (∀ device_id, printers_wf (initial_world device_id)
                ∧ jobs_wf (initial_world device_id)) ∧
  (printers_wf w → jobs_wf w →
   ∃ w', _onStatusCallFinished status w = Ok tt w' ∧
         printers_wf w' ∧ jobs_wf w').
Proof.
  split.
  - intros device_id. split; [split|].
    + by intros q ?%elem_of_nil.
    + simpl. apply NoDup_nil_2.
    + by intros q ?%elem_of_nil.
  - intros Hwfw Hjobs. pose proof Hwfw as [Hwf Hnd].
    assert (Hcur : ∀ q, q ∈ _printers (self w) →
              current_printers w !! printer_key w q = Some q).
    { intros q Hq. by apply (dict_of_lookup_NoDup (printer_key w)). }
    destruct (wp_run _ _ _ (wp_and _ _ _ _
                (_updatePrinters_spec (CloudClusterStatus.printers status) w)
                (_updatePrinters_keys (CloudClusterStatus.printers status)
                   w Hwfw)))
      as ([] & w1 & Hrun1 & (_ & Hjn1 & Hpj1 & Hle & _ & _ & _ & Hin & _ & _
                             & Hnd1 & Hinj) & Hkeys).
    destruct (wp_run _ _ _
                (_updatePrintJobs_spec (CloudClusterStatus.print_jobs status)
                   w1))
      as ([] & w2 & Hrun2 & Hps & Hpn & Hpl & Hjle & _ & _ & Hjin & _).
    exists w2. split.
    { unfold _onStatusCallFinished, mbind, M_bind. by rewrite Hrun1. }
    split.
    + unfold printers_wf, printer_key. rewrite Hps, Hpn, Hpl.
      fold (printer_key w1). split.
      * intros q Hq. destruct (Hin q Hq) as [Hq'%Hwf|Hq']; lia.
      * apply NoDup_fmap_2_strong; [|by apply Hnd1; [|eapply NoDup_fmap_1]].
        intros q1 q2 Hq1 Hq2 Heq.
        destruct (Hkeys q1 Hq1) as [[Hold1 Hk1]|[Hnew1 Hnot1]];
          destruct (Hkeys q2 Hq2) as [[Hold2 Hk2]|[Hnew2 Hnot2]].
        -- rewrite Hk1, Hk2 in Heq.
           pose proof (Hcur q1 Hold1) as H1.
           rewrite Heq, (Hcur q2 Hold2) in H1. congruence.
        -- exfalso. apply Hnot2. rewrite <- Heq, Hk1. apply elem_of_dom.
           rewrite (Hcur q1 Hold1). eauto.
        -- exfalso. apply Hnot1. rewrite Heq, Hk2. apply elem_of_dom.
           rewrite (Hcur q2 Hold2). eauto.
        -- by apply Hinj.
    + intros q Hq. destruct (Hjin q Hq) as [Hq'|Hq']; [|lia].
      rewrite Hpj1 in Hq'. apply Hjobs in Hq'. lia.
Qed.

(** C8: a pass refreshes total time, elapsed time, owner and state of every
    job whose key is in both tables from its remote record, inside the
    existing entity; the assigned printer, key, name and controller of every
    existing job entity stay as they were.  The update method itself touches
    one entity and those four fields only, and the printer pass touches no
    job entity at all. *)
Theorem updatePrintJobs_refreshes_scalars_only
    (jobs : list CloudClusterPrintJob.t) (w : World) :
  (∃ w', _updatePrintJobs jobs w = Ok tt w' ∧
     (∀ k r j,
        current_jobs w !! k = Some r → remote_jobs jobs !! k = Some j →
        r < job_next w →
        let m := job_store w r in
        let m' := job_store w' r in
        r ∈ _print_jobs (self w') ∧
        UM3PrintJobOutputModel.timeTotal m'
        = CloudClusterPrintJob.time_total j ∧
        UM3PrintJobOutputModel.timeElapsed m'
        = CloudClusterPrintJob.time_elapsed j ∧
        UM3PrintJobOutputModel.owner m' = CloudClusterPrintJob.owner j ∧
        UM3PrintJobOutputModel.state m' = CloudClusterPrintJob.status j) ∧
     (∀ r, r < job_next w →
        let m := job_store w r in
        let m' := job_store w' r in
        UM3PrintJobOutputModel.assignedPrinter m'
        = UM3PrintJobOutputModel.assignedPrinter m ∧
        UM3PrintJobOutputModel.key m' = UM3PrintJobOutputModel.key m ∧
        UM3PrintJobOutputModel.name m' = UM3PrintJobOutputModel.name m ∧
        UM3PrintJobOutputModel.output_controller m'
        = UM3PrintJobOutputModel.output_controller m)) ∧
  (∀ model job w0,
     ∃ w0', _updateUM3PrintJobOutputModel model job w0 = Ok tt w0' ∧
       self w0' = self w0 ∧ printer_store w0' = printer_store w0 ∧
       trace w0' = trace w0 ∧
       (∀ r, r ≠ model → job_store w0' r = job_store w0 r) ∧
       let m := job_store w0 model in
       let m' := job_store w0' model in
       m' = UM3PrintJobOutputModel.mk
              (UM3PrintJobOutputModel.output_controller m)
              (UM3PrintJobOutputModel.key m)
              (UM3PrintJobOutputModel.name m)
              (UM3PrintJobOutputModel.assignedPrinter m)
              (CloudClusterPrintJob.time_total job)
              (CloudClusterPrintJob.time_elapsed job)
              (CloudClusterPrintJob.owner job)
              (CloudClusterPrintJob.status job)) ∧
  (∀ printers w0,
     ∃ w0', _updatePrinters printers w0 = Ok tt w0' ∧
       job_store w0' = job_store w0 ∧ job_next w0' = job_next w0 ∧
       _print_jobs (self w0') = _print_jobs (self w0)).
Proof.
  split_and!.
  - destruct (wp_run _ _ _ (_updatePrintJobs_spec jobs w))
      as ([] & w' & Hrun & _ & _ & _ & _ & Hsame & Hupd & _ & Hkeep & _).
    exists w'. split; [done|].
    assert (Hcur : ∀ k r, current_jobs w !! k = Some r →
              r ∈ _print_jobs (self w) ∧ job_key w r = k).
    { intros k r. apply dict_of_lookup_Some. }
    split.
    + intros k r j Hc Hj Hr. simpl.
      destruct (Hcur k r Hc) as [Hin Hk].
      destruct (Hupd r j Hr) as (_ & _ & _ & _ & ? & ? & ? & ?);
        [by rewrite Hk|by rewrite Hk|].
      split_and!; try done.
      apply Hkeep; [done|]. rewrite Hk. apply elem_of_dom. eauto.
    + intros r Hr. simpl.
      destruct (decide (current_jobs w !! job_key w r = Some r
                        ∧ job_key w r ∈ dom (remote_jobs jobs)))
        as [[Hc [j Hj]%elem_of_dom]|Hnot].
      * destruct (Hupd r j Hr Hc Hj) as (? & ? & ? & ? & _). by split_and!.
      * by rewrite (Hsame r Hr Hnot).
  - intros model job w0. eexists. split; [reflexivity|]. simpl.
    rewrite !store_update_eq. split_and!; try done.
    intros r Hr. by rewrite !store_update_ne.
  - intros printers w0.
    destruct (wp_run _ _ _ (_updatePrinters_spec printers w0))
      as ([] & w0' & Hrun & Hjs & Hjn & Hpj & _).
    by exists w0'.
Qed.

(** C10, as the code has it: an entity gets as many extruders as the remote
    configuration has entries when it is constructed, and neither
    [_updatePrinter] nor a whole pass ever changes the count of an entity. *)
Theorem extruder_count_set_at_construction
    (printers : list CloudClusterPrinter.t) (w : World) :
  (∃ w', _updatePrinters printers w = Ok tt w' ∧
     (∀ r, r < printer_next w →
        length (PrinterOutputModel.extruders (printer_store w' r))
        = length (PrinterOutputModel.extruders (printer_store w r))) ∧
     (∀ r, printer_next w ≤ r < printer_next w' →
        r ∈ _printers (self w') ∧
        ∃ p, p ∈ printers ∧
             length (PrinterOutputModel.extruders (printer_store w' r))
             = length (CloudClusterPrinter.configuration p)) ∧
     (∀ r, r ∈ _printers (self w') →
        r ∈ _printers (self w) ∨ printer_next w ≤ r < printer_next w')) ∧
  (∀ printer w0,
     ∃ w0', _addPrinter printer w0 = Ok tt w0' ∧
       _printers (self w0') = _printers (self w0) ++ [printer_next w0] ∧
       length (PrinterOutputModel.extruders
                 (printer_store w0' (printer_next w0)))
       = length (CloudClusterPrinter.configuration printer)) ∧
  (∀ model printer w0,
     ∃ w0', _updatePrinter model printer w0 = Ok tt w0' ∧
       ∀ r, length (PrinterOutputModel.extruders (printer_store w0' r))
            = length (PrinterOutputModel.extruders (printer_store w0 r))).
Proof.
  split_and!.
  - destruct (wp_run _ _ _ (_updatePrinters_spec printers w))
      as ([] & w' & Hrun & _ & _ & _ & _ & Hsame & Hupd & Hnew & Hin & _).
    exists w'. split_and!; [done| | |done].
    + intros r Hr.
      destruct (decide (current_printers w !! printer_key w r = Some r
                        ∧ printer_key w r ∈ dom (remote_printers printers)))
        as [[Hc [p Hp]%elem_of_dom]|Hnot].
      * by apply (printer_updated_extruders _ p), Hupd.
      * by rewrite (Hsame r Hr Hnot).
    + intros r Hr. destruct (Hnew r Hr) as (Hr' & p & Hp & _ & Hlen & _).
      split; [done|]. exists p. split; [|done].
      by apply (dict_of_lookup_Some _ _ _ _ Hp).
  - intros printer w0.
    destruct (wp_run _ _ _ (_addPrinter_spec printer w0))
      as ([] & w0' & Hrun & _ & Hl & _ & _ & _ & _ & _ & Hup & _).
    exists w0'. split_and!; [done|done|].
    rewrite (printer_updated_extruders _ _ _ Hup).
    apply new_printer_model_extruders.
  - intros model printer w0.
    destruct (wp_run _ _ _ (_updatePrinter_spec model printer w0))
      as ([] & w0' & Hrun & (_ & _ & _ & _ & Hother & _) & Hup).
    exists w0'. split; [done|]. intros r.
    destruct (decide (r = model)) as [->|Hne].
    + by apply (printer_updated_extruders _ printer).
    + by rewrite Hother.
Qed.

(** ** Views for the monitor page *)

(** X4: both job views are sub-lists of the job table in table order.  A
    job is in both exactly when it is in state ["error"] with a printer
    assigned; a queued job is never active; and when every job of the table
    has a printer assigned, every job is in at least one of the two
    views. *)
Theorem print_job_views (w : World) :
  queuedPrintJobs w `sublist_of` _print_jobs (self w) ∧
  activePrintJobs w `sublist_of` _print_jobs (self w) ∧
  (∀ j, j ∈ queuedPrintJobs w ∧ j ∈ activePrintJobs w ↔
        j ∈ _print_jobs (self w) ∧
        UM3PrintJobOutputModel.state (job_store w j) = "error" ∧
        UM3PrintJobOutputModel.assignedPrinter (job_store w j) ≠ None) ∧
  (∀ j, j ∈ _print_jobs (self w) →
        UM3PrintJobOutputModel.state (job_store w j) = "queued" →
        j ∈ queuedPrintJobs w ∧ (j ∉ activePrintJobs w)) ∧
  (∀ j, j ∈ _print_jobs (self w) →
        UM3PrintJobOutputModel.assignedPrinter (job_store w j) = None →
        (j ∉ activePrintJobs w) ∧
        (j ∈ queuedPrintJobs w ↔
         UM3PrintJobOutputModel.state (job_store w j) = "queued"
         ∨ UM3PrintJobOutputModel.state (job_store w j) = "error")) ∧
  (jobs_linked w →
   ∀ j, j ∈ _print_jobs (self w) →
        j ∈ queuedPrintJobs w ∨ j ∈ activePrintJobs w).
Proof.
  clear set_iter_perm set_iter super__update firmware_at_least_4_4
    getMaterialGroupListByGUID getGlobalContainerStack getMeshFileHandler.
  unfold queuedPrintJobs, activePrintJobs.
  split_and!; try apply sublist_filter; try done.
  - intros j. rewrite !list_elem_of_filter. split.
    + intros [[[Hq|He] Hin] [[Ha Hnq] _]]; [done|by split_and!].
    + intros (Hin & He & Ha). rewrite He.
      split; [split; [by right|done]|split; [by split|done]].
  - intros j Hin Hq. rewrite !list_elem_of_filter. split.
    + split; [by left|done].
    + by intros [[_ Hnq] _].
  - intros j Hin Hnone. rewrite !list_elem_of_filter. split.
    + by intros [[Ha _] _].
    + split; [by intros [? _]|by split].
  - intros Hlinked j Hin. rewrite !list_elem_of_filter.
    destruct (Hlinked j Hin) as (p & Hp & _).
    destruct (decide (UM3PrintJobOutputModel.state (job_store w j) = "queued"))
      as [Hq|Hnq].
    + left. split; [by left|done].
    + right. split; [|done]. split; [by rewrite Hp|done].
Qed.

(** ** Choice of the file format *)

Lemma mapM_cons_run {A} (f : string → M A) k ks w :
  mapM f (k :: ks) w
  = match f k w with
    | Ok x w1 =>
        match mapM f ks w1 with
        | Ok xs w2 => Ok (x :: xs) w2
        | Raise e w2 => Raise e w2
        end
    | Raise e w1 => Raise e w1
    end.
Proof. reflexivity. Qed.

Lemma mapM_dict_get_Ok {A} (d : gmap string A) ks w :
  (∀ k, k ∈ ks → is_Some (d !! k)) →
  ∃ xs, mapM (dict_get d) ks w = Ok xs w ∧
        Forall2 (λ k x, d !! k = Some x) ks xs.
Proof.
  induction ks as [|k ks IH]; intros Hall.
  - exists []. split; [done|constructor].
  - destruct (Hall k (list_elem_of_here _ _)) as [x Hx].
    destruct IH as (xs & Hrun & Hxs).
    { intros k' Hk'. apply Hall. by apply elem_of_cons; right. }
    exists (x :: xs). split; [|by constructor].
    rewrite mapM_cons_run. unfold dict_get at 1. rewrite Hx. simpl.
    by rewrite Hrun.
Qed.

Lemma mapM_dict_get_Raise {A} (d : gmap string A) pre k post w :
  (∀ m, m ∈ pre → is_Some (d !! m)) → d !! k = None →
  mapM (dict_get d) (pre ++ k :: post) w = Raise (KeyError k) w.
Proof.
  induction pre as [|m pre IH]; intros Hall Hk; simpl app.
  - rewrite mapM_cons_run. unfold dict_get at 1. by rewrite Hk.
  - destruct (Hall m (list_elem_of_here _ _)) as [x Hx].
    rewrite mapM_cons_run. unfold dict_get at 1. rewrite Hx. simpl.
    rewrite IH; [done| |done].
    intros m' Hm'. apply Hall. by apply elem_of_cons; right.
Qed.

Lemma machine_file_formats_nonempty entry : machine_file_formats entry ≠ [].
Proof.
  unfold machine_file_formats. destruct (_ && _); [done|].
  pose proof (split_nonempty ";"%char entry). by destruct (split _ _).
Qed.

Lemma _determineFileFormat_eq file_handler entry w :
  getGlobalContainerStack = Some entry →
  _determineFileFormat file_handler w
  = match mapM (dict_get (format_by_mimetype file_handler))
                (machine_file_formats entry) w with
    | Ok [] w' =>
        Raise (WriteRequestFailedError T.WRITE_FAILED)
              (with_event
                 (Logger_log "e"
                    "There are no file formats available to write with!") w')
    | Ok (file_format :: _) w' => Ok (Some file_format) w'
    | Raise e w' => Raise e w'
    end.
Proof.
  intros Hstack. unfold _determineFileFormat. rewrite Hstack.
  rewrite bind_run. unfold format_by_mimetype, machine_file_formats.
  destruct file_handler; simpl;
    match goal with
    | |- context [mapM (dict_get ?d) ?l w] =>
        by destruct (mapM (dict_get d) l w) as [[|]|]
    end.
Qed.

(** When every format of the machine can be written, the first of them is
    chosen and the world is left alone. *)
Lemma _determineFileFormat_Some file_handler entry first file_format :
  getGlobalContainerStack = Some entry →
  (∀ m, m ∈ machine_file_formats entry →
        is_Some (format_by_mimetype file_handler !! m)) →
  head (machine_file_formats entry) = Some first →
  format_by_mimetype file_handler !! first = Some file_format →
  ∀ w, _determineFileFormat file_handler w = Ok (Some file_format) w.
Proof.
  intros Hstack Hall Hfirst Hformat w.
  rewrite (_determineFileFormat_eq _ entry) by done.
  destruct (mapM_dict_get_Ok (format_by_mimetype file_handler)
              (machine_file_formats entry) w Hall) as (xs & -> & Hxs).
  destruct Hxs as [|m x ms xs Hx Hxs]; [done|].
  simpl in Hfirst. injection Hfirst as ->. congruence.
Qed.

(** X5: with a global stack that carries the formats entry, the preference
    list of the machine, its entries stripped of the white space of
    Unicode, is never empty; UFP is put in front exactly when the firmware
    is at least 4.4 and the machine does not list it.  When the application
    can write every
    format of the list, the format of its first entry is returned; as soon
    as one entry cannot be written, also a later one, the choice raises
    [KeyError] for the first such entry.  The world is never touched. *)
Theorem determineFileFormat_first_preference
    (file_handler : option FileHandler) (entry : string) (w : World) :
  getGlobalContainerStack = Some entry →
  let listed := strip <$> split ";"%char entry in
  let machine := machine_file_formats entry in
  let formats := format_by_mimetype file_handler in
  (∃ first, head machine = Some first ∧
     (first = "application/x-ufp" ∨ head listed = Some first)) ∧
  (firmware_at_least_4_4 = true → ("application/x-ufp" ∉ listed) →
     machine = "application/x-ufp" :: listed) ∧
  (firmware_at_least_4_4 = false ∨ "application/x-ufp" ∈ listed →
     machine = listed) ∧
  ((∀ m, m ∈ machine → is_Some (formats !! m)) →
     ∃ file_format,
       _determineFileFormat file_handler w = Ok (Some file_format) w ∧
       head machine = Some (mime_type file_format) ∧
       file_format ∈ getSupportedFileTypesWrite
                       (default getMeshFileHandler file_handler)) ∧
  (∀ pre k post,
     machine = pre ++ k :: post →
     (∀ m, m ∈ pre → is_Some (formats !! m)) → formats !! k = None →
     _determineFileFormat file_handler w = Raise (KeyError k) w).
Proof.
  clear set_iter_perm set_iter super__update getMaterialGroupListByGUID.
  intros Hstack listed machine formats.
  assert (Hmachine : machine = if bool_decide ("application/x-ufp" ∉ listed)
                                  && firmware_at_least_4_4
                               then "application/x-ufp" :: listed
                               else listed) by done.
  split_and!.
  - pose proof (machine_file_formats_nonempty entry) as Hne.
    fold machine in Hne. rewrite Hmachine in *.
    destruct (_ && _); [exists "application/x-ufp"; by split; [|left]|].
    destruct listed as [|first rest]; [done|].
    exists first. by split; [|right].
  - intros Hfw Hnot. rewrite Hmachine, Hfw, bool_decide_true by done. done.
  - intros [Hfw|Hin]; rewrite Hmachine.
    + by rewrite Hfw, andb_false_r.
    + by rewrite bool_decide_false by (by intros ?).
  - intros Hall.
    destruct (mapM_dict_get_Ok formats machine w Hall) as (xs & Hrun & Hxs).
    rewrite (_determineFileFormat_eq _ entry) by done.
    fold machine formats. rewrite Hrun.
    destruct Hxs as [|m x ms xs Hx Hxs].
    { by destruct (machine_file_formats_nonempty entry). }
    exists x. destruct (dict_of_lookup_Some _ _ _ _ Hx) as [Hin Hkey].
    split_and!; [done| |done]. simpl. by rewrite Hkey.
  - intros pre k post Hsplit Hpre Hk.
    rewrite (_determineFileFormat_eq _ entry) by done.
    fold machine formats. rewrite Hsplit.
    by rewrite mapM_dict_get_Raise.
Qed.

(** ** Outcomes of a write request *)

Lemma requestWrite_accepted nodes name limit_mime_types file_handler
    file_format writer w :
  _sending_job (self w) = false →
  _determineFileFormat file_handler (write_started w)
  = Ok (Some file_format) (write_started w) →
  writer_of file_handler file_format = Some writer →
  requestWrite nodes (Some name) limit_mime_types file_handler w
  = Ok tt (with_event
             (api_requestUpload
                (upload_request name file_format
                   (written writer file_format nodes))
                (cb_onPrintJobCreated (mesh_of writer file_format nodes)))
             (write_started w)).
Proof.
  intros Hidle Hformat Hwriter.
  unfold requestWrite, mbind, M_bind, get at 1. simpl.
  rewrite Hidle. simpl. fold (write_started w). rewrite Hformat.
  unfold _determineWriter, mbind, M_bind. simpl.
  unfold writer_of in Hwriter.
  destruct file_handler; simpl in *; by rewrite Hwriter.
Qed.

(** X6: the outcomes of [requestWrite] on an idle device, cause by cause.
    It first takes the sending flag and emits [writeStarted].  Without a
    global stack it logs that and raises [TypeError].  With the formats
    entry of the stack, the first format of the machine that the
    application cannot write raises [KeyError].  When all can be written,
    the first one is chosen: without a writer for it the request ends as an
    export error that releases the flag; with a writer but no file name it
    raises [TypeError]; with both, one upload request for the written mesh
    is issued, its size the length of what the stream holds, and the flag
    stays set.  Whenever it raises, the flag is left set. *)
Theorem requestWrite_outcomes
    (nodes : list SceneNode) (file_name : option string)
    (limit_mime_types : bool) (file_handler : option FileHandler)
    (w : World) :
  _sending_job (self w) = false →
  let run :=
    requestWrite nodes file_name limit_mime_types file_handler w in
  let formats := format_by_mimetype file_handler in
  (getGlobalContainerStack = None →
     run = Raise TypeError
             (with_event (Logger_log "e" "Missing global stack!")
                         (write_started w))) ∧
  (∀ entry pre k post,
     getGlobalContainerStack = Some entry →
     machine_file_formats entry = pre ++ k :: post →
     (∀ m, m ∈ pre → is_Some (formats !! m)) → formats !! k = None →
     run = Raise (KeyError k) (write_started w)) ∧
  (∀ entry first file_format,
     getGlobalContainerStack = Some entry →
     (∀ m, m ∈ machine_file_formats entry → is_Some (formats !! m)) →
     head (machine_file_formats entry) = Some first →
     formats !! first = Some file_format →
     match writer_of file_handler file_format, file_name with
     | None, _ =>
         ∃ w', run = Ok tt w' ∧
           _sending_job (self w') = false ∧
           _progress_message (self w') = None ∧
           trace w' = trace w
             ++ [writeStarted;
                 Logger_log "e"
                   "Unexpected error when trying to get the FileWriter";
                 Logger_log "e" "Missing file or mesh writer!"]
             ++ hide_events w
             ++ [Message_show
                   (mkMessage T.COULD_NOT_EXPORT T.ERROR None 10 true true);
                 writeError]
     | Some writer, None => run = Raise TypeError (write_started w)
     | Some writer, Some name =>
         run = Ok tt
                 (with_event
                    (api_requestUpload
                       (upload_request name file_format
                          (written writer file_format nodes))
                       (cb_onPrintJobCreated
                          (mesh_of writer file_format nodes)))
                    (write_started w))
     end) ∧
  _sending_job (self (write_started w)) = true ∧
  (∀ e w', run = Raise e w' → _sending_job (self w') = true).
Proof.
  clear set_iter_perm set_iter super__update getMaterialGroupListByGUID.
  intros Hidle run formats.
  assert (Hrun : run = (file_format ← _determineFileFormat file_handler;
                        writer ← _determineWriter file_handler file_format;
                        match writer with
                        | None =>
                            emit (Logger_log "e"
                                    "Missing file or mesh writer!");;
                            _onUploadError (Some T.COULD_NOT_EXPORT)
                        | Some writer =>
                            file_format ← match file_format with
                                          | Some f => mret f
                                          | None => raise TypeError
                                          end;
                            let stream := new_stream file_format in
                            let stream := write writer stream nodes in
                            file_name ← match file_name with
                                        | Some n => mret n
                                        | None => raise TypeError
                                        end;
                            _sendPrintJob
                              (file_name ++ "." ++ extension file_format)
                              (mime_type file_format) stream
                        end) (write_started w)).
  { unfold run, requestWrite, mbind, M_bind, get at 1. simpl.
    by rewrite Hidle. }
  assert (Hwriter : ∀ fmt w0,
            _determineWriter file_handler (Some fmt) w0
            = match writer_of file_handler fmt with
              | Some writer => Ok (Some writer) w0
              | None =>
                  Ok None
                     (with_event
                        (Logger_log "e"
                           "Unexpected error when trying to get the FileWriter")
                        w0)
              end).
  { intros fmt w0. unfold _determineWriter, writer_of, mbind, M_bind. simpl.
    destruct file_handler; simpl;
      by destruct (getWriterByMimeType _ (mime_type fmt)). }
  split_and!.
  - intros Hstack. rewrite Hrun, bind_run.
    unfold _determineFileFormat. by rewrite Hstack.
  - intros entry pre k post Hstack Hsplit Hpre Hk. rewrite Hrun, bind_run.
    rewrite (_determineFileFormat_eq _ entry) by done.
    fold formats. rewrite Hsplit. by rewrite mapM_dict_get_Raise.
  - intros entry first fmt Hstack Hall Hfirst Hformat.
    pose proof (_determineFileFormat_Some file_handler entry first fmt
                  Hstack Hall Hfirst Hformat (write_started w)) as Hchoice.
    rewrite Hrun, bind_run, Hchoice, bind_run, Hwriter.
    destruct (writer_of file_handler fmt) as [writer|].
    + by destruct file_name.
    + destruct (_onUploadError_run (Some T.COULD_NOT_EXPORT)
                  (with_event (Logger_log "e" "Missing file or mesh writer!")
                     (with_event
                        (Logger_log "e"
                           "Unexpected error when trying to get the FileWriter")
                        (write_started w))))
        as (w3 & Hrun3 & Hflag & Hmsg & _ & _ & _ & _ & _ & _ & Htrace).
      exists w3. split_and!; [exact Hrun3|done|done|].
      rewrite Htrace. simpl. by rewrite <- !app_assoc.
  - done.
  - intros e w'. by apply requestWrite_raises_with_flag_set.
Qed.

(** ** The upload pipeline, callback after callback *)

Lemma same_tables_refl w : same_tables w w.
Proof. by unfold same_tables. Qed.

Lemma same_tables_trans w1 w2 w3 :
  same_tables w1 w2 → same_tables w2 w3 → same_tables w1 w3.
Proof.
  unfold same_tables. intros (?&?&?&?&?&?) (?&?&?&?&?&?).
  split_and!; congruence.
Qed.

(** Progress reports in a row: one message object, shown once per report
    and carrying the last progress reported. *)
Lemma progress_loop_run (reports : list Z) : ∀ w,
  let message :=
    default new_progress_message (_progress_message (self w)) in
  ∃ w',
    for_each reports
      (λ p, invoke cb_updateUploadProgress (arg_progress p)) w = Ok tt w' ∧
    _progress_message (self w')
    = match last reports with
      | Some p => Some (setProgress p message)
      | None => _progress_message (self w)
      end ∧
    _sending_job (self w') = _sending_job (self w) ∧
    _device_id (self w') = _device_id (self w) ∧
    same_tables w w' ∧
    trace w' = trace w ++ ((λ p, Message_show (setProgress p message))
                             <$> reports).
Proof.
  induction reports as [|p reports IH]; intros w message.
  - exists w. split_and!; try done; try apply same_tables_refl.
    all: simpl; by rewrite ?app_nil_r.
  - set (w1 := with_event (Message_show (setProgress p message))
                 (with_self (with_progress_message
                               (Some (setProgress p message))) w)).
    assert (Hstep : invoke cb_updateUploadProgress (arg_progress p) w
                    = Ok tt w1).
    { unfold invoke, _updateUploadProgress, mbind, M_bind, get. simpl.
      unfold w1, message. by destruct (_progress_message (self w)). }
    destruct (IH w1) as (w' & Hrun & Hmsg & Hflag & Hid & Htab & Htrace).
    exists w'. split_and!.
    + cbn [for_each]. by rewrite bind_run, Hstep.
    + rewrite Hmsg, last_cons. by destruct (last reports).
    + by rewrite Hflag.
    + by rewrite Hid.
    + eapply same_tables_trans; [|exact Htab]. by unfold same_tables.
    + rewrite Htrace. simpl. by rewrite <- app_assoc.
Qed.

Lemma _onUploadSuccess_run response w :
  ∃ w', _onUploadSuccess response w = Ok tt w' ∧
        _sending_job (self w') = false ∧
        _progress_message (self w') = None ∧
        same_tables w w' ∧
        trace w' = trace w
          ++ [Logger_log "i"
                "The cluster will be printing this print job with the ID %s"]
          ++ hide_events w
          ++ [Message_show (mkMessage T.UPLOAD_SUCCESS_TEXT
                              T.UPLOAD_SUCCESS_TITLE None 5 true true);
              writeFinished].
Proof.
  unfold _onUploadSuccess, _resetUploadProgress, hide_events, same_tables,
    mbind, M_bind, get, emit, modify. simpl.
  destruct w as [[] ? ? ? ? ?]; simpl.
  destruct _progress_message0; simpl;
    eexists; (split; [done|]); split_and!; simpl;
    rewrite <- ?app_assoc; done.
Qed.

(** X7: one upload from request to confirmation.  On an idle device whose
    machine formats can all be written and whose first format has a writer,
    [requestWrite] issues the upload request; the callback registered with
    it starts the transfer of the same mesh; every progress callback shows
    the one progress message; the completion callback asks the device's own
    cluster to print; and the success callback hides the progress message
    once, shows the success message, releases the flag and emits
    [writeFinished].  The flag is held at every step in between, and the
    printer and job tables are never touched. *)
Theorem upload_round_trip
    (nodes : list SceneNode) (name : string) (limit_mime_types : bool)
    (file_handler : option FileHandler) (entry first : string)
    (file_format : FileFormat) (writer : FileWriter)
    (response : CloudJobResponse.t) (reports : list Z) (job_id : string)
    (print_response : CloudPrintResponse.t) (w : World) :
  _sending_job (self w) = false →
  getGlobalContainerStack = Some entry →
  (∀ m, m ∈ machine_file_formats entry →
        is_Some (format_by_mimetype file_handler !! m)) →
  head (machine_file_formats entry) = Some first →
  format_by_mimetype file_handler !! first = Some file_format →
  writer_of file_handler file_format = Some writer →
  let mesh := mesh_of writer file_format nodes in
  let message :=
    default new_progress_message (_progress_message (self w)) in
  ∃ w1 w2 w3 w4 w5,
    requestWrite nodes (Some name) limit_mime_types file_handler w
    = Ok tt w1 ∧
    invoke (cb_onPrintJobCreated mesh) (arg_job_response response) w1
    = Ok tt w2 ∧
    for_each reports
      (λ p, invoke cb_updateUploadProgress (arg_progress p)) w2
    = Ok tt w3 ∧
    invoke cb_onPrintJobUploaded (arg_job_id job_id) w3 = Ok tt w4 ∧
    invoke cb_onUploadSuccess (arg_print_response print_response) w4
    = Ok tt w5 ∧
    Forall (λ wi, _sending_job (self wi) = true) [w1; w2; w3; w4] ∧
    _sending_job (self w5) = false ∧
    _progress_message (self w5) = None ∧
    same_tables w w5 ∧
    trace w5 = trace w
      ++ [writeStarted;
          api_requestUpload
            (upload_request name file_format
               (written writer file_format nodes))
            (cb_onPrintJobCreated mesh);
          api_uploadMesh response mesh cb_onPrintJobUploaded
                         cb_updateUploadProgress
                         cb_onUploadError_UPLOAD_ERROR]
      ++ ((λ p, Message_show (setProgress p message)) <$> reports)
      ++ [api_requestPrint (_device_id (self w)) job_id cb_onUploadSuccess;
          Logger_log "i"
            "The cluster will be printing this print job with the ID %s"]
      ++ match last reports with
         | Some p => [Message_hide (setProgress p message)]
         | None => hide_events w
         end
      ++ [Message_show (mkMessage T.UPLOAD_SUCCESS_TEXT
                          T.UPLOAD_SUCCESS_TITLE None 5 true true);
          writeFinished].
Proof.
  clear set_iter_perm super__update.
  intros Hidle Hstack Hall Hfirst Hformat Hwriter mesh message.
  pose proof (_determineFileFormat_Some file_handler entry first file_format
                Hstack Hall Hfirst Hformat (write_started w)) as Hchoice.
  pose proof (requestWrite_accepted nodes name limit_mime_types file_handler
                file_format writer w Hidle Hchoice Hwriter) as Hrun1.
  fold mesh in Hrun1.
  set (w1 := with_event
               (api_requestUpload
                  (upload_request name file_format
                     (written writer file_format nodes))
                  (cb_onPrintJobCreated mesh))
               (write_started w)) in *.
  set (w2 := with_event
               (api_uploadMesh response mesh cb_onPrintJobUploaded
                  cb_updateUploadProgress cb_onUploadError_UPLOAD_ERROR) w1).
  destruct (progress_loop_run reports w2)
    as (w3 & Hrun3 & Hmsg3 & Hflag3 & Hid3 & Htab3 & Htrace3).
  set (w4 := with_event
               (api_requestPrint (_device_id (self w)) job_id
                                 cb_onUploadSuccess) w3).
  destruct (_onUploadSuccess_run print_response w4)
    as (w5 & Hrun5 & Hflag5 & Hmsg5 & Htab5 & Htrace5).
  exists w1, w2, w3, w4, w5. split_and!; try done.
  - unfold invoke, _onPrintJobUploaded, mbind, M_bind, get. simpl.
    by rewrite Hid3.
  - by repeat constructor.
  - eapply same_tables_trans; [|exact Htab5].
    eapply (same_tables_trans _ w2); [by unfold same_tables|].
    destruct Htab3 as (?&?&?&?&?&?). by unfold same_tables.
  - rewrite Htrace5. unfold hide_events. simpl. rewrite Hmsg3, Htrace3.
    simpl. rewrite <- !app_assoc. simpl.
    do 5 f_equal. unfold hide_events. by destruct (last reports).
Qed.

(** X8: [_onUploadError] returns from every world and with every message,
    also none: it hides the progress message if one is up, shows an error
    message only for a non-empty text, releases the sending flag and emits
    [writeError] last, leaving the tables alone.  The error callback of the
    transfer is this method with the upload error text, whatever argument
    the API client passes. *)
Theorem onUploadError_releases_flag
    (message : option string) (arg : CallbackArgument) (w : World) :
  (∃ w', _onUploadError message w = Ok tt w' ∧
         _sending_job (self w') = false ∧
         _progress_message (self w') = None ∧
         same_tables w w' ∧
         trace w' = trace w ++ hide_events w
                            ++ error_message_events message
                            ++ [writeError]) ∧
  (message = None ∨ message = Some "" ↔ error_message_events message = []) ∧
  invoke cb_onUploadError_UPLOAD_ERROR arg w
  = _onUploadError (Some T.UPLOAD_ERROR) w ∧
  error_message_events (Some T.UPLOAD_ERROR)
  = [Message_show (mkMessage T.UPLOAD_ERROR T.ERROR None 10 true true)].
Proof.
  clear set_iter_perm super__update firmware_at_least_4_4
    getGlobalContainerStack getMeshFileHandler.
  split_and!.
  - destruct (_onUploadError_run message w)
      as (w' & Hrun & ? & ? & ? & ? & ? & ? & ? & ? & ?).
    exists w'. by split_and!.
  - destruct message as [[|c s]|]; simpl; split; intros H; try done;
      try (by destruct H); try (by right); by left.
  - by destruct arg.
  - done.
Qed.

(** ** Choice of the material *)

Lemma String_compare_no_Gt_trans s1 : ∀ s2 s3,
  String.compare s1 s2 ≠ Gt → String.compare s2 s3 ≠ Gt →
  String.compare s1 s3 ≠ Gt.
Proof.
  induction s1 as [|a s1 IH]; intros [|b s2] [|c s3];
    cbn [String.compare]; try done.
  unfold Ascii.compare.
  destruct (N.compare_spec (N_of_ascii a) (N_of_ascii b)) as [Hab|Hab|Hab];
    [| |done];
    destruct (N.compare_spec (N_of_ascii b) (N_of_ascii c)) as [Hbc|Hbc|Hbc];
    try done; intros H1 H2.
  - rewrite Hab, Hbc, N.compare_refl. by apply (IH s2).
  - by rewrite Hab, (proj2 (N.compare_lt_iff _ _) Hbc).
  - by rewrite <- Hbc, (proj2 (N.compare_lt_iff _ _) Hab).
  - by rewrite (proj2 (N.compare_lt_iff _ _) (N.lt_trans _ _ _ Hab Hbc)).
Qed.

Lemma String_leb_trans s1 s2 s3 :
  String.leb s1 s2 = true → String.leb s2 s3 = true →
  String.leb s1 s3 = true.
Proof.
  unfold String.leb. intros H1 H2.
  pose proof (String_compare_no_Gt_trans s1 s2 s3) as H.
  destruct (String.compare s1 s2), (String.compare s2 s3),
    (String.compare s1 s3); try done; by destruct H.
Qed.

Lemma String_leb_refl s : String.leb s s = true.
Proof. by destruct (String.leb_total s s). Qed.

Lemma String_leb_false s1 s2 :
  String.leb s1 s2 = false → String.leb s2 s1 = true ∧ s1 ≠ s2.
Proof.
  intros H. split.
  - destruct (String.leb_total s1 s2); congruence.
  - intros ->. by rewrite String_leb_refl in H.
Qed.

(** The head of the sorted list is the first of the entries with the
    least name. *)
Lemma sorted_by_name_head l :
  match sorted_by_name l with
  | [] => l = []
  | g :: _ =>
      ∃ pre post, l = pre ++ g :: post ∧
        (∀ g', g' ∈ pre →
           String.leb (MaterialGroup.name g') (MaterialGroup.name g) = false) ∧
        (∀ g', g' ∈ post →
           String.leb (MaterialGroup.name g) (MaterialGroup.name g') = true)
  end.
Proof.
  induction l as [|x l IH]; [done|].
  change (sorted_by_name (x :: l)) with (insert_by_name x (sorted_by_name l)).
  destruct (sorted_by_name l) as [|h s]; simpl.
  - subst l. exists [], []. split_and!; [done|..]; by intros g' ?%elem_of_nil.
  - destruct IH as (pre & post & -> & Hpre & Hpost).
    destruct (String.leb (MaterialGroup.name x) (MaterialGroup.name h))
      eqn:Hxh.
    + exists [], (pre ++ h :: post).
      split_and!; [done|by intros g' ?%elem_of_nil|].
      intros g' [Hg'|[->|Hg']%elem_of_cons]%elem_of_app; [|done|].
      * apply String_leb_trans with (MaterialGroup.name h); [done|].
        by apply String_leb_false, Hpre.
      * apply String_leb_trans with (MaterialGroup.name h); [done|].
        by apply Hpost.
    + exists (x :: pre), post. split_and!; [done| |done].
      intros g' [->|Hg']%elem_of_cons; [done|by apply Hpre].
Qed.

Lemma filter_split {A} (f : A → bool) l pre x post :
  List.filter f l = pre ++ x :: post →
  ∃ pre0 post0, l = pre0 ++ x :: post0 ∧ f x = true ∧
                List.filter f pre0 = pre ∧ List.filter f post0 = post.
Proof.
  revert pre. induction l as [|y l IH]; intros pre; simpl.
  - by destruct pre.
  - destruct (f y) eqn:Hy.
    + destruct pre as [|z pre]; simpl.
      * intros [= -> <-]. exists [], l. by split_and!.
      * intros [= -> Hrest].
        destruct (IH pre Hrest) as (pre0 & post0 & -> & Hx & Hpre & Hpost).
        exists (z :: pre0), post0. simpl. rewrite Hy, Hpre. by split_and!.
    + intros Hrest.
      destruct (IH pre Hrest) as (pre0 & post0 & -> & Hx & Hpre & Hpost).
      exists (y :: pre0), post0. simpl. rewrite Hy. by split_and!.
Qed.

Lemma elem_of_List_filter {A} (f : A → bool) l x :
  x ∈ List.filter f l ↔ x ∈ l ∧ f x = true.
Proof.
  rewrite !list_elem_of_In. apply filter_In.
Qed.

(** X9: the material model of an extruder always carries the GUID the
    cluster reported.  Without a material group for that GUID the fields are
    the ones the cluster sent, the name is ["Empty"] for the material
    ["empty"] and ["Unknown"] otherwise, and one warning that names the
    GUID is logged.  With groups, nothing is logged and the fields come
    from the root container of
    one of them: a read-only group whenever there is one, with the least
    name among the groups of its kind, and the first of those in the list
    when names tie. *)
Theorem createMaterialOutputModel_choice
    (material : CloudClusterPrinterConfigurationMaterial.t) (w : World) :
  let guid := CloudClusterPrinterConfigurationMaterial.guid material in
  let groups := default [] (getMaterialGroupListByGUID guid) in
  ∃ m w',
    _createMaterialOutputModel material w = Ok m w' ∧
    MaterialOutputModel.guid m = guid ∧
    (groups = [] →
       m = MaterialOutputModel.mk guid
             (CloudClusterPrinterConfigurationMaterial.material material)
             (CloudClusterPrinterConfigurationMaterial.brand material)
             (CloudClusterPrinterConfigurationMaterial.color material)
             (if String.eqb
                   (CloudClusterPrinterConfigurationMaterial.material material)
                   "empty"
              then "Empty" else "Unknown") ∧
       w' = with_event
              (Logger_log "w"
                 ("Unable to find material with guid " ++ guid
                  ++ ". Using data as provided by cluster"))
              w) ∧
    (groups ≠ [] →
       w' = w ∧
       ∃ pre g post,
         groups = pre ++ g :: post ∧
         m = MaterialOutputModel.mk guid
               (MaterialContainer.material (MaterialGroup.root_material_node g))
               (MaterialContainer.brand (MaterialGroup.root_material_node g))
               (MaterialContainer.color_code
                  (MaterialGroup.root_material_node g))
               (MaterialContainer.getName
                  (MaterialGroup.root_material_node g)) ∧
         (∀ g', g' ∈ groups → MaterialGroup.is_read_only g' = true →
                MaterialGroup.is_read_only g = true) ∧
         (∀ g', g' ∈ groups →
                MaterialGroup.is_read_only g' = MaterialGroup.is_read_only g →
                String.leb (MaterialGroup.name g) (MaterialGroup.name g')
                = true) ∧
         (∀ g', g' ∈ pre →
                MaterialGroup.is_read_only g' = MaterialGroup.is_read_only g →
                MaterialGroup.name g' ≠ MaterialGroup.name g)).
Proof.
  clear set_iter_perm set_iter super__update firmware_at_least_4_4
    getGlobalContainerStack getMeshFileHandler.
  intros guid groups.
  (* the group chosen among the candidates of one kind *)
  assert (Hpick : ∀ f : MaterialGroup.t → bool, ∀ r ro,
            List.filter f groups = r :: ro →
            ∃ pre g post,
              head (sorted_by_name (r :: ro)) = Some g ∧
              groups = pre ++ g :: post ∧ f g = true ∧
              (∀ g', g' ∈ groups → f g' = true →
                 String.leb (MaterialGroup.name g) (MaterialGroup.name g')
                 = true) ∧
              (∀ g', g' ∈ pre → f g' = true →
                 MaterialGroup.name g' ≠ MaterialGroup.name g)).
  { intros f r ro Hf.
    pose proof (sorted_by_name_head (r :: ro)) as Hhead.
    destruct (sorted_by_name (r :: ro)) as [|g s]; [done|].
    destruct Hhead as (pre & post & Hsplit & Hpre & Hpost).
    rewrite Hsplit in Hf.
    destruct (filter_split f groups pre g post Hf)
      as (pre0 & post0 & Hgroups & Hg & Hpre0 & Hpost0).
    exists pre0, g, post0. split_and!; [done|done|done| |].
    - intros g' Hin Hg'.
      assert (Hg'' : g' ∈ pre ++ g :: post).
      { rewrite <- Hf. by apply elem_of_List_filter. }
      apply elem_of_app in Hg'' as [Hg''|[->|Hg'']%elem_of_cons].
      + by apply String_leb_false, Hpre.
      + apply String_leb_refl.
      + by apply Hpost.
    - intros g' Hin Hg'. apply String_leb_false, Hpre.
      rewrite <- Hpre0. by apply elem_of_List_filter. }
  unfold _createMaterialOutputModel. cbv zeta. fold guid. fold groups.
  destruct (List.filter MaterialGroup.is_read_only groups)
    as [|r ro] eqn:Hro.
  - destruct (List.filter (λ x, negb (MaterialGroup.is_read_only x)) groups)
      as [|r ro] eqn:Hnro.
    + (* no group at all *)
      assert (Hnil : groups = []).
      { destruct groups as [|x l]; [done|]. simpl in Hro, Hnro.
        by destruct (MaterialGroup.is_read_only x). }
      eexists _, _. split; [reflexivity|]. by split_and!.
    + destruct (Hpick _ r ro Hnro)
        as (pre & g & post & -> & Hgroups & Hg & Hmin & Htie).
      apply negb_true_iff in Hg.
      eexists _, _. split; [reflexivity|]. split_and!; [done| |].
      * intros Hnil. rewrite Hnil in Hgroups. by destruct pre.
      * intros _. split; [done|]. exists pre, g, post.
        split_and!; [done|done| | |].
        -- intros g' Hin Hro'.
           assert (g' ∈ List.filter MaterialGroup.is_read_only groups)
             as Hg' by by apply elem_of_List_filter.
           rewrite Hro in Hg'. by apply elem_of_nil in Hg'.
        -- intros g' Hin Heq. apply Hmin; [done|].
           apply negb_true_iff. congruence.
        -- intros g' Hin Heq. apply Htie; [done|].
           apply negb_true_iff. congruence.
  - destruct (Hpick _ r ro Hro)
      as (pre & g & post & -> & Hgroups & Hg & Hmin & Htie).
    eexists _, _. split; [reflexivity|]. split_and!; [done| |].
    + intros Hnil. rewrite Hnil in Hgroups. by destruct pre.
    + intros _. split; [done|]. exists pre, g, post.
      split_and!; [done|done|done| |].
      * intros g' Hin Heq. apply Hmin; [done|congruence].
      * intros g' Hin Heq. apply Htie; [done|congruence].
Qed.

(** ** Removal loops, exactly *)

Lemma filter_all {A} (P : A → Prop) `{∀ x, Decision (P x)} (l : list A) :
  (∀ x, x ∈ l → P x) → filter P l = l.
Proof.
  induction l as [|y l IH]; intros Hall; [done|].
  rewrite filter_cons_True by apply Hall, list_elem_of_here.
  rewrite IH; [done|]. intros x Hx. apply Hall. by apply elem_of_cons; right.
Qed.

Lemma filter_none {A} (P : A → Prop) `{∀ x, Decision (P x)} (l : list A) :
  (∀ x, x ∈ l → ¬ P x) → filter P l = [].
Proof.
  induction l as [|y l IH]; intros Hall; [done|].
  rewrite filter_cons_False by apply Hall, list_elem_of_here.
  apply IH. intros x Hx. apply Hall. by apply elem_of_cons; right.
Qed.

Lemma filter_ext_elem_of {A} (P Q : A → Prop) `{∀ x, Decision (P x)}
    `{∀ x, Decision (Q x)} (l : list A) :
  (∀ x, x ∈ l → P x ↔ Q x) → filter P l = filter Q l.
Proof.
  induction l as [|y l IH]; intros Hall; [done|].
  assert (Hl : filter P l = filter Q l).
  { apply IH. intros x Hx. apply Hall. by apply elem_of_cons; right. }
  pose proof (Hall y (list_elem_of_here _ _)) as Hy.
  destruct (decide (P y)) as [HP|HP].
  - rewrite !filter_cons_True by tauto. by rewrite Hl.
  - rewrite !filter_cons_False by tauto. done.
Qed.

(** In a list without two elements of the same key, [l.remove(r)] drops
    exactly the elements with the key of [r]. *)
Lemma list_remove_filter (keyf : ref → string) r l :
  NoDup (keyf <$> l) → r ∈ l →
  list_remove r l = Some (filter (λ q, keyf q ≠ keyf r) l).
Proof.
  induction l as [|y l IH]; [by intros _ ?%elem_of_nil|].
  rewrite fmap_cons. intros [Hy Hnd]%NoDup_cons Hin. simpl.
  destruct (decide (y = r)) as [->|Hne].
  - rewrite filter_cons_False by (by intros ?). f_equal. symmetry.
    apply filter_all. intros x Hx Heq. apply Hy. rewrite <- Heq.
    by apply list_elem_of_fmap_2.
  - apply elem_of_cons in Hin as [->|Hin]; [done|].
    rewrite filter_cons_True.
    + by rewrite IH.
    + intros Heq. apply Hy. rewrite Heq. by apply list_elem_of_fmap_2.
Qed.

(** The removal loop over distinct keys [xs] of a list without two elements
    of the same key: what is left are the elements whose key is not in
    [xs], in the order they had. *)
Lemma remove_loop_filter
    (get_list : World → list ref) (set_list : list ref → World → World)
    (remove : ref → M unit) (d : gmap string ref) (keyf : ref → string) :
  (∀ l w, get_list (set_list l w) = l) →
  (∀ l1 l2 w, set_list l2 (set_list l1 w) = set_list l2 w) →
  (∀ w, set_list (get_list w) w = w) →
  (∀ r w, remove r w = match list_remove r (get_list w) with
                       | Some l => Ok tt (set_list l w)
                       | None => Raise ValueError w
                       end) →
  ∀ xs w, NoDup xs → NoDup (keyf <$> get_list w) →
    (∀ x, x ∈ xs → ∃ r, d !! x = Some r ∧ r ∈ get_list w ∧ keyf r = x) →
    for_each xs (λ x, model ← dict_get d x; remove model) w
    = Ok tt (set_list (filter (λ q, keyf q ∉ xs) (get_list w)) w).
Proof.
  clear set_iter_perm set_iter super__update firmware_at_least_4_4
    getMaterialGroupListByGUID getGlobalContainerStack getMeshFileHandler.
  intros Hgs Hss Hsg Hremove.
  induction xs as [|x xs IH]; intros w Hnd Hkeys Hxs; simpl.
  - rewrite filter_all; [by rewrite Hsg|]. by intros q _ ?%elem_of_nil.
  - apply NoDup_cons in Hnd as [Hx Hnd].
    destruct (Hxs x (list_elem_of_here _ _)) as (r & Hdx & Hr & Hkr).
    unfold mbind, M_bind, dict_get at 1. rewrite Hdx. simpl.
    rewrite Hremove, (list_remove_filter keyf) by done. rewrite Hkr.
    rewrite IH; [|done| |].
    + rewrite Hgs, Hss. do 2 f_equal.
      rewrite list_filter_filter. apply list_filter_iff.
      intros q. rewrite not_elem_of_cons. tauto.
    + rewrite Hgs.
      apply (sublist_NoDup _ _ Hkeys), fmap_sublist, sublist_filter.
    + intros x' Hx'.
      destruct (Hxs x' (proj2 (elem_of_cons _ _ _) (or_intror Hx')))
        as (r' & Hdx' & Hr' & Hkr').
      exists r'. split_and!; [done| |done].
      rewrite Hgs. apply list_elem_of_filter. split; [|done].
      rewrite Hkr'. by intros ->.
Qed.

(** ** The printer table after a pass *)

(** After a pass over a well-formed table, the table lists the old entities
    whose key is in the snapshot, in the order they had, followed by the
    entities created in this pass in the order of their creation; and every
    key of the snapshot the table did not have belongs to one of the new
    entities. *)
Lemma _updatePrinters_structure printers w :
  printers_wf w →
  let remote := remote_printers printers in
  let current := current_printers w in
  wp (_updatePrinters printers) (λ _ w',
    printer_next w ≤ printer_next w' ∧
    _printers (self w')
    = filter (λ q, printer_key w q ∈ dom remote) (_printers (self w))
      ++ seq (printer_next w) (printer_next w' - printer_next w) ∧
    (∀ x, x ∈ dom remote → x ∉ dom current →
       ∃ r, printer_next w ≤ r < printer_next w' ∧ printer_key w' r = x)) w.
Proof.
  intros [Hwf Hnd] remote current.
  assert (Hcur : ∀ x r, current !! x = Some r →
            r ∈ _printers (self w) ∧ printer_key w r = x).
  { intros x r. apply dict_of_lookup_Some. }
  assert (Hrem : ∀ x p, remote !! x = Some p →
            p ∈ printers ∧ CloudClusterPrinter.uuid p = x).
  { intros x p. apply dict_of_lookup_Some. }
  unfold _updatePrinters. apply wp_bind, wp_get.
  unfold removed_printer_ids, new_printer_ids, updated_printer_ids.
  fold remote current.
  (* removed printers *)
  apply wp_bind. eapply wp_of_run.
  { apply (remove_loop_filter (λ w, _printers (self w))
             (λ l, with_self (with_printers l)) _printers_remove
             current (printer_key w));
      [done|done|by intros [[] ? ? ? ? ?]|apply _printers_remove_eq
      |apply set_iter_NoDup|done|].
    intros x [Hx _]%set_iter_elem_of%elem_of_difference.
    apply elem_of_dom in Hx as [r Hr]. exists r.
    destruct (Hcur x r Hr). by split_and!. }
  assert (Hl1 :
    filter (λ q, printer_key w q ∉ set_iter (dom current ∖ dom remote))
           (_printers (self w))
    = filter (λ q, printer_key w q ∈ dom remote) (_printers (self w))).
  { apply filter_ext_elem_of. intros q Hq.
    rewrite set_iter_elem_of, elem_of_difference.
    assert (printer_key w q ∈ dom current) by (apply dom_dict_of; eauto).
    destruct (decide (printer_key w q ∈ dom remote)); tauto. }
  simpl. rewrite Hl1.
  set (l1 := filter (λ q, printer_key w q ∈ dom remote) (_printers (self w))).
  (* new printers *)
  apply wp_bind.
  eapply wp_mono.
  { apply (wp_for_each (λ done w2,
      printer_next w ≤ printer_next w2 ∧
      _printers (self w2)
      = l1 ++ seq (printer_next w) (printer_next w2 - printer_next w) ∧
      (∀ x, x ∈ done →
         ∃ r, printer_next w ≤ r < printer_next w2
              ∧ printer_key w2 r = x))).
    - simpl. split_and!; [done| |by intros x ?%elem_of_nil].
      by rewrite Nat.sub_diag, app_nil_r.
    - intros done x rest w2 Hsplit (Hpn & Hpl & Hdone).
      apply set_iter_split in Hsplit as [Hx Hfresh].
      apply elem_of_difference in Hx as [Hx Hxc].
      apply elem_of_dom in Hx as [p Hp].
      destruct (Hrem x p Hp) as [_ Hux].
      apply wp_bind. eapply wp_dict_get; [exact Hp|].
      eapply wp_mono; [apply _addPrinter_spec|].
      intros [] w2' (Hpn' & Hpl' & _ & _ & _ & _ & Hother' & Hupd' & _).
      simpl. split_and!.
      + lia.
      + rewrite Hpl', Hpl, Hpn'.
        replace (S (printer_next w2) - printer_next w)
          with (S (printer_next w2 - printer_next w)) by lia.
        rewrite seq_S, app_assoc. do 2 f_equal. lia.
      + intros x' [Hx'|Hx'%list_elem_of_singleton]%elem_of_app.
        * destruct (Hdone x' Hx') as (r & Hr & Hk). exists r.
          split; [lia|]. unfold printer_key in *.
          rewrite Hother' by lia. done.
        * subst x'. exists (printer_next w2). split; [lia|].
          unfold printer_key. by destruct Hupd' as (_ & _ & -> & _). }
  intros [] w2 (Hpn2 & Hpl2 & Hdone2). simpl.
  (* updated printers *)
  apply wp_bind.
  eapply wp_mono.
  { apply (wp_for_each (λ _ w3,
      self w3 = self w2 ∧ printer_next w3 = printer_next w2 ∧
      (∀ r, printer_next w ≤ r →
         printer_store w3 r = printer_store w2 r))).
    - done.
    - intros done x rest w3 Hsplit (Hs & Hpn & Hsame).
      apply set_iter_split in Hsplit as [Hx _].
      apply elem_of_intersection in Hx as [Hxc Hxr].
      apply elem_of_dom in Hxc as [r0 Hr0]. apply elem_of_dom in Hxr as [p0 Hp0].
      destruct (Hcur x r0 Hr0) as [Hin0 _].
      apply wp_bind. eapply wp_dict_get; [exact Hr0|].
      apply wp_bind. eapply wp_dict_get; [exact Hp0|].
      eapply wp_mono; [apply _updatePrinter_spec|].
      intros [] w3' ((Hs' & Hpn' & _ & _ & Hother & _) & _).
      simpl. split_and!; try congruence.
      intros r Hr. rewrite Hother; [by apply Hsame|].
      intros ->. apply Hwf in Hin0. lia. }
  intros [] w3 (Hs3 & Hpn3 & Hsame3). simpl.
  apply wp_emit. simpl. rewrite Hs3, Hpn3. split_and!; [done|done|].
  intros x Hx Hxc.
  destruct (Hdone2 x) as (r & Hr & Hk).
  { apply set_iter_elem_of, elem_of_difference. by split. }
  exists r. split; [done|]. unfold printer_key in *. simpl.
  rewrite Hsame3 by lia. done.
Qed.

Lemma _updatePrinters_table printers w :
  printers_wf w →
  let remote := remote_printers printers in
  ∃ w', _updatePrinters printers w = Ok tt w' ∧
    printer_next w ≤ printer_next w' ∧
    _printers (self w')
    = filter (λ q, printer_key w q ∈ dom remote) (_printers (self w))
      ++ seq (printer_next w) (printer_next w' - printer_next w) ∧
    (∀ k, (∃ q, q ∈ _printers (self w') ∧ printer_key w' q = k)
          ↔ k ∈ dom remote).
Proof.
  intros Hwfw remote. pose proof Hwfw as [Hwf Hnd].
  destruct (wp_run _ _ _
              (wp_and _ _ _ _ (_updatePrinters_spec printers w)
                 (wp_and _ _ _ _ (_updatePrinters_keys printers w Hwfw)
                    (_updatePrinters_structure printers w Hwfw))))
    as ([] & w' & Hrun & (_ & _ & _ & _ & _ & _ & Hnew & _ & Hkeep & _)
        & Hkeys & Hle & Hlist & Hadded).
  fold remote in Hnew, Hkeep, Hlist, Hadded.
  exists w'. split_and!; [done|done|done|].
  intros k. split.
  - intros (q & Hq & <-).
    destruct (Hkeys q Hq) as [[Hold ->]|[Hfresh _]].
    + rewrite Hlist in Hq.
      apply elem_of_app in Hq as [Hq|Hq%elem_of_seq].
      * by apply list_elem_of_filter in Hq as [? _].
      * apply Hwf in Hold. lia.
    + destruct (Hnew q Hfresh) as (_ & p & Hp & _ & _ & Hup).
      destruct (Hup Hwf) as (_ & _ & Hk & _).
      unfold printer_key. rewrite Hk. apply elem_of_dom. eauto.
  - intros Hk.
    destruct (decide (k ∈ dom (current_printers w))) as [Hc|Hc].
    + apply elem_of_dom in Hc as [q Hq].
      apply dict_of_lookup_Some in Hq as [Hq Hkq].
      fold (printer_key w q) in Hkq. subst k.
      assert (Hq' : q ∈ _printers (self w')) by by apply Hkeep.
      exists q. split; [done|].
      destruct (Hkeys q Hq') as [[_ ?]|[Hfresh _]]; [done|].
      apply Hwf in Hq. lia.
    + destruct (Hadded k Hk Hc) as (r & Hr & Hkr).
      exists r. split; [|done]. by apply Hnew.
Qed.

(** X10: after a pass over a well-formed table, the keys of the table are
    exactly the UUIDs of the snapshot: removed entities are gone, and every
    UUID of the snapshot has an entity.  The entities that stay keep their
    relative order and the new ones follow them in the order of their
    creation.  So a second pass with the same snapshot finds nothing to
    remove and nothing to add, and updates every entity. *)
Theorem updatePrinters_table_matches_snapshot
    (printers : list CloudClusterPrinter.t) (w : World) :
  printers_wf w →
  let remote := remote_printers printers in
  ∃ w', _updatePrinters printers w = Ok tt w' ∧
    _printers (self w')
    = filter (λ q, printer_key w q ∈ dom remote) (_printers (self w))
      ++ seq (printer_next w) (printer_next w' - printer_next w) ∧
    (∀ k, (∃ q, q ∈ _printers (self w') ∧ printer_key w' q = k)
          ↔ ∃ p, p ∈ printers ∧ CloudClusterPrinter.uuid p = k) ∧
    dom (current_printers w') = dom remote ∧
    removed_printer_ids (current_printers w') remote = ∅ ∧
    new_printer_ids (current_printers w') remote = ∅ ∧
    updated_printer_ids (current_printers w') remote = dom remote.
Proof.
  intros Hwfw remote.
  destruct (_updatePrinters_table printers w Hwfw)
    as (w' & Hrun & _ & Hlist & Hkeys).
  fold remote in Hlist, Hkeys.
  assert (Hdom : dom (current_printers w') = dom remote).
  { apply set_eq. intros k. rewrite <- Hkeys. apply dom_dict_of. }
  exists w'.
  unfold removed_printer_ids, new_printer_ids, updated_printer_ids.
  rewrite Hdom. split_and!; [done|done| |done|..].
  - intros k. rewrite Hkeys. apply dom_dict_of.
  - apply set_eq. intros k. rewrite elem_of_difference, elem_of_empty. tauto.
  - apply set_eq. intros k. rewrite elem_of_difference, elem_of_empty. tauto.
  - apply set_eq. intros k. rewrite elem_of_intersection. tauto.
Qed.

Lemma activePrinter_head w : activePrinter w = head (_printers (self w)).
Proof. unfold activePrinter. by destruct (_printers (self w)). Qed.

(** X11: the active printer is the first entity of the table, or none for
    an empty table.  Across a pass over a well-formed table it stays the
    same entity as long as its key is in the snapshot; when no entity of the
    table is in a non-empty snapshot, the first entity created becomes the
    active printer; and there is no active printer after the pass exactly
    when the snapshot is empty. *)
Theorem activePrinter_after_pass
    (printers : list CloudClusterPrinter.t) (w : World) :
  printers_wf w →
  let remote := remote_printers printers in
  ∃ w', _updatePrinters printers w = Ok tt w' ∧
    (activePrinter w = None ↔ _printers (self w) = []) ∧
    (∀ r, activePrinter w = Some r → printer_key w r ∈ dom remote →
          activePrinter w' = Some r) ∧
    (∀ r, activePrinter w' = Some r →
          r ∈ _printers (self w') ∧ printer_key w' r ∈ dom remote) ∧
    ((∀ q, q ∈ _printers (self w) → printer_key w q ∉ dom remote) →
     printers ≠ [] → activePrinter w' = Some (printer_next w)) ∧
    (activePrinter w' = None ↔ printers = []).
Proof.
  intros Hwfw remote.
  destruct (_updatePrinters_table printers w Hwfw)
    as (w' & Hrun & Hle & Hlist & Hkeys).
  fold remote in Hlist, Hkeys.
  assert (Hnone : activePrinter w' = None ↔ printers = []).
  { rewrite activePrinter_head. split.
    - intros Hhead. destruct printers as [|p printers]; [done|].
      destruct (proj2 (Hkeys (CloudClusterPrinter.uuid p))) as (q & Hq & _).
      { apply dom_dict_of. exists p. split; [apply list_elem_of_here|done]. }
      destruct (_printers (self w')); [by apply elem_of_nil in Hq|done].
    - intros ->. destruct (_printers (self w')) as [|q l] eqn:Hl; [done|].
      assert (Hk : printer_key w' q ∈ dom remote).
      { apply Hkeys. exists q. split; [apply list_elem_of_here|done]. }
      apply elem_of_dom in Hk as [p Hp].
      by apply dict_of_lookup_Some in Hp as [?%elem_of_nil _]. }
  exists w'. split_and!; [done| | | | |done].
  - rewrite activePrinter_head. by destruct (_printers (self w)).
  - intros r. rewrite !activePrinter_head, Hlist.
    destruct (_printers (self w)) as [|q l]; [done|].
    intros [= ->] Hr. by rewrite filter_cons_True.
  - intros r. rewrite activePrinter_head. intros Hhead.
    assert (Hr : r ∈ _printers (self w')).
    { destruct (_printers (self w')) as [|q l]; [done|].
      injection Hhead as ->. apply list_elem_of_here. }
    split; [done|]. apply Hkeys. eauto.
  - intros Hgone Hne. rewrite activePrinter_head, Hlist.
    assert (Hnil : filter (λ q, printer_key w q ∈ dom remote)
                          (_printers (self w)) = []).
    { apply filter_none. intros q Hq. by apply Hgone. }
    rewrite Hnil. simpl.
    destruct (printer_next w' - printer_next w) as [|n] eqn:Hn; [|done].
    exfalso. apply Hne, Hnone. by rewrite activePrinter_head, Hlist, Hnil, ?Hn.
Qed.

(** ** The job table after a pass *)

Lemma printer_of_Some w job p :
  printer_of w job = Some p →
  p ∈ _printers (self w) ∧
  printer_key w p = CloudClusterPrintJob.printer_uuid job.
Proof.
  unfold printer_of. intros [Hin Heq]%find_some. split.
  - by apply list_elem_of_In.
  - symmetry. by apply String.eqb_eq.
Qed.

Lemma printer_of_None w job :
  printer_of w job = None ↔
  ∀ p, p ∈ _printers (self w) →
       printer_key w p ≠ CloudClusterPrintJob.printer_uuid job.
Proof.
  unfold printer_of. rewrite find_none_iff. unfold printer_key.
  split; intros H p Hp.
  - intros Heq. specialize (H p Hp). apply String.eqb_neq in H. congruence.
  - apply String.eqb_neq. intros Heq. by apply (H p Hp).
Qed.

Lemma _addPrintJob_found job w p :
  printer_of w job = Some p →
  ∃ w', _addPrintJob job w = Ok tt w' ∧
    _print_jobs (self w') = _print_jobs (self w) ++ [job_next w] ∧
    _printers (self w') = _printers (self w) ∧
    printer_store w' = printer_store w ∧
    printer_next w' = printer_next w ∧
    job_next w' = S (job_next w) ∧ trace w' = trace w ∧
    (∀ r, r ≠ job_next w → job_store w' r = job_store w r) ∧
    job_store w' (job_next w) = new_job_model w job p.
Proof.
  intros Hfind. unfold printer_of in Hfind.
  unfold _addPrintJob, try_except, next_printer_of, mbind, M_bind, get.
  simpl. rewrite Hfind. simpl.
  eexists. split; [reflexivity|]. simpl. split_and!; try done.
  - intros r Hr. by rewrite !store_update_ne.
  - by rewrite !store_update_eq.
Qed.

Lemma _addPrintJob_not_found job w :
  printer_of w job = None →
  _addPrintJob job w
  = Ok tt (with_event
             (Logger_log "w" "Missing printer %s for job %s in %s") w).
Proof.
  intros Hfind. unfold printer_of in Hfind.
  unfold _addPrintJob, try_except, next_printer_of, mbind, M_bind, get.
  simpl. by rewrite Hfind.
Qed.

(** After a pass over a well-formed job table, the table lists the old
    entities whose key is in the snapshot, in the order they had, followed
    by the entities created in this pass in the order of their creation.
    Each new entity is the model of a remote job the table did not have and
    whose printer is in the printer table, still as [_addPrintJob] left
    it. *)
Lemma _updatePrintJobs_structure jobs w :
  jobs_wf w → jobs_unique w →
  let remote := remote_jobs jobs in
  let current := current_jobs w in
  wp (_updatePrintJobs jobs) (λ _ w',
    job_next w ≤ job_next w' ∧
    _print_jobs (self w')
    = filter (λ q, job_key w q ∈ dom remote) (_print_jobs (self w))
      ++ seq (job_next w) (job_next w' - job_next w) ∧
    (∀ r, job_next w ≤ r < job_next w' →
       ∃ j p, remote !! CloudClusterPrintJob.uuid j = Some j ∧
              (CloudClusterPrintJob.uuid j ∉ dom current) ∧
              printer_of w j = Some p ∧
              job_store w' r = new_job_model w j p) ∧
    (∀ x j, remote !! x = Some j → x ∉ dom current →
       is_Some (printer_of w j) →
       ∃ r, job_next w ≤ r < job_next w' ∧ job_key w' r = x) ∧
    (∀ r1 r2, job_next w ≤ r1 < job_next w' →
              job_next w ≤ r2 < job_next w' →
              job_key w' r1 = job_key w' r2 → r1 = r2)) w.
Proof.
  clear super__update firmware_at_least_4_4 getMaterialGroupListByGUID
    getGlobalContainerStack getMeshFileHandler.
  intros Hwf Hnd remote current.
  assert (Hcur : ∀ x r, current !! x = Some r →
            r ∈ _print_jobs (self w) ∧ job_key w r = x).
  { intros x r. apply dict_of_lookup_Some. }
  assert (Hrem : ∀ x j, remote !! x = Some j →
            j ∈ jobs ∧ CloudClusterPrintJob.uuid j = x).
  { intros x j. apply dict_of_lookup_Some. }
  unfold _updatePrintJobs. apply wp_bind, wp_get.
  fold remote current.
  (* removed jobs *)
  apply wp_bind. eapply wp_of_run.
  { apply (remove_loop_filter (λ w, _print_jobs (self w))
             (λ l, with_self (with_print_jobs l)) _print_jobs_remove
             current (job_key w));
      [done|done|by intros [[] ? ? ? ? ?]|apply _print_jobs_remove_eq
      |apply set_iter_NoDup|done|].
    intros x [Hx _]%set_iter_elem_of%elem_of_difference.
    apply elem_of_dom in Hx as [r Hr]. exists r.
    destruct (Hcur x r Hr). by split_and!. }
  assert (Hl1 :
    filter (λ q, job_key w q ∉ set_iter (dom current ∖ dom remote))
           (_print_jobs (self w))
    = filter (λ q, job_key w q ∈ dom remote) (_print_jobs (self w))).
  { apply filter_ext_elem_of. intros q Hq.
    rewrite set_iter_elem_of, elem_of_difference.
    assert (job_key w q ∈ dom current) by (apply dom_dict_of; eauto).
    destruct (decide (job_key w q ∈ dom remote)); tauto. }
  simpl. rewrite Hl1.
  set (l1 := filter (λ q, job_key w q ∈ dom remote) (_print_jobs (self w))).
  (* new jobs *)
  apply wp_bind.
  eapply wp_mono.
  { apply (wp_for_each (λ done w2,
      printer_store w2 = printer_store w ∧
      _printers (self w2) = _printers (self w) ∧
      job_next w ≤ job_next w2 ∧
      _print_jobs (self w2)
      = l1 ++ seq (job_next w) (job_next w2 - job_next w) ∧
      (∀ r, job_next w ≤ r < job_next w2 →
         ∃ j p, remote !! CloudClusterPrintJob.uuid j = Some j ∧
                CloudClusterPrintJob.uuid j ∈ done ∧
                (CloudClusterPrintJob.uuid j ∉ dom current) ∧
                printer_of w j = Some p ∧
                job_store w2 r = new_job_model w j p) ∧
      (∀ x j, x ∈ done → remote !! x = Some j →
         is_Some (printer_of w j) →
         ∃ r, job_next w ≤ r < job_next w2 ∧ job_key w2 r = x) ∧
      (∀ r1 r2, job_next w ≤ r1 < job_next w2 →
                job_next w ≤ r2 < job_next w2 →
                job_key w2 r1 = job_key w2 r2 → r1 = r2))).
    - simpl. split_and!; try done.
      + by rewrite Nat.sub_diag, app_nil_r.
      + intros r Hr. lia.
      + by intros x j ?%elem_of_nil.
      + intros r1 r2 Hr1. lia.
    - intros done x rest w2 Hsplit
        (Hps & Hpl & Hjn & Hjl & Hnew & Hdone & Hinj).
      apply set_iter_split in Hsplit as [Hx Hfresh].
      apply elem_of_difference in Hx as [Hx Hxc].
      apply elem_of_dom in Hx as [j Hj].
      destruct (Hrem x j Hj) as [_ Hux].
      apply wp_bind. eapply wp_dict_get; [exact Hj|].
      assert (Hsame : printer_of w2 j = printer_of w j).
      { unfold printer_of. by rewrite Hps, Hpl. }
      assert (Hmodel : ∀ p, new_job_model w2 j p = new_job_model w j p).
      { intros p. unfold new_job_model. by rewrite Hps. }
      destruct (printer_of w j) as [p|] eqn:Hfind.
      + destruct (_addPrintJob_found j w2 p Hsame)
          as (w2' & Hrun & Hjl' & Hpl' & Hps' & _ & Hjn' & _ & Hother
              & Hstore).
        eapply wp_of_run; [exact Hrun|]. simpl.
        assert (Hkey : ∀ r, job_next w ≤ r < job_next w2 →
                  job_key w2' r ∈ done).
        { intros r Hr. destruct (Hnew r Hr) as (j' & p' & _ & Hd & _ & _ & Hst).
          unfold job_key. rewrite Hother by lia. by rewrite Hst. }
        assert (Hkey' : job_key w2' (job_next w2) = x).
        { unfold job_key. by rewrite Hstore, Hmodel. }
        split_and!; try congruence.
        * lia.
        * rewrite Hjl', Hjl, Hjn'.
          replace (S (job_next w2) - job_next w)
            with (S (job_next w2 - job_next w)) by lia.
          rewrite seq_S, app_assoc. do 2 f_equal. lia.
        * intros r Hr. destruct (decide (r = job_next w2)) as [->|Hne].
          -- exists j, p. rewrite Hux, Hstore, Hmodel.
             split_and!; try done.
             apply elem_of_app. right. apply list_elem_of_here.
          -- destruct (Hnew r) as (j' & p' & ? & ? & ? & ? & ?); [lia|].
             exists j', p'. rewrite Hother by done. split_and!; try done.
             apply elem_of_app. by left.
        * intros x' j' [Hx'|Hx'%list_elem_of_singleton]%elem_of_app Hj' Hp'.
          -- destruct (Hdone x' j' Hx' Hj' Hp') as (r & Hr & Hk).
             exists r. split; [lia|]. unfold job_key in *.
             by rewrite Hother by lia.
          -- subst x'. exists (job_next w2). split; [lia|done].
        * intros r1 r2 Hr1 Hr2 Heq.
          destruct (decide (r1 = job_next w2)) as [->|Hne1];
            destruct (decide (r2 = job_next w2)) as [->|Hne2]; [done| | |].
          -- exfalso. apply Hfresh. rewrite <- Hkey', Heq. apply Hkey. lia.
          -- exfalso. apply Hfresh. rewrite <- Hkey', <- Heq. apply Hkey. lia.
          -- apply Hinj; [lia|lia|]. unfold job_key in *.
             by rewrite !Hother in Heq by done.
      + eapply wp_of_run; [by apply _addPrintJob_not_found|]. simpl.
        split_and!; try done.
        * intros r Hr. destruct (Hnew r Hr) as (j' & p' & ? & ? & ? & ? & ?).
          exists j', p'. split_and!; try done. apply elem_of_app. by left.
        * intros x' j' [Hx'|Hx'%list_elem_of_singleton]%elem_of_app Hj' Hp'.
          -- by apply (Hdone x' j').
          -- subst x'. assert (j' = j) as -> by congruence.
             rewrite Hfind in Hp'. by destruct Hp'. }
  intros [] w2 (Hps2 & Hpl2 & Hjn2 & Hjl2 & Hnew2 & Hdone2 & Hinj2). simpl.
  (* updated jobs *)
  apply wp_bind.
  eapply wp_mono.
  { apply (wp_for_each (λ _ w3,
      self w3 = self w2 ∧ job_next w3 = job_next w2 ∧
      (∀ r, job_next w ≤ r → job_store w3 r = job_store w2 r))).
    - done.
    - intros done x rest w3 Hsplit (Hs & Hjn & Hsame).
      apply set_iter_split in Hsplit as [Hx _].
      apply elem_of_intersection in Hx as [Hxc Hxr].
      apply elem_of_dom in Hxc as [r0 Hr0]. apply elem_of_dom in Hxr as [j0 Hj0].
      destruct (Hcur x r0 Hr0) as [Hin0 _].
      apply wp_bind. eapply wp_dict_get; [exact Hr0|].
      apply wp_bind. eapply wp_dict_get; [exact Hj0|].
      destruct (_updateUM3PrintJobOutputModel_run r0 j0 w3)
        as (w3' & Hrun & (Hs' & _ & _ & Hjn' & _ & Hother) & _).
      eapply wp_of_run; [exact Hrun|].
      split_and!; try congruence.
      intros r Hr. rewrite Hother; [by apply Hsame|].
      intros ->. apply Hwf in Hin0. lia. }
  intros [] w3 (Hs3 & Hjn3 & Hsame3). simpl.
  assert (Hpost :
    job_next w ≤ job_next w3 ∧
    _print_jobs (self w3)
    = l1 ++ seq (job_next w) (job_next w3 - job_next w) ∧
    (∀ r, job_next w ≤ r < job_next w3 →
       ∃ j p, remote !! CloudClusterPrintJob.uuid j = Some j ∧
              (CloudClusterPrintJob.uuid j ∉ dom current) ∧
              printer_of w j = Some p ∧
              job_store w3 r = new_job_model w j p) ∧
    (∀ x j, remote !! x = Some j → x ∉ dom current →
       is_Some (printer_of w j) →
       ∃ r, job_next w ≤ r < job_next w3 ∧ job_key w3 r = x) ∧
    (∀ r1 r2, job_next w ≤ r1 < job_next w3 →
              job_next w ≤ r2 < job_next w3 →
              job_key w3 r1 = job_key w3 r2 → r1 = r2)).
  { rewrite Hs3, Hjn3. split_and!; [done|done| | |].
    - intros r Hr. destruct (Hnew2 r Hr) as (j & p & ? & _ & ? & ? & ?).
      exists j, p. rewrite Hsame3 by lia. by split_and!.
    - intros x j Hj Hxc Hp.
      destruct (Hdone2 x j) as (r & Hr & Hk); [|done|done|].
      { apply set_iter_elem_of, elem_of_difference. split; [|done].
        apply elem_of_dom. eauto. }
      exists r. split; [done|]. unfold job_key in *.
      by rewrite Hsame3 by lia.
    - intros r1 r2 Hr1 Hr2. unfold job_key.
      rewrite !Hsame3 by lia. by apply Hinj2. }
  case_bool_decide; [apply wp_emit|apply wp_ret]; exact Hpost.
Qed.

Lemma _updatePrintJobs_table jobs w :
  jobs_wf w → jobs_unique w →
  let remote := remote_jobs jobs in
  let current := current_jobs w in
  ∃ w', _updatePrintJobs jobs w = Ok tt w' ∧
    printer_store w' = printer_store w ∧
    printer_next w' = printer_next w ∧
    _printers (self w') = _printers (self w) ∧
    job_next w ≤ job_next w' ∧
    _print_jobs (self w')
    = filter (λ q, job_key w q ∈ dom remote) (_print_jobs (self w))
      ++ seq (job_next w) (job_next w' - job_next w) ∧
    (∀ r, r < job_next w →
       job_key w' r = job_key w r ∧
       UM3PrintJobOutputModel.assignedPrinter (job_store w' r)
       = UM3PrintJobOutputModel.assignedPrinter (job_store w r)) ∧
    (∀ r, job_next w ≤ r < job_next w' →
       ∃ j p, remote !! CloudClusterPrintJob.uuid j = Some j ∧
              (CloudClusterPrintJob.uuid j ∉ dom current) ∧
              printer_of w j = Some p ∧
              job_store w' r = new_job_model w j p) ∧
    (∀ k, (∃ q, q ∈ _print_jobs (self w') ∧ job_key w' q = k)
          ↔ k ∈ dom remote ∧
            (k ∈ dom current
             ∨ ∃ j, remote !! k = Some j ∧ is_Some (printer_of w j))) ∧
    jobs_wf w' ∧ jobs_unique w'.
Proof.
  intros Hwf Hnd remote current.
  destruct (wp_run _ _ _
              (wp_and _ _ _ _ (_updatePrintJobs_spec jobs w)
                 (_updatePrintJobs_structure jobs w Hwf Hnd)))
    as ([] & w' & Hrun & (Hps & Hpn & Hpl & _ & Hsame & Hupd & _)
        & Hle & Hlist & Hnew & Hadded & Hinj).
  fold remote current in Hsame, Hupd, Hlist, Hnew, Hadded.
  assert (Hcur : ∀ q, q ∈ _print_jobs (self w) →
            current !! job_key w q = Some q).
  { intros q Hq. by apply (dict_of_lookup_NoDup (job_key w)). }
  assert (Hold : ∀ r, r < job_next w →
            job_key w' r = job_key w r ∧
            UM3PrintJobOutputModel.assignedPrinter (job_store w' r)
            = UM3PrintJobOutputModel.assignedPrinter (job_store w r)).
  { intros r Hr. unfold job_key.
    destruct (decide (current !! job_key w r = Some r
                      ∧ job_key w r ∈ dom remote))
      as [[Hc [j Hj]%elem_of_dom]|Hnot].
    - by destruct (Hupd r j Hr Hc Hj) as (_ & ? & _ & ? & _).
    - by rewrite (Hsame r Hr Hnot). }
  assert (Hin : ∀ q, q ∈ _print_jobs (self w') →
            (q ∈ _print_jobs (self w) ∧ job_key w q ∈ dom remote
             ∧ q < job_next w)
            ∨ job_next w ≤ q < job_next w').
  { intros q. rewrite Hlist.
    intros [[Hk Hq]%list_elem_of_filter|Hq%elem_of_seq]%elem_of_app.
    - left. split_and!; [done|done|by apply Hwf].
    - right. lia. }
  assert (Hnewkey : ∀ r, job_next w ≤ r < job_next w' →
            job_key w' r ∈ dom remote ∧ (job_key w' r ∉ dom current) ∧
            ∃ j, remote !! job_key w' r = Some j
                 ∧ is_Some (printer_of w j)).
  { intros r Hr. destruct (Hnew r Hr) as (j & p & Hj & Hjc & Hp & Hst).
    unfold job_key. rewrite Hst. simpl. split_and!; [|done|].
    - apply elem_of_dom. eauto.
    - exists j. split; [done|]. by rewrite Hp. }
  exists w'. split_and!; try done.
  - intros k. split.
    + intros (q & Hq & <-). destruct (Hin q Hq) as [(Ho & Hk & Hlt)|Hfresh].
      * destruct (Hold q Hlt) as [-> _]. split; [done|]. left.
        apply dom_dict_of. eauto.
      * destruct (Hnewkey q Hfresh) as (? & _ & ?). split; [done|by right].
    + intros [Hk Hor].
      destruct (decide (k ∈ dom current)) as [Hc|Hc].
      * apply elem_of_dom in Hc as [q Hq].
        apply dict_of_lookup_Some in Hq as [Hq Hkq].
        fold (job_key w q) in Hkq. subst k.
        exists q. split; [|by apply Hold, Hwf].
        rewrite Hlist. apply elem_of_app. left.
        by apply list_elem_of_filter.
      * destruct Hor as [?|(j & Hj & Hp)]; [done|].
        destruct (Hadded k j Hj Hc Hp) as (r & Hr & Hkr).
        exists r. split; [|done]. rewrite Hlist. apply elem_of_app. right.
        apply elem_of_seq. lia.
  - intros q Hq. destruct (Hin q Hq) as [(_ & _ & ?)|?]; lia.
  - unfold jobs_unique. apply NoDup_fmap_2_strong.
    + intros q1 q2 Hq1 Hq2 Heq.
      destruct (Hin q1 Hq1) as [(Ho1 & _ & Hlt1)|Hf1];
        destruct (Hin q2 Hq2) as [(Ho2 & _ & Hlt2)|Hf2].
      * destruct (Hold q1 Hlt1) as [Hk1 _], (Hold q2 Hlt2) as [Hk2 _].
        rewrite Hk1, Hk2 in Heq.
        pose proof (Hcur q1 Ho1) as H1.
        rewrite Heq, (Hcur q2 Ho2) in H1. congruence.
      * exfalso. destruct (Hnewkey q2 Hf2) as (_ & Hnot & _). apply Hnot.
        rewrite <- Heq. destruct (Hold q1 Hlt1) as [-> _].
        apply dom_dict_of. eauto.
      * exfalso. destruct (Hnewkey q1 Hf1) as (_ & Hnot & _). apply Hnot.
        rewrite Heq. destruct (Hold q2 Hlt2) as [-> _].
        apply dom_dict_of. eauto.
      * by apply Hinj.
    + rewrite Hlist. apply NoDup_app. split_and!.
      * apply NoDup_filter. by eapply NoDup_fmap_1.
      * intros q [_ Hq]%list_elem_of_filter Hq'%elem_of_seq.
        apply Hwf in Hq. lia.
      * apply NoDup_seq.
Qed.

(** ** The three key sets and what the passes do with them *)

(** C3: the three key sets of a pass are local-not-remote, remote-not-local
    and both; they are pairwise disjoint, cover the union of the two key
    sets, and every key lies in exactly one of them (printers and jobs).
    The passes act on exactly these sets.  Over a well-formed printer table,
    the entities that leave the table are the ones with a removed key, and
    they are left as they were; the entities that join it carry the added
    keys, one for each; and the entities with an updated key stay and are
    refreshed from their remote record.  The same holds for a well-formed
    job table, where an added key gets its entity when the job's printer is
    in the printer table. *)
Theorem reconciliation_key_sets
    (printers : list CloudClusterPrinter.t)
    (jobs : list CloudClusterPrintJob.t) (w : World) :
  let remote := remote_printers printers in
  let current := current_printers w in
  let removed := removed_printer_ids current remote in
  let added := new_printer_ids current remote in
  let updated := updated_printer_ids current remote in
  let remote_job_ids : gset string := dom (remote_jobs jobs) in
  let current_job_ids : gset string := dom (current_jobs w) in
  let removed_jobs := current_job_ids ∖ remote_job_ids in
  let added_jobs := remote_job_ids ∖ current_job_ids in
  let updated_jobs := current_job_ids ∩ remote_job_ids in
  (∀ k, k ∈ dom remote ↔ ∃ p, p ∈ printers ∧ CloudClusterPrinter.uuid p = k) ∧
  (∀ k, k ∈ dom current ↔
        ∃ p, p ∈ _printers (self w) ∧
             PrinterOutputModel.key (printer_store w p) = k) ∧
  (∀ k, k ∈ removed ↔ k ∈ dom current ∧ k ∉ dom remote) ∧
  (∀ k, k ∈ added ↔ k ∈ dom remote ∧ k ∉ dom current) ∧
  (∀ k, k ∈ updated ↔ k ∈ dom current ∧ k ∈ dom remote) ∧
  (removed ## added) ∧ (removed ## updated) ∧ (added ## updated) ∧
  removed ∪ added ∪ updated = dom current ∪ dom remote ∧
  (∀ k, k ∈ dom current ∪ dom remote →
        (k ∈ removed ∧ (k ∉ added) ∧ (k ∉ updated)) ∨
        ((k ∉ removed) ∧ k ∈ added ∧ (k ∉ updated)) ∨
        ((k ∉ removed) ∧ (k ∉ added) ∧ k ∈ updated)) ∧
  (∀ k, k ∈ remote_job_ids ↔
        ∃ j, j ∈ jobs ∧ CloudClusterPrintJob.uuid j = k) ∧
  (∀ k, k ∈ current_job_ids ↔
        ∃ j, j ∈ _print_jobs (self w) ∧
             UM3PrintJobOutputModel.key (job_store w j) = k) ∧
  (removed_jobs ## added_jobs) ∧ (removed_jobs ## updated_jobs) ∧
  (added_jobs ## updated_jobs) ∧
  removed_jobs ∪ added_jobs ∪ updated_jobs = current_job_ids ∪ remote_job_ids ∧
  (printers_wf w →
   ∃ w', _updatePrinters printers w = Ok tt w' ∧
     (∀ q, q ∈ _printers (self w) →
        (q ∉ _printers (self w') ↔ printer_key w q ∈ removed)) ∧
     (∀ q, q ∈ _printers (self w) → printer_key w q ∈ removed →
        printer_store w' q = printer_store w q) ∧
     (∀ k, k ∈ added ↔
        ∃ r, r ∈ _printers (self w') ∧ (r ∉ _printers (self w))
             ∧ printer_key w' r = k) ∧
     (∀ q, q ∈ _printers (self w) → printer_key w q ∈ updated →
        q ∈ _printers (self w') ∧
        ∃ p, remote !! printer_key w q = Some p ∧
             printer_updated (printer_store w q) p (printer_store w' q))) ∧
  (jobs_wf w → jobs_unique w →
   ∃ w', _updatePrintJobs jobs w = Ok tt w' ∧
     (∀ q, q ∈ _print_jobs (self w) →
        (q ∉ _print_jobs (self w') ↔ job_key w q ∈ removed_jobs)) ∧
     (∀ q, q ∈ _print_jobs (self w) → job_key w q ∈ removed_jobs →
        job_store w' q = job_store w q) ∧
     (∀ r, r ∈ _print_jobs (self w') → r ∉ _print_jobs (self w) →
        job_key w' r ∈ added_jobs) ∧
     (∀ k, k ∈ added_jobs →
        ((∃ r, r ∈ _print_jobs (self w') ∧ (r ∉ _print_jobs (self w))
               ∧ job_key w' r = k)
         ↔ ∃ j, remote_jobs jobs !! k = Some j ∧ is_Some (printer_of w j))) ∧
     (∀ q, q ∈ _print_jobs (self w) → job_key w q ∈ updated_jobs →
        q ∈ _print_jobs (self w') ∧
        ∃ j, remote_jobs jobs !! job_key w q = Some j ∧
             job_updated (job_store w q) j (job_store w' q))).
Proof.
  intros remote current removed added updated remote_job_ids current_job_ids
    removed_jobs added_jobs updated_jobs.
  destruct (key_sets_partition (dom current) (dom remote))
    as (Hd1 & Hd2 & Hd3 & Hcover & Hone).
  destruct (key_sets_partition current_job_ids remote_job_ids)
    as (Hj1 & Hj2 & Hj3 & Hjcover & _).
  unfold removed_jobs, added_jobs, updated_jobs.
  unfold removed, added, updated, removed_printer_ids, new_printer_ids,
    updated_printer_ids.
  split_and!; try done; try (intros k; apply dom_dict_of).
  - intros k. apply elem_of_difference.
  - intros k. apply elem_of_difference.
  - intros k. apply elem_of_intersection.
  - (* the printer pass *)
    intros Hwfw. pose proof Hwfw as [Hwf Hnd].
    assert (Hcur : ∀ q, q ∈ _printers (self w) →
              current !! printer_key w q = Some q).
    { intros q Hq. by apply (dict_of_lookup_NoDup (printer_key w)). }
    destruct (wp_run _ _ _
                (wp_and _ _ _ _ (_updatePrinters_spec printers w)
                   (wp_and _ _ _ _ (_updatePrinters_keys printers w Hwfw)
                      (_updatePrinters_structure printers w Hwfw))))
      as ([] & w' & Hrun & (_ & _ & _ & _ & Hsame & Hupd & Hnew & Hin & Hkeep
                            & _) & Hkeys & Hle & Hlist & Hadded).
    fold remote current in Hsame, Hupd, Hnew, Hkeep, Hlist, Hadded.
    exists w'. split; [done|]. split_and!.
    + intros q Hq. rewrite elem_of_difference. split.
      * intros Hgone. split; [apply elem_of_dom; rewrite (Hcur q Hq); eauto|].
        intros Hr. by apply Hgone, Hkeep.
      * intros [_ Hnot] Hq'. rewrite Hlist in Hq'.
        apply elem_of_app in Hq' as [[Hk _]%list_elem_of_filter|Hs%elem_of_seq];
          [done|].
        apply Hwf in Hq. lia.
    + intros q Hq [_ Hnot]%elem_of_difference.
      apply Hsame; [by apply Hwf|]. by intros [_ ?].
    + intros k. rewrite elem_of_difference. split.
      * intros [Hk Hc]. destruct (Hadded k Hk Hc) as (r & Hr & Hkr).
        exists r. split_and!; [by apply Hnew| |done].
        intros Hold%Hwf. lia.
      * intros (r & Hr & Hnotold & <-).
        destruct (Hin r Hr) as [?|Hrange]; [done|].
        destruct (Hnew r Hrange) as (_ & p & Hp & Hpc & _ & Hup).
        destruct (Hup Hwf) as (_ & _ & Hk & _).
        unfold printer_key. rewrite Hk.
        split; [apply elem_of_dom; eauto|done].
    + intros q Hq [_ Hr]%elem_of_intersection.
      pose proof Hr as [p Hp]%elem_of_dom.
      split; [by apply Hkeep|]. exists p. split; [done|].
      apply Hupd; [by apply Hwf|by apply Hcur|done].
  - (* the job pass *)
    intros Hwf Hnd.
    assert (Hcur : ∀ q, q ∈ _print_jobs (self w) →
              current_jobs w !! job_key w q = Some q).
    { intros q Hq. by apply (dict_of_lookup_NoDup (job_key w)). }
    destruct (_updatePrintJobs_table jobs w Hwf Hnd)
      as (w' & Hrun & _ & _ & _ & Hle & Hlist & Hold & Hnew & Hkeys & _).
    destruct (wp_run _ _ _ (_updatePrintJobs_spec jobs w))
      as ([] & w'' & Hrun' & _ & _ & _ & _ & Hsame & Hupd & _ & Hkeep & _).
    rewrite Hrun in Hrun'. injection Hrun' as <-.
    assert (Hfresh : ∀ r, r ∈ _print_jobs (self w') →
              r ∉ _print_jobs (self w) → job_next w ≤ r < job_next w').
    { intros r Hr Hnot. rewrite Hlist in Hr.
      apply elem_of_app in Hr as [[_ Hr]%list_elem_of_filter|Hr%elem_of_seq];
        [done|lia]. }
    exists w'. split; [done|]. split_and!.
    + intros q Hq. rewrite elem_of_difference. split.
      * intros Hgone.
        split; [apply elem_of_dom; rewrite (Hcur q Hq); eauto|].
        intros Hr. by apply Hgone, Hkeep.
      * intros [_ Hnot] Hq'. rewrite Hlist in Hq'.
        apply elem_of_app in Hq' as [[Hk _]%list_elem_of_filter|Hs%elem_of_seq];
          [done|].
        apply Hwf in Hq. lia.
    + intros q Hq [_ Hnot]%elem_of_difference.
      apply Hsame; [by apply Hwf|]. by intros [_ ?].
    + intros r Hr Hnot.
      destruct (Hnew r (Hfresh r Hr Hnot)) as (j & p & Hj & Hjc & _ & Hst).
      unfold job_key. rewrite Hst. simpl. apply elem_of_difference.
      split; [apply elem_of_dom; eauto|done].
    + intros k [Hk Hc]%elem_of_difference. split.
      * intros (r & Hr & Hnot & <-).
        destruct (Hnew r (Hfresh r Hr Hnot)) as (j & p & Hj & _ & Hp & Hst).
        exists j. unfold job_key. rewrite Hst. simpl. split; [done|].
        by rewrite Hp.
      * intros (j & Hj & Hp).
        destruct (proj2 (Hkeys k)) as (r & Hr & Hkr); [split; [done|]; eauto|].
        exists r. split_and!; [done| |done].
        intros Hold'. apply Hc. rewrite <- Hkr.
        destruct (Hold r (Hwf r Hold')) as [-> _].
        apply elem_of_dom. rewrite (Hcur r Hold'). eauto.
    + intros q Hq [_ Hr]%elem_of_intersection.
      pose proof Hr as [j Hj]%elem_of_dom.
      split; [by apply Hkeep|]. exists j. split; [done|].
      apply Hupd; [by apply Hwf|by apply Hcur|done].
Qed.

(** X12: after a pass over a well-formed job table, the jobs that stay keep
    their relative order and the new ones follow them in the order of their
    creation.  The keys of the table are the UUIDs of the snapshot that the
    table already had or whose printer is in the printer table; so the
    table has the key set of the snapshot exactly when no new remote job
    names an unknown printer.  The table is again well formed. *)
Theorem updatePrintJobs_table_keys
    (jobs : list CloudClusterPrintJob.t) (w : World) :
  jobs_wf w → jobs_unique w →
  let remote := remote_jobs jobs in
  let current := current_jobs w in
  ∃ w', _updatePrintJobs jobs w = Ok tt w' ∧
    _print_jobs (self w')
    = filter (λ q, job_key w q ∈ dom remote) (_print_jobs (self w))
      ++ seq (job_next w) (job_next w' - job_next w) ∧
    (∀ k, k ∈ dom (current_jobs w')
          ↔ k ∈ dom remote ∧
            (k ∈ dom current
             ∨ ∃ j, remote !! k = Some j ∧ is_Some (printer_of w j))) ∧
    (dom (current_jobs w') = dom remote
     ↔ ∀ k j, remote !! k = Some j →
              k ∈ dom current ∨ is_Some (printer_of w j)) ∧
    jobs_wf w' ∧ jobs_unique w'.
Proof.
  intros Hwf Hnd remote current.
  destruct (_updatePrintJobs_table jobs w Hwf Hnd)
    as (w' & Hrun & _ & _ & _ & _ & Hlist & _ & _ & Hkeys & Hwf' & Hnd').
  fold remote current in Hlist, Hkeys.
  assert (Hdom : ∀ k, k ∈ dom (current_jobs w')
            ↔ k ∈ dom remote ∧
              (k ∈ dom current
               ∨ ∃ j, remote !! k = Some j ∧ is_Some (printer_of w j))).
  { intros k. rewrite <- Hkeys. apply dom_dict_of. }
  exists w'. split_and!; try done.
  split.
  - intros Heq k j Hj.
    assert (Hk : k ∈ dom (current_jobs w')).
    { rewrite Heq. apply elem_of_dom. eauto. }
    apply Hdom in Hk as [_ [?|(j' & Hj' & ?)]]; [by left|right].
    congruence.
  - intros Hall. apply set_eq. intros k. rewrite Hdom. split; [by intros [? _]|].
    intros Hk. split; [done|].
    apply elem_of_dom in Hk as [j Hj].
    destruct (Hall k j Hj); [by left|right; eauto].
Qed.

Lemma jobs_linked_views w :
  jobs_linked w →
  ∀ j, j ∈ _print_jobs (self w) →
       j ∈ queuedPrintJobs w ∨ j ∈ activePrintJobs w.
Proof.
  intros Hlinked j Hin. unfold queuedPrintJobs, activePrintJobs.
  rewrite !list_elem_of_filter.
  destruct (Hlinked j Hin) as (p & Hp & _).
  destruct (decide (UM3PrintJobOutputModel.state (job_store w j) = "queued"))
    as [Hq|Hnq].
  - left. split; [by left|done].
  - right. split; [|done]. split; [by rewrite Hp|done].
Qed.

(** X13: a job the table sees for the first time is created for the first
    entity of the printer table that has the job's printer UUID, from the
    key and name of the remote record, and the pass does not refresh it:
    after the pass the new entity is what the constructor made, with its
    printer assigned, and none of the time, owner or state updates of the
    refresh has been applied to it. *)
Theorem added_job_is_not_refreshed
    (jobs : list CloudClusterPrintJob.t) (w : World) :
  jobs_wf w → jobs_unique w →
  ∃ w', _updatePrintJobs jobs w = Ok tt w' ∧
    ∀ r, r ∈ _print_jobs (self w') → r ∉ _print_jobs (self w) →
      ∃ j p pre post,
        j ∈ jobs ∧ (CloudClusterPrintJob.uuid j ∉ dom (current_jobs w)) ∧
        _printers (self w) = pre ++ p :: post ∧
        printer_key w p = CloudClusterPrintJob.printer_uuid j ∧
        (∀ q, q ∈ pre →
              printer_key w q ≠ CloudClusterPrintJob.printer_uuid j) ∧
        job_store w' r
        = UM3PrintJobOutputModel.updateAssignedPrinter p
            (UM3PrintJobOutputModel.new
               (PrinterOutputModel.output_controller (printer_store w p))
               (CloudClusterPrintJob.uuid j) (CloudClusterPrintJob.name j)).
Proof.
  intros Hwf Hnd.
  destruct (_updatePrintJobs_table jobs w Hwf Hnd)
    as (w' & Hrun & _ & _ & _ & _ & Hlist & _ & Hnew & _).
  exists w'. split; [done|]. intros r Hr Hnot.
  assert (Hrange : job_next w ≤ r < job_next w').
  { rewrite Hlist in Hr.
    apply elem_of_app in Hr as [[_ Hr]%list_elem_of_filter|Hr%elem_of_seq];
      [done|lia]. }
  destruct (Hnew r Hrange) as (j & p & Hj & Hjc & Hp & Hst).
  assert (Hfirst : ∃ pre post, _printers (self w) = pre ++ p :: post ∧
            ∀ q, q ∈ pre →
                 printer_key w q ≠ CloudClusterPrintJob.printer_uuid j).
  { unfold printer_of in Hp. unfold printer_key.
    induction (_printers (self w)) as [|q l IH]; [done|]. simpl in Hp.
    destruct (String.eqb _ _) eqn:Heq.
    - injection Hp as ->. exists [], l. split; [done|].
      by intros q ?%elem_of_nil.
    - destruct (IH Hp) as (pre & post & -> & Hpre).
      exists (q :: pre), post. split; [done|].
      intros q' [->|Hq']%elem_of_cons; [|by apply Hpre].
      apply String.eqb_neq in Heq. congruence. }
  destruct Hfirst as (pre & post & Hsplit & Hpre).
  destruct (printer_of_Some w j p Hp) as [_ Hkey].
  exists j, p, pre, post. split_and!; try done.
  by apply (dict_of_lookup_Some _ _ _ _ Hj).
Qed.

(** X14: across every status callback on well-formed tables, no two jobs of
    the table share a key and every job of the table has an assigned
    printer that was allocated; this holds for a new device.  So every job
    of the table shows in the queued or in the active view. *)
Theorem jobs_unique_and_linked_invariant
    (status : CloudClusterStatus.t) (w : World) :
  (∀ device_id, jobs_unique (initial_world device_id)
                ∧ jobs_linked (initial_world device_id)) ∧
  (printers_wf w → jobs_wf w → jobs_unique w → jobs_linked w →
   ∃ w', _onStatusCallFinished status w = Ok tt w' ∧
         jobs_unique w' ∧ jobs_linked w' ∧
         ∀ j, j ∈ _print_jobs (self w') →
              j ∈ queuedPrintJobs w' ∨ j ∈ activePrintJobs w').
Proof.
  split.
  - intros device_id. split.
    + unfold jobs_unique. simpl. apply NoDup_nil_2.
    + by intros q ?%elem_of_nil.
  - intros [Hpwf _] Hwf Hnd Hlinked.
    destruct (wp_run _ _ _
                (_updatePrinters_spec (CloudClusterStatus.printers status) w))
      as ([] & w1 & Hrun1 & Hjs & Hjn & Hpj & Hle & _ & _ & _ & Hin & _).
    assert (Hwf1 : jobs_wf w1).
    { intros q. rewrite Hpj, Hjn. apply Hwf. }
    assert (Hnd1 : jobs_unique w1).
    { unfold jobs_unique, job_key. by rewrite Hjs, Hpj. }
    destruct (_updatePrintJobs_table (CloudClusterStatus.print_jobs status)
                w1 Hwf1 Hnd1)
      as (w2 & Hrun2 & _ & Hpn2 & _ & _ & Hlist & Hold & Hnew & _ & _ & Hnd2).
    assert (Hlinked2 : jobs_linked w2).
    { intros q. rewrite Hlist, Hpn2.
      intros [[_ Hq]%list_elem_of_filter|Hq%elem_of_seq]%elem_of_app.
      - destruct (Hold q (Hwf1 q Hq)) as [_ ->]. rewrite Hjs.
        rewrite Hpj in Hq. destruct (Hlinked q Hq) as (p & Hp & Hlt).
        exists p. split; [done|lia].
      - destruct (Hnew q) as (j & p & _ & _ & Hp & ->); [lia|].
        exists p. split; [done|].
        apply printer_of_Some in Hp as [Hp _].
        destruct (Hin p Hp) as [Hp'%Hpwf|Hp']; lia. }
    exists w2. split_and!; [|done|done|by apply jobs_linked_views].
    unfold _onStatusCallFinished, mbind, M_bind. by rewrite Hrun1.
Qed.

(** ** The status callback as a whole *)

(** X15: after a status callback on well-formed tables, the printer table
    has exactly the UUIDs of the snapshot's printers, and the job table has
    exactly the UUIDs of the snapshot's jobs that the table already had or
    whose printer UUID is among the snapshot's printers: a new job finds a
    printer that arrived in the same snapshot, and a new job naming any
    other printer is left out. *)
Theorem status_callback_tables (status : CloudClusterStatus.t) (w : World) :
  printers_wf w → jobs_wf w → jobs_unique w →
  let snapshot_printers :=
    remote_printers (CloudClusterStatus.printers status) in
  let snapshot_jobs := remote_jobs (CloudClusterStatus.print_jobs status) in
  ∃ w', _onStatusCallFinished status w = Ok tt w' ∧
    dom (current_printers w') = dom snapshot_printers ∧
    (∀ k, k ∈ dom (current_jobs w')
          ↔ k ∈ dom snapshot_jobs ∧
            (k ∈ dom (current_jobs w)
             ∨ ∃ j, snapshot_jobs !! k = Some j ∧
                    CloudClusterPrintJob.printer_uuid j
                    ∈ dom snapshot_printers)).
Proof.
  intros Hpwf Hwf Hnd remote_p remote_j.
  destruct (_updatePrinters_table (CloudClusterStatus.printers status) w Hpwf)
    as (w1 & Hrun1 & _ & _ & Hkeys1).
  fold remote_p in Hkeys1.
  destruct (wp_run _ _ _
              (_updatePrinters_spec (CloudClusterStatus.printers status) w))
    as ([] & w1' & Hrun1' & Hjs & Hjn & Hpj & _).
  rewrite Hrun1 in Hrun1'. injection Hrun1' as <-.
  assert (Hwf1 : jobs_wf w1).
  { intros q. rewrite Hpj, Hjn. apply Hwf. }
  assert (Hnd1 : jobs_unique w1).
  { unfold jobs_unique, job_key. by rewrite Hjs, Hpj. }
  assert (Hcur1 : current_jobs w1 = current_jobs w).
  { unfold current_jobs. by rewrite Hjs, Hpj. }
  destruct (_updatePrintJobs_table (CloudClusterStatus.print_jobs status)
              w1 Hwf1 Hnd1)
    as (w2 & Hrun2 & Hps2 & _ & Hpl2 & _ & _ & _ & _ & Hkeys2 & _).
  fold remote_j in Hkeys2. rewrite Hcur1 in Hkeys2.
  assert (Hprinter : ∀ j, is_Some (printer_of w1 j)
            ↔ CloudClusterPrintJob.printer_uuid j ∈ dom remote_p).
  { intros j. rewrite <- Hkeys1. split.
    - intros [p Hp]. apply printer_of_Some in Hp as [? ?]. eauto.
    - intros (q & Hq & Hk).
      destruct (printer_of w1 j) eqn:Hfind; [done|].
      exfalso. by apply (proj1 (printer_of_None w1 j) Hfind q). }
  exists w2. split_and!.
  - unfold _onStatusCallFinished, mbind, M_bind. by rewrite Hrun1.
  - unfold current_printers. rewrite Hps2, Hpl2.
    apply set_eq. intros k. rewrite <- Hkeys1. apply dom_dict_of.
  - intros k.
    transitivity (∃ q, q ∈ _print_jobs (self w2) ∧ job_key w2 q = k);
      [apply dom_dict_of|].
    rewrite Hkeys2. split; intros [Hk Hor]; (split; [done|]);
      (destruct Hor as [?|(j & Hj & Hp)]; [by left|right]);
      exists j; (split; [done|]); by apply Hprinter.
Qed.

(** X16: the status callback returns normally from every world.  What it
    adds to the trace is log lines, one [printersChanged] at the end of the
    printer pass, and [printJobsChanged] at the very end exactly when the
    key set of the remote jobs differs from the one of the job table:
    never a message, a write signal or an API call. *)
Theorem status_callback_events (status : CloudClusterStatus.t) (w : World) :
  ∃ w' logs1 logs2,
    _onStatusCallFinished status w = Ok tt w' ∧
    Forall (λ e, is_log e = true) logs1 ∧
    Forall (λ e, is_log e = true) logs2 ∧
    trace w' = trace w ++ logs1 ++ [printersChanged] ++ logs2
      ++ (if bool_decide
               (dom (remote_jobs (CloudClusterStatus.print_jobs status))
                ≠ dom (current_jobs w))
          then [printJobsChanged] else []).
Proof.
  destruct (wp_run _ _ _
              (_updatePrinters_spec (CloudClusterStatus.printers status) w))
    as ([] & w1 & Hrun1 & Hjs & _ & Hpj & _ & _ & _ & _ & _ & _
        & (logs1 & Hlogs1 & Htrace1) & _).
  destruct (wp_run _ _ _
              (_updatePrintJobs_spec (CloudClusterStatus.print_jobs status)
                 w1))
    as ([] & w2 & Hrun2 & _ & _ & _ & _ & _ & _ & _ & _
        & logs2 & Hlogs2 & Htrace2).
  assert (Hcur1 : current_jobs w1 = current_jobs w).
  { unfold current_jobs. by rewrite Hjs, Hpj. }
  exists w2, logs1, logs2. split_and!; [|done|done|].
  - unfold _onStatusCallFinished, mbind, M_bind. by rewrite Hrun1.
  - rewrite Htrace2, Htrace1, Hcur1. by rewrite <- !app_assoc.
Qed.

(** ** A request while the flag is set *)

(** X17: while the sending flag is set, a write request of whatever
    arguments is answered by the blocked message and [writeError] and makes
    no API call; it also dismisses the progress message of the upload in
    flight and clears the flag, so that the device is idle again before
    that upload has finished.  The tables are left alone. *)
Theorem requestWrite_blocked_releases_flag
    (nodes : list SceneNode) (file_name : option string)
    (limit_mime_types : bool) (file_handler : option FileHandler)
    (w : World) :
  _sending_job (self w) = true →
  ∃ w', requestWrite nodes file_name limit_mime_types file_handler w
        = Ok tt w' ∧
    _sending_job (self w') = false ∧
    _progress_message (self w') = None ∧
    same_tables w w' ∧
    trace w' = trace w
      ++ hide_events w
      ++ [Message_show (mkMessage T.BLOCKED_UPLOADING T.ERROR None 10
                                  true true);
          writeError].
Proof.
  clear set_iter_perm set_iter super__update getMaterialGroupListByGUID.
  intros Hsending. rewrite requestWrite_while_sending by done.
  destruct (_onUploadError_run (Some T.BLOCKED_UPLOADING) w)
    as (w' & Hrun & ? & ? & ? & ? & ? & ? & ? & ? & ?).
  exists w'. by split_and!.
Qed.

(** ** Consequences for the monitor page *)

(** X18: a job outlives its printer.  When a status callback drops a
    printer from the table while the cluster still reports a job assigned to
    it, the job stays in the job table and keeps pointing at the entity of
    the dropped printer, which is no longer in the printer table and is
    frozen as it was before the callback. *)
Theorem job_keeps_dropped_printer
    (status : CloudClusterStatus.t) (w : World) (q r : ref) :
  printers_wf w → jobs_wf w → jobs_unique w →
  q ∈ _print_jobs (self w) →
  UM3PrintJobOutputModel.assignedPrinter (job_store w q) = Some r →
  r ∈ _printers (self w) →
  printer_key w r
  ∉ dom (remote_printers (CloudClusterStatus.printers status)) →
  job_key w q ∈ dom (remote_jobs (CloudClusterStatus.print_jobs status)) →
  ∃ w', _onStatusCallFinished status w = Ok tt w' ∧
    q ∈ _print_jobs (self w') ∧
    UM3PrintJobOutputModel.assignedPrinter (job_store w' q) = Some r ∧
    (r ∉ _printers (self w')) ∧
    printer_store w' r = printer_store w r.
Proof.
  intros Hpwf Hwf Hnd Hq Hassigned Hr Hdropped Hreported.
  destruct (_updatePrinters_table (CloudClusterStatus.printers status) w Hpwf)
    as (w1 & Hrun1 & _ & Hlist1 & _).
  destruct (wp_run _ _ _
              (_updatePrinters_spec (CloudClusterStatus.printers status) w))
    as ([] & w1' & Hrun1' & Hjs & Hjn & Hpj & _ & Hsame & _).
  rewrite Hrun1 in Hrun1'. injection Hrun1' as <-.
  assert (Hwf1 : jobs_wf w1).
  { intros q'. rewrite Hpj, Hjn. apply Hwf. }
  assert (Hnd1 : jobs_unique w1).
  { unfold jobs_unique, job_key. by rewrite Hjs, Hpj. }
  destruct (_updatePrintJobs_table (CloudClusterStatus.print_jobs status)
              w1 Hwf1 Hnd1)
    as (w2 & Hrun2 & Hps2 & _ & Hpl2 & _ & Hlist2 & Hold & _).
  destruct Hpwf as [Hpwf _].
  exists w2. split_and!.
  - unfold _onStatusCallFinished, mbind, M_bind. by rewrite Hrun1.
  - rewrite Hlist2. apply elem_of_app. left. apply list_elem_of_filter.
    rewrite Hpj. split; [|done]. unfold job_key. by rewrite Hjs.
  - destruct (Hold q) as [_ ->]; [apply Hwf1; by rewrite Hpj|].
    by rewrite Hjs.
  - rewrite Hpl2, Hlist1.
    intros [[Hk _]%list_elem_of_filter|Hnew%elem_of_seq]%elem_of_app;
      [done|].
    apply Hpwf in Hr. lia.
  - rewrite Hps2. apply Hsame; [by apply Hpwf|]. by intros [_ ?].
Qed.

(** X19: a pass over a snapshot that has exactly the keys of the table
    removes and creates nothing: the printer table and the job table are
    the lists they were, and no reference is allocated. *)
Theorem pass_over_same_keys_keeps_tables
    (printers : list CloudClusterPrinter.t)
    (jobs : list CloudClusterPrintJob.t) (w : World) :
  printers_wf w → jobs_wf w → jobs_unique w →
  (dom (current_printers w) = dom (remote_printers printers) →
   ∃ w', _updatePrinters printers w = Ok tt w' ∧
         _printers (self w') = _printers (self w) ∧
         printer_next w' = printer_next w) ∧
  (dom (current_jobs w) = dom (remote_jobs jobs) →
   ∃ w', _updatePrintJobs jobs w = Ok tt w' ∧
         _print_jobs (self w') = _print_jobs (self w) ∧
         job_next w' = job_next w).
Proof.
  intros Hpwf Hwf Hnd. split; intros Hdom.
  - destruct (_updatePrinters_table printers w Hpwf)
      as (w' & Hrun & Hle & Hlist & _).
    destruct (wp_run _ _ _ (_updatePrinters_spec printers w))
      as ([] & w'' & Hrun' & _ & _ & _ & _ & _ & _ & Hnew & _).
    rewrite Hrun in Hrun'. injection Hrun' as <-.
    assert (Hnext : printer_next w' = printer_next w).
    { destruct (decide (printer_next w' = printer_next w)) as [|Hne];
        [done|].
      destruct (Hnew (printer_next w)) as (_ & p & Hp & Hnot & _); [lia|].
      exfalso. apply Hnot. rewrite Hdom. apply elem_of_dom. eauto. }
    exists w'. split_and!; [done| |done].
    rewrite Hlist, Hnext, Nat.sub_diag, app_nil_r.
    apply filter_all. intros q Hq. rewrite <- Hdom. apply dom_dict_of. eauto.
  - destruct (_updatePrintJobs_table jobs w Hwf Hnd)
      as (w' & Hrun & _ & _ & _ & Hle & Hlist & _ & Hnew & _).
    assert (Hnext : job_next w' = job_next w).
    { destruct (decide (job_next w' = job_next w)) as [|Hne]; [done|].
      destruct (Hnew (job_next w)) as (j & p & Hj & Hnot & _); [lia|].
      exfalso. apply Hnot. rewrite Hdom. apply elem_of_dom. eauto. }
    exists w'. split_and!; [done| |done].
    rewrite Hlist, Hnext, Nat.sub_diag, app_nil_r.
    apply filter_all. intros q Hq. rewrite <- Hdom. apply dom_dict_of. eauto.
Qed.

(** X20: a remote job that is new to the table and names a printer the
    printer table does not have is not added, so the key sets differ after
    the pass as they did before: the pass ends with [printJobsChanged], and
    since the job is still new and its printer still unknown afterwards,
    so does every further pass over that snapshot until the printer table
    changes. *)
Theorem orphan_job_notifies_every_pass
    (jobs : list CloudClusterPrintJob.t) (w : World)
    (k : string) (j : CloudClusterPrintJob.t) :
  jobs_wf w → jobs_unique w →
  remote_jobs jobs !! k = Some j →
  k ∉ dom (current_jobs w) →
  printer_of w j = None →
  ∃ w', _updatePrintJobs jobs w = Ok tt w' ∧
    last (trace w') = Some printJobsChanged ∧
    (k ∉ dom (current_jobs w')) ∧ printer_of w' j = None ∧
    jobs_wf w' ∧ jobs_unique w'.
Proof.
  intros Hwf Hnd Hj Hnew Horphan.
  destruct (_updatePrintJobs_table jobs w Hwf Hnd)
    as (w' & Hrun & Hps & _ & Hpl & _ & _ & _ & _ & Hkeys & Hwf' & Hnd').
  destruct (wp_run _ _ _ (_updatePrintJobs_spec jobs w))
    as ([] & w'' & Hrun' & _ & _ & _ & _ & _ & _ & _ & _
        & logs & _ & Htrace).
  rewrite Hrun in Hrun'. injection Hrun' as <-.
  exists w'. split_and!; [done| | | |done|done].
  - rewrite Htrace, bool_decide_true, !app_assoc; [apply last_snoc|].
    intros Heq. apply Hnew. rewrite <- Heq. apply elem_of_dom. eauto.
  - intros Hk. apply dom_dict_of, Hkeys in Hk as [_ [?|(j' & Hj' & Hp)]];
      [done|].
    assert (j' = j) as -> by congruence. rewrite Horphan in Hp.
    by destruct Hp.
  - unfold printer_of. rewrite Hps, Hpl. exact Horphan.
Qed.

End Device.

(** * Scenarios *)

Local Open Scope list_scope.
Local Open Scope nat_scope.

Arguments sample_file_handler {SceneNode}.
Arguments sample_gcode_writer {SceneNode}.

(** C1: submitting while an upload is in flight.  The first [requestWrite]
    is admitted and sets the sending flag; after a progress report the second
    one is answered with the blocked message and issues no API call, but it
    also hides the progress message of the upload in flight and clears the
    sending flag, so that a third [requestWrite] is admitted and requests a
    second upload while the first has not finished. *)
Theorem requestWrite_while_sending_clears_flag :
  let submit :=
    requestWrite unit sample_file_handler (Some "text/x-gcode") false
                 [tt] (Some "benchy") false None in
  let first := submit (initial_world "cluster-1") in
  let progressed := _updateUploadProgress 55 (world_of first) in
  let second := submit (world_of progressed) in
  let third := submit (world_of second) in
  let request :=
    api_requestUpload
      (CloudJobUploadRequest.mk "benchy.gcode" 3 "text/x-gcode")
      (cb_onPrintJobCreated "G28") in
  let sending_message :=
    mkMessage T.SENDING_DATA_TEXT T.SENDING_DATA_TITLE (Some 55%Z) 0
              false false in
  raised first = None ∧
  _sending_job (self (world_of first)) = true ∧
  trace (world_of first) = [writeStarted; request] ∧
  raised progressed = None ∧
  _sending_job (self (world_of progressed)) = true ∧
  _progress_message (self (world_of progressed)) = Some sending_message ∧
  raised second = None ∧
  trace (world_of second)
  = trace (world_of progressed)
    ++ [Message_hide sending_message;
        Message_show (mkMessage T.BLOCKED_UPLOADING T.ERROR None 10 true true);
        writeError] ∧
  _sending_job (self (world_of second)) = false ∧
  _progress_message (self (world_of second)) = None ∧
  raised third = None ∧
  _sending_job (self (world_of third)) = true ∧
  trace (world_of third)
  = trace (world_of second) ++ [writeStarted; request].
Proof.
  cbv zeta. split_and!; vm_compute; reflexivity.
Qed.

(** C2: a failure to find a writable format.  With firmware 4.4 or later
    the UFP type is put in front of the machine's formats; when the
    application has no UFP writer, the lookup of the format raises out of
    [requestWrite] after the sending flag was set: the flag stays set and
    no [writeError] follows.  The same happens without a global stack. *)
Theorem requestWrite_format_failure_leaves_flag_set :
  let no_ufp_writer :=
    requestWrite unit sample_file_handler (Some "text/x-gcode") true
                 [tt] (Some "benchy") false None
                 (initial_world "cluster-1") in
  let no_global_stack :=
    requestWrite unit sample_file_handler None false
                 [tt] (Some "benchy") false None
                 (initial_world "cluster-1") in
  raised no_ufp_writer = Some (KeyError "application/x-ufp") ∧
  _sending_job (self (world_of no_ufp_writer)) = true ∧
  trace (world_of no_ufp_writer) = [writeStarted] ∧
  raised no_global_stack = Some TypeError ∧
  _sending_job (self (world_of no_global_stack)) = true ∧
  trace (world_of no_global_stack)
  = [writeStarted; Logger_log "e" "Missing global stack!"].
Proof.
  cbv zeta. split_and!; vm_compute; reflexivity.
Qed.

(** The second poll of the scenario: [P1] renamed and idle, [P2] gone. *)
Lemma updatePrinters_keeps_entity_witness :
  let p1 := sample_printer "P1" "One (upstairs)" "idle" in
  printers_wf sample_world ∧
  0 ∈ _printers (self sample_world) ∧
  remote_printers [p1] !! printer_key sample_world 0 = Some p1 ∧
  ∃ w', _updatePrinters (λ _, None) elements [p1] sample_world = Ok tt w' ∧
        0 ∈ _printers (self w') ∧
        PrinterOutputModel.name (printer_store w' 0) = "One (upstairs)" ∧
        PrinterOutputModel.state (printer_store w' 0) = "idle".
Proof.
  intros p1.
  assert (Hwf : ∀ q, q ∈ _printers (self sample_world) →
            q < printer_next sample_world).
  { apply Forall_forall. apply (bool_decide_unpack _). by vm_compute. }
  assert (Hnd : NoDup (printer_key sample_world
                         <$> _printers (self sample_world))).
  { apply (bool_decide_unpack _). by vm_compute. }
  assert (Hin : 0 ∈ _printers (self sample_world)).
  { apply (bool_decide_unpack _). by vm_compute. }
  assert (Hp : remote_printers [p1] !! printer_key sample_world 0 = Some p1).
  { by vm_compute. }
  split_and!; [done|done|done|].
  destruct (updatePrinters_keeps_entity (λ _, None) elements
              (λ X, reflexivity (elements X)) [p1] sample_world 0 p1
              (conj Hwf Hnd) Hin Hp)
    as (w' & Hrun & Hkept & _ & _ & Hname & _ & Hstate & _).
  exists w'. by split_and!.
Defined.

(** Job [J7] names printer [P3], which the device does not know. *)
Lemma addPrintJob_without_printer_witness :
  let job := sample_job "J7" "P3" "queued" 0 in
  (∀ p, p ∈ _printers (self sample_world) →
        PrinterOutputModel.key (printer_store sample_world p) ≠ "P3") ∧
  _addPrintJob job sample_world
  = Ok tt (with_event
             (Logger_log "w" "Missing printer %s for job %s in %s")
             sample_world).
Proof.
  intros job.
  assert (Hno : ∀ p, p ∈ _printers (self sample_world) →
            PrinterOutputModel.key (printer_store sample_world p) ≠ "P3").
  { apply Forall_forall. apply (bool_decide_unpack _). by vm_compute. }
  split; [done|]. by apply (addPrintJob_without_printer job sample_world).
Defined.

(** A poll that brings job [J2] besides [J1]: the key sets differ. *)
Lemma updatePrintJobs_notification_witness :
  let jobs := [sample_job "J1" "P1" "printing" 20;
               sample_job "J2" "P2" "queued" 0] in
  (∀ X : gset string, elements X ≡ₚ elements X) ∧
  ∃ w' events,
    _updatePrintJobs elements jobs sample_world = Ok tt w' ∧
    trace w' = trace sample_world ++ events ∧
    printJobsChanged ∈ events.
Proof.
  intros jobs. split; [done|].
  destruct (updatePrintJobs_notification elements
              (λ X, reflexivity (elements X)) jobs sample_world)
    as (w' & events & Hrun & Htrace & Hiff & _).
  exists w', events. split_and!; [done|done|].
  apply Hiff. intros Heq. apply (f_equal elements) in Heq.
  by vm_compute in Heq.
Defined.

(** A poll that reports [J1] further along. *)
Lemma updatePrintJobs_refreshes_scalars_only_witness :
  let j1 := sample_job "J1" "P1" "printing" 20 in
  (∀ X : gset string, elements X ≡ₚ elements X) ∧
  ∃ w', _updatePrintJobs elements [j1] sample_world = Ok tt w' ∧
        UM3PrintJobOutputModel.timeElapsed (job_store w' 0) = 20%Z ∧
        UM3PrintJobOutputModel.assignedPrinter (job_store w' 0) = Some 0.
Proof.
  intros j1. split; [done|].
  destruct (updatePrintJobs_refreshes_scalars_only (λ _, None) elements
              (λ X, reflexivity (elements X)) [j1] sample_world)
    as [(w' & Hrun & Hupd & Hframe) _].
  exists w'. split; [done|].
  destruct (Hupd "J1" 0 j1) as (_ & _ & Helapsed & _);
    [by vm_compute|by vm_compute|simpl; lia|].
  destruct (Hframe 0) as (Hassigned & _); [simpl; lia|].
  split; [done|]. by rewrite Hassigned.
Defined.

(** Polls of a device last answered at second 100, with a base class update
    that does nothing: one second later nothing happens; exactly two
    seconds later, and three seconds later, the cloud is asked again.  A
    device that never got an answer asks at once. *)
Lemma update_poll_witness :
  let super__update : M unit := mret tt in
  let w := sample_world_polled in
  super__update w = Ok tt w ∧
  _last_response_time (self w) = Some 100%float ∧
  PrimFloat.eqb 100 0 = false ∧
  PrimFloat.ltb (PrimFloat.sub 101 100) 2 = true ∧
  _update super__update 101 true w = Ok tt w ∧
  PrimFloat.ltb (PrimFloat.sub 102 100) 2 = false ∧
  (∃ w', _update super__update 102 true w = Ok tt w' ∧
         _authentication_state (self w') = Authenticated ∧
         trace w' = trace w ++ [api_getClusterStatus "cluster-1"
                                  cb_onStatusCallFinished]) ∧
  (∃ w', _update super__update 103 false w = Ok tt w' ∧
         _authentication_state (self w') = NotAuthenticated ∧
         trace w' = trace w) ∧
  _last_response_time (self sample_world) = None ∧
  (∃ w', _update super__update 101 true sample_world = Ok tt w' ∧
         trace w' = trace sample_world
                    ++ [api_getClusterStatus "cluster-1"
                          cb_onStatusCallFinished]).
Proof.
  intros super__update w.
  assert (Hsuper : super__update w = Ok tt w) by done.
  assert (Hsuper0 : super__update sample_world = Ok tt sample_world) by done.
  assert (Hsoon : PrimFloat.ltb (PrimFloat.sub 101 100) 2 = true)
    by (by vm_compute).
  assert (Hedge : PrimFloat.ltb (PrimFloat.sub 102 100) 2 = false)
    by (by vm_compute).
  assert (Hlate : PrimFloat.ltb (PrimFloat.sub 103 100) 2 = false)
    by (by vm_compute).
  assert (Hnonzero : PrimFloat.eqb 100 0 = false) by (by vm_compute).
  split_and!; [done|done|done|done| |done| | |done|].
  - destruct (update_poll (λ _, None) super__update elements 101 true w w
                Hsuper) as (Hskip & _).
    by apply (Hskip 100%float).
  - destruct (update_poll (λ _, None) super__update elements 102 true w w
                Hsuper) as (_ & Hpoll & _).
    destruct Hpoll as [_ Hin].
    { right. exists 100%float. split; [done|]. by right. }
    destruct (Hin eq_refl) as (w' & Hrun & _ & Hauth & Htrace).
    exists w'. by split_and!.
  - destruct (update_poll (λ _, None) super__update elements 103 false w w
                Hsuper) as (_ & Hpoll & _).
    destruct Hpoll as [Hout _].
    { right. exists 100%float. split; [done|]. by right. }
    destruct (Hout eq_refl) as (w' & Hrun & _ & Hauth & Htrace).
    exists w'. by split_and!.
  - destruct (update_poll (λ _, None) super__update elements 101 true
                sample_world sample_world Hsuper0) as (_ & Hpoll & _).
    destruct Hpoll as [_ Hin]; [by left|].
    destruct (Hin eq_refl) as (w' & Hrun & _ & _ & Htrace).
    exists w'. by split.
Defined.

(** C10 as stated fails: a remote printer reported with one extruder
    configuration gets an entity with one extruder, although the device's
    [_number_of_extruders] is 2. *)
Lemma extruder_count_not_always_two :
  let w' := world_of (_updatePrinters (λ _, None) elements
                        [sample_single_extruder_printer]
                        (initial_world "cluster-1")) in
  _number_of_extruders (self w') = 2 ∧
  _printers (self w') = [0] ∧
  length (PrinterOutputModel.extruders (printer_store w' 0)) = 1 ∧
  ¬ (∀ r, r ∈ _printers (self w') →
          length (PrinterOutputModel.extruders (printer_store w' r)) = 2).
Proof.
  intros w'.
  assert (Hl : _printers (self w') = [0]) by (by vm_compute).
  assert (H1 : length (PrinterOutputModel.extruders (printer_store w' 0)) = 1)
    by (by vm_compute).
  split_and!; [by vm_compute|done|done|].
  intros Hall. specialize (Hall 0). rewrite Hl, H1 in Hall.
  by specialize (Hall (list_elem_of_here _ _)).
Qed.

(** The extruder counts over a poll that brings the single-extruder
    printer. *)
Lemma extruder_count_set_at_construction_witness :
  (∀ X : gset string, elements X ≡ₚ elements X) ∧
  ∃ w', _updatePrinters (λ _, None) elements
          [sample_single_extruder_printer] sample_world = Ok tt w' ∧
        length (PrinterOutputModel.extruders (printer_store w' 0)) = 2 ∧
        ∃ p, p ∈ [sample_single_extruder_printer] ∧
             length (PrinterOutputModel.extruders (printer_store w' 2))
             = length (CloudClusterPrinter.configuration p).
Proof.
  split; [done|].
  destruct (extruder_count_set_at_construction (λ _, None) elements
              (λ X, reflexivity (elements X))
              [sample_single_extruder_printer] sample_world)
    as [(w' & Hrun & Hold & Hnew & _) _].
  exists w'. split; [done|]. split.
  - rewrite Hold by (simpl; lia). by vm_compute.
  - assert (Hnext : printer_next w' = 3).
    { change w' with (world_of (Ok tt w')). rewrite <- Hrun. by vm_compute. }
    destruct (Hnew 2) as (_ & p & Hp & Hlen); [rewrite Hnext; simpl; lia|].
    eauto.
Defined.

(** The sample device stays well formed over a poll that drops [P2] and
    brings the single-extruder printer. *)
Lemma tables_wf_invariant_witness :
  let status :=
    CloudClusterStatus.mk
      [sample_printer "P1" "One" "idle"; sample_single_extruder_printer]
      [sample_job "J1" "P1" "printing" 20] in
  (∀ X : gset string, elements X ≡ₚ elements X) ∧
  printers_wf sample_world ∧ jobs_wf sample_world ∧
  ∃ w', _onStatusCallFinished (λ _, None) elements status sample_world
        = Ok tt w' ∧ printers_wf w' ∧ jobs_wf w'.
Proof.
  intros status.
  assert (Hwf : printers_wf sample_world).
  { split.
    - apply Forall_forall. apply (bool_decide_unpack _). by vm_compute.
    - apply (bool_decide_unpack _). by vm_compute. }
  assert (Hjobs : jobs_wf sample_world).
  { unfold jobs_wf. apply Forall_forall. apply (bool_decide_unpack _).
    by vm_compute. }
  split_and!; [done|done|done|].
  by apply (tables_wf_invariant (λ _, None) elements
              (λ X, reflexivity (elements X)) status sample_world).
Defined.

(** A poll that brings printer [P3] together with job [J3] printing on it:
    the job finds its printer because the printers are reconciled first;
    with the two passes swapped it would be dropped. *)
Lemma status_callback_adds_job_of_new_printer :
  let status :=
    CloudClusterStatus.mk
      [sample_printer "P1" "One" "printing"; sample_printer "P2" "Two" "idle";
       sample_printer "P3" "Three" "printing"]
      [sample_job "J1" "P1" "printing" 20;
       sample_job "J3" "P3" "printing" 5] in
  let polled :=
    invoke (λ _, None) elements cb_onStatusCallFinished (arg_status status)
           sample_world in
  let swapped :=
    (_updatePrintJobs elements (CloudClusterStatus.print_jobs status);;
     _updatePrinters (λ _, None) elements
       (CloudClusterStatus.printers status)) sample_world in
  raised polled = None ∧
  _printers (self (world_of polled)) = [0; 1; 2] ∧
  printer_key (world_of polled) 2 = "P3" ∧
  _print_jobs (self (world_of polled)) = [0; 1] ∧
  job_key (world_of polled) 1 = "J3" ∧
  UM3PrintJobOutputModel.assignedPrinter (job_store (world_of polled) 1)
  = Some 2 ∧
  raised swapped = None ∧
  _print_jobs (self (world_of swapped)) = [0].
Proof.
  cbv zeta. split_and!; vm_compute; reflexivity.
Qed.

(** A machine that lists G-code first and UFP second, on a firmware that
    knows UFP, with an application that can only write G-code: the first
    preference could be written, but the choice fails on the second.  The
    first entry is padded with blanks and no-break spaces (U+00A0, the two
    bytes 194 and 160), which [strip] removes. *)
Lemma determineFileFormat_first_preference_witness :
  let nbsp := String (ascii_of_nat 194) (String (ascii_of_nat 160) "") in
  let entry :=
    String.append nbsp
      (String.append " text/x-gcode "
         (String.append nbsp ";application/x-ufp")) in
  let w := initial_world "cluster-1" in
  Some entry = Some entry ∧
  machine_file_formats true entry = ["text/x-gcode"; "application/x-ufp"] ∧
  _determineFileFormat unit sample_file_handler (Some entry) true None w
  = Raise (KeyError "application/x-ufp") w.
Proof.
  intros nbsp entry w.
  destruct (determineFileFormat_first_preference unit sample_file_handler
              (Some entry) true None entry w eq_refl)
    as (_ & _ & _ & _ & Hraise).
  split_and!; [done|by vm_compute|].
  apply (Hraise ["text/x-gcode"] "application/x-ufp" []).
  - by vm_compute.
  - intros m Hm. apply list_elem_of_singleton in Hm as ->.
    exists sample_gcode_format. by vm_compute.
  - by vm_compute.
Defined.

(** An idle device asked to write a G-code file: on a machine that takes
    G-code the upload is requested; without a global stack, and on a machine
    that also lists a format the application cannot write, the call
    raises. *)
Lemma requestWrite_outcomes_witness :
  let w := initial_world "cluster-1" in
  _sending_job (self w) = false ∧
  (∃ w', requestWrite unit sample_file_handler (Some "text/x-gcode") false
           [tt] (Some "benchy") false None w = Ok tt w' ∧
         _sending_job (self w') = true ∧
         trace w'
         = [writeStarted;
            api_requestUpload
              (CloudJobUploadRequest.mk "benchy.gcode" 3 "text/x-gcode")
              (cb_onPrintJobCreated "G28")]) ∧
  requestWrite unit sample_file_handler None false
    [tt] (Some "benchy") false None w
  = Raise TypeError
      (with_event (Logger_log "e" "Missing global stack!") (write_started w)) ∧
  requestWrite unit sample_file_handler (Some "text/x-gcode;model/stl") false
    [tt] (Some "benchy") false None w
  = Raise (KeyError "model/stl") (write_started w).
Proof.
  intros w. split; [done|]. split_and!.
  - destruct (requestWrite_outcomes unit sample_file_handler
                (Some "text/x-gcode") false [tt] (Some "benchy") false None
                w eq_refl) as (_ & _ & Hok & _).
    pose proof (Hok "text/x-gcode" "text/x-gcode" sample_gcode_format eq_refl)
      as Hrun.
    eexists. split; [apply Hrun|].
    + intros m Hm. exists sample_gcode_format.
      assert (m = "text/x-gcode") as ->; [|by vm_compute].
      apply list_elem_of_singleton. revert Hm. by vm_compute.
    + by vm_compute.
    + by vm_compute.
    + split; by vm_compute.
  - destruct (requestWrite_outcomes unit sample_file_handler
                None false [tt] (Some "benchy") false None
                w eq_refl) as (Hnone & _).
    by apply Hnone.
  - destruct (requestWrite_outcomes unit sample_file_handler
                (Some "text/x-gcode;model/stl") false [tt] (Some "benchy")
                false None w eq_refl) as (_ & Hkey & _).
    apply (Hkey "text/x-gcode;model/stl" ["text/x-gcode"] "model/stl" []
             eq_refl).
    + by vm_compute.
    + intros m Hm. apply list_elem_of_singleton in Hm as ->.
      exists sample_gcode_format. by vm_compute.
    + by vm_compute.
Defined.

(** One upload of the sample file with three progress reports. *)
Lemma upload_round_trip_witness :
  let w := initial_world "cluster-1" in
  let response := CloudJobResponse.mk "job-1" "https://upload/job-1" in
  let print_response := CloudPrintResponse.mk "cluster-job-1" in
  let invoke := invoke (λ _, None) elements in
  ∃ w1 w2 w3 w4 w5,
    requestWrite unit sample_file_handler (Some "text/x-gcode") false
      [tt] (Some "benchy") false None w = Ok tt w1 ∧
    invoke (cb_onPrintJobCreated "G28") (arg_job_response response) w1
    = Ok tt w2 ∧
    for_each [10; 55; 100]%Z
      (λ p, invoke cb_updateUploadProgress (arg_progress p)) w2 = Ok tt w3 ∧
    invoke cb_onPrintJobUploaded (arg_job_id "job-1") w3 = Ok tt w4 ∧
    invoke cb_onUploadSuccess (arg_print_response print_response) w4
    = Ok tt w5 ∧
    _sending_job (self w4) = true ∧
    _sending_job (self w5) = false ∧
    length (trace w5) = 11 ∧ last (trace w5) = Some writeFinished.
Proof.
  intros w response print_response invoke.
  destruct (upload_round_trip unit sample_file_handler (Some "text/x-gcode")
              (λ _, None) false elements [tt] "benchy" false None
              "text/x-gcode" "text/x-gcode" sample_gcode_format
              sample_gcode_writer response [10; 55; 100]%Z "job-1"
              print_response w)
    as (w1 & w2 & w3 & w4 & w5 & Hrun1 & Hrun2 & Hrun3 & Hrun4 & Hrun5
        & Hheld & Hflag & _ & _ & Htrace).
  - done.
  - done.
  - intros m Hm. exists sample_gcode_format.
    assert (m = "text/x-gcode") as ->; [|by vm_compute].
    apply list_elem_of_singleton. revert Hm. by vm_compute.
  - by vm_compute.
  - by vm_compute.
  - by vm_compute.
  - exists w1, w2, w3, w4, w5. split_and!; try done.
    + by apply (Forall_lookup_1 _ _ 3 w4 Hheld).
    + rewrite Htrace. by vm_compute.
    + rewrite Htrace. by vm_compute.
Defined.

(** The sample device is well formed in every respect. *)
Lemma sample_world_wf :
  printers_wf sample_world ∧ jobs_wf sample_world ∧
  jobs_unique sample_world ∧ jobs_linked sample_world.
Proof.
  split_and!.
  - split.
    + apply Forall_forall. apply (bool_decide_unpack _). by vm_compute.
    + apply (bool_decide_unpack _). by vm_compute.
  - unfold jobs_wf. apply Forall_forall. apply (bool_decide_unpack _).
    by vm_compute.
  - unfold jobs_unique. apply (bool_decide_unpack _). by vm_compute.
  - intros q Hq. simpl in Hq. apply list_elem_of_singleton in Hq as ->.
    exists 0. split; [by vm_compute|simpl; lia].
Qed.

(** A poll that keeps [P1], drops [P2] and brings [P3], and that drops job
    [J1] for a new job [J2]. *)
Lemma reconciliation_key_sets_witness :
  let printers := [sample_printer "P1" "One" "idle";
                   sample_printer "P3" "Three" "idle"] in
  let jobs := [sample_job "J2" "P1" "queued" 0] in
  (∀ X : gset string, elements X ≡ₚ elements X) ∧
  printers_wf sample_world ∧ jobs_wf sample_world ∧
  jobs_unique sample_world ∧
  (∃ w', _updatePrinters (λ _, None) elements printers sample_world
         = Ok tt w' ∧
         (1 ∉ _printers (self w')) ∧ 0 ∈ _printers (self w') ∧
         ∃ r, r ∈ _printers (self w') ∧ (r ∉ _printers (self sample_world))
              ∧ printer_key w' r = "P3") ∧
  (∃ w', _updatePrintJobs elements jobs sample_world = Ok tt w' ∧
         (0 ∉ _print_jobs (self w')) ∧
         ∃ r, r ∈ _print_jobs (self w') ∧ (r ∉ _print_jobs (self sample_world))
              ∧ job_key w' r = "J2").
Proof.
  intros printers jobs. destruct sample_world_wf as (Hpwf & Hwf & Hnd & _).
  destruct (reconciliation_key_sets (λ _, None) elements
              (λ X, reflexivity (elements X)) printers jobs sample_world)
    as (_ & _ & _ & _ & _ & _ & _ & _ & _ & _ & _ & _ & _ & _ & _ & _
        & Hprinters & Hjobs).
  split_and!; [done|done|done|done| |].
  - destruct (Hprinters Hpwf) as (w' & Hrun & Hgone & _ & Hnew & Hkept).
    exists w'. split_and!; [done| | |].
    + apply (Hgone 1); apply (bool_decide_unpack _); by vm_compute.
    + apply (Hkept 0); apply (bool_decide_unpack _); by vm_compute.
    + apply Hnew. apply (bool_decide_unpack _). by vm_compute.
  - destruct (Hjobs Hwf Hnd) as (w' & Hrun & Hgone & _ & _ & Hnew & _).
    exists w'. split_and!; [done| |].
    + apply (Hgone 0); apply (bool_decide_unpack _); by vm_compute.
    + apply Hnew.
      * apply (bool_decide_unpack _). by vm_compute.
      * exists (sample_job "J2" "P1" "queued" 0).
        split; [by vm_compute|]. exists 0. by vm_compute.
Defined.

(** A poll that keeps [P1], drops [P2] and brings [P3]. *)
Lemma updatePrinters_table_matches_snapshot_witness :
  let printers := [sample_printer "P3" "Three" "idle";
                   sample_printer "P1" "One" "printing"] in
  (∀ X : gset string, elements X ≡ₚ elements X) ∧
  printers_wf sample_world ∧
  ∃ w', _updatePrinters (λ _, None) elements printers sample_world
        = Ok tt w' ∧
        _printers (self w') = [0; 2] ∧
        dom (current_printers w') = dom (remote_printers printers) ∧
        new_printer_ids (current_printers w') (remote_printers printers) = ∅.
Proof.
  intros printers. destruct sample_world_wf as (Hwf & _).
  split_and!; [done|done|].
  destruct (updatePrinters_table_matches_snapshot (λ _, None) elements
              (λ X, reflexivity (elements X)) printers sample_world Hwf)
    as (w' & Hrun & Hlist & _ & Hdom & _ & Hnew & _).
  exists w'. split_and!; [done| |done|done].
  assert (Hnext : printer_next w' = 3).
  { change w' with (world_of (Ok tt w')). rewrite <- Hrun. by vm_compute. }
  rewrite Hlist, Hnext. by vm_compute.
Defined.

(** The active printer [P1] stays over a poll that still reports it. *)
Lemma activePrinter_after_pass_witness :
  let printers := [sample_printer "P3" "Three" "idle";
                   sample_printer "P1" "One" "printing"] in
  (∀ X : gset string, elements X ≡ₚ elements X) ∧
  printers_wf sample_world ∧
  activePrinter sample_world = Some 0 ∧
  ∃ w', _updatePrinters (λ _, None) elements printers sample_world
        = Ok tt w' ∧
        activePrinter w' = Some 0.
Proof.
  intros printers. destruct sample_world_wf as (Hwf & _).
  split_and!; [done|done|done|].
  destruct (activePrinter_after_pass (λ _, None) elements
              (λ X, reflexivity (elements X)) printers sample_world Hwf)
    as (w' & Hrun & _ & Hstay & _).
  exists w'. split; [done|]. apply Hstay; [done|].
  apply (bool_decide_unpack _). by vm_compute.
Defined.

(** A poll that brings [J2] on the known printer [P2] and [J9] on the
    unknown printer [P7]: [J9] is left out, so the key sets still differ
    after the pass. *)
Lemma updatePrintJobs_table_keys_witness :
  let jobs := [sample_job "J1" "P1" "printing" 20;
               sample_job "J2" "P2" "queued" 0;
               sample_job "J9" "P7" "queued" 0] in
  (∀ X : gset string, elements X ≡ₚ elements X) ∧
  jobs_wf sample_world ∧ jobs_unique sample_world ∧
  ∃ w', _updatePrintJobs elements jobs sample_world = Ok tt w' ∧
        "J2" ∈ dom (current_jobs w') ∧
        ("J9" ∉ dom (current_jobs w')) ∧
        dom (current_jobs w') ≠ dom (remote_jobs jobs) ∧
        jobs_wf w' ∧ jobs_unique w'.
Proof.
  intros jobs. destruct sample_world_wf as (_ & Hwf & Hnd & _).
  split_and!; [done|done|done|].
  destruct (updatePrintJobs_table_keys elements
              (λ X, reflexivity (elements X)) jobs sample_world Hwf Hnd)
    as (w' & Hrun & _ & Hkeys & _ & Hwf' & Hnd').
  assert (Hno : "J9" ∉ dom (current_jobs w')).
  { intros [_ [Hin|(j & Hj & [p Hp])]]%Hkeys.
    - revert Hin. apply (bool_decide_unpack _). by vm_compute.
    - vm_compute in Hj. injection Hj as <-. by vm_compute in Hp. }
  exists w'. split_and!; [done| |done| |done|done].
  - apply Hkeys. split; [apply (bool_decide_unpack _); by vm_compute|].
    right. exists (sample_job "J2" "P2" "queued" 0).
    split; [by vm_compute|]. exists 1. by vm_compute.
  - intros Heq. apply Hno. rewrite Heq.
    apply (bool_decide_unpack _). by vm_compute.
Defined.

(** The new job [J2] is reported as queued; its entity is the constructed
    one. *)
Lemma added_job_is_not_refreshed_witness :
  let jobs := [sample_job "J1" "P1" "printing" 20;
               sample_job "J2" "P2" "queued" 0] in
  (∀ X : gset string, elements X ≡ₚ elements X) ∧
  jobs_wf sample_world ∧ jobs_unique sample_world ∧
  ∃ w', _updatePrintJobs elements jobs sample_world = Ok tt w' ∧
        _print_jobs (self w') = [0; 1] ∧
        UM3PrintJobOutputModel.key (job_store w' 1) = "J2" ∧
        ∃ j p,
          job_store w' 1
          = UM3PrintJobOutputModel.updateAssignedPrinter p
              (UM3PrintJobOutputModel.new
                 (PrinterOutputModel.output_controller
                    (printer_store sample_world p))
                 (CloudClusterPrintJob.uuid j) (CloudClusterPrintJob.name j)).
Proof.
  intros jobs. destruct sample_world_wf as (_ & Hwf & Hnd & _).
  split_and!; [done|done|done|].
  destruct (added_job_is_not_refreshed elements
              (λ X, reflexivity (elements X)) jobs sample_world Hwf Hnd)
    as (w' & Hrun & Hnew).
  assert (Hlist : _print_jobs (self w') = [0; 1]).
  { change w' with (world_of (Ok tt w')). rewrite <- Hrun. by vm_compute. }
  assert (Hkey : UM3PrintJobOutputModel.key (job_store w' 1) = "J2").
  { change w' with (world_of (Ok tt w')). rewrite <- Hrun. by vm_compute. }
  destruct (Hnew 1) as (j & p & pre & post & _ & _ & _ & _ & _ & Hst).
  { rewrite Hlist. apply (bool_decide_unpack _). by vm_compute. }
  { apply (bool_decide_unpack _). by vm_compute. }
  exists w'. split_and!; try done. by exists j, p.
Defined.

(** The sample device over a poll that drops [P2], brings [P3] and reports
    jobs on [P1], [P3] and the dropped [P2]. *)
Lemma jobs_unique_and_linked_invariant_witness :
  let status :=
    CloudClusterStatus.mk
      [sample_printer "P1" "One" "idle"; sample_printer "P3" "Three" "idle"]
      [sample_job "J1" "P1" "printing" 20; sample_job "J3" "P3" "queued" 0;
       sample_job "J4" "P2" "queued" 0] in
  (∀ X : gset string, elements X ≡ₚ elements X) ∧
  printers_wf sample_world ∧ jobs_wf sample_world ∧
  jobs_unique sample_world ∧ jobs_linked sample_world ∧
  ∃ w', _onStatusCallFinished (λ _, None) elements status sample_world
        = Ok tt w' ∧ jobs_unique w' ∧ jobs_linked w'.
Proof.
  intros status. destruct sample_world_wf as (Hpwf & Hwf & Hnd & Hlinked).
  split_and!; [done|done|done|done|done|].
  destruct (jobs_unique_and_linked_invariant (λ _, None) elements
              (λ X, reflexivity (elements X)) status sample_world)
    as [_ Hstep].
  destruct (Hstep Hpwf Hwf Hnd Hlinked) as (w' & Hrun & Hnd' & Hlinked' & _).
  by exists w'.
Defined.

(** The same poll: [J3] finds the printer that arrived with it, [J4] names
    the printer that was just dropped and is left out. *)
Lemma status_callback_tables_witness :
  let status :=
    CloudClusterStatus.mk
      [sample_printer "P1" "One" "idle"; sample_printer "P3" "Three" "idle"]
      [sample_job "J1" "P1" "printing" 20; sample_job "J3" "P3" "queued" 0;
       sample_job "J4" "P2" "queued" 0] in
  (∀ X : gset string, elements X ≡ₚ elements X) ∧
  printers_wf sample_world ∧ jobs_wf sample_world ∧
  jobs_unique sample_world ∧
  ∃ w', _onStatusCallFinished (λ _, None) elements status sample_world
        = Ok tt w' ∧
        "J3" ∈ dom (current_jobs w') ∧ ("J4" ∉ dom (current_jobs w')).
Proof.
  intros status. destruct sample_world_wf as (Hpwf & Hwf & Hnd & _).
  split_and!; [done|done|done|done|].
  destruct (status_callback_tables (λ _, None) elements
              (λ X, reflexivity (elements X)) status sample_world
              Hpwf Hwf Hnd)
    as (w' & Hrun & _ & Hkeys).
  exists w'. split_and!; [done| |].
  - apply Hkeys. split; [apply (bool_decide_unpack _); by vm_compute|].
    right. exists (sample_job "J3" "P3" "queued" 0).
    split; [by vm_compute|]. apply (bool_decide_unpack _). by vm_compute.
  - intros [_ [Hin|(j & Hj & Hp)]]%Hkeys.
    + revert Hin. apply (bool_decide_unpack _). by vm_compute.
    + vm_compute in Hj. injection Hj as <-.
      revert Hp. apply (bool_decide_unpack _). by vm_compute.
Defined.

(** The events of that poll. *)
Lemma status_callback_events_witness :
  let status :=
    CloudClusterStatus.mk
      [sample_printer "P1" "One" "idle"; sample_printer "P3" "Three" "idle"]
      [sample_job "J1" "P1" "printing" 20; sample_job "J3" "P3" "queued" 0;
       sample_job "J4" "P2" "queued" 0] in
  (∀ X : gset string, elements X ≡ₚ elements X) ∧
  ∃ w' logs1 logs2,
    _onStatusCallFinished (λ _, None) elements status sample_world
    = Ok tt w' ∧
    trace w' = logs1 ++ [printersChanged] ++ logs2 ++ [printJobsChanged].
Proof.
  intros status. split; [done|].
  destruct (status_callback_events (λ _, None) elements
              (λ X, reflexivity (elements X)) status sample_world)
    as (w' & logs1 & logs2 & Hrun & _ & _ & Htrace).
  exists w', logs1, logs2. split; [done|].
  rewrite Htrace, bool_decide_true; [done|].
  intros Heq. apply (f_equal elements) in Heq. by vm_compute in Heq.
Defined.

(** A second request while the first upload is in flight. *)
Lemma requestWrite_blocked_releases_flag_witness :
  let w := with_self (with_sending_job true) (initial_world "cluster-1") in
  _sending_job (self w) = true ∧
  ∃ w', requestWrite unit sample_file_handler (Some "text/x-gcode") false
          [tt] (Some "benchy") false None w = Ok tt w' ∧
        _sending_job (self w') = false.
Proof.
  intros w. split; [done|].
  destruct (requestWrite_blocked_releases_flag unit sample_file_handler
              (Some "text/x-gcode") false [tt] (Some "benchy") false None
              w eq_refl)
    as (w' & Hrun & Hflag & _).
  by exists w'.
Defined.

(** A poll that drops [P1] while job [J1] is still printing on it. *)
Lemma job_keeps_dropped_printer_witness :
  let status :=
    CloudClusterStatus.mk [sample_printer "P2" "Two" "idle"]
                          [sample_job "J1" "P1" "printing" 30] in
  (∀ X : gset string, elements X ≡ₚ elements X) ∧
  printers_wf sample_world ∧ jobs_wf sample_world ∧
  jobs_unique sample_world ∧
  ∃ w', _onStatusCallFinished (λ _, None) elements status sample_world
        = Ok tt w' ∧
        _print_jobs (self w') = [0] ∧
        UM3PrintJobOutputModel.assignedPrinter (job_store w' 0) = Some 0 ∧
        (0 ∉ _printers (self w')) ∧
        PrinterOutputModel.state (printer_store w' 0) = "printing".
Proof.
  intros status. destruct sample_world_wf as (Hpwf & Hwf & Hnd & _).
  split_and!; [done|done|done|done|].
  destruct (job_keeps_dropped_printer (λ _, None) elements
              (λ X, reflexivity (elements X)) status sample_world 0 0
              Hpwf Hwf Hnd)
    as (w' & Hrun & _ & Hassigned & Hgone & Hfrozen).
  - apply (bool_decide_unpack _). by vm_compute.
  - by vm_compute.
  - apply (bool_decide_unpack _). by vm_compute.
  - apply (bool_decide_unpack _). by vm_compute.
  - apply (bool_decide_unpack _). by vm_compute.
  - exists w'. split_and!; [done| |done|done|by rewrite Hfrozen].
    change w' with (world_of (Ok tt w')). rewrite <- Hrun. by vm_compute.
Defined.

(** A poll that reports the printers and the job the device knows. *)
Lemma pass_over_same_keys_keeps_tables_witness :
  let printers := [sample_printer "P2" "Two" "printing";
                   sample_printer "P1" "One" "idle"] in
  let jobs := [sample_job "J1" "P1" "printing" 30] in
  printers_wf sample_world ∧ jobs_wf sample_world ∧
  jobs_unique sample_world ∧
  (∀ X : gset string, elements X ≡ₚ elements X) ∧
  (∃ w', _updatePrinters (λ _, None) elements printers sample_world
         = Ok tt w' ∧ _printers (self w') = [0; 1]) ∧
  (∃ w', _updatePrintJobs elements jobs sample_world = Ok tt w' ∧
         _print_jobs (self w') = [0]).
Proof.
  intros printers jobs. destruct sample_world_wf as (Hpwf & Hwf & Hnd & _).
  destruct (pass_over_same_keys_keeps_tables (λ _, None) elements
              (λ X, reflexivity (elements X)) printers jobs sample_world
              Hpwf Hwf Hnd)
    as [Hprinters Hjobs].
  split_and!; [done|done|done|done| |].
  - destruct Hprinters as (w' & Hrun & Hlist & _).
    { apply (bool_decide_unpack _). by vm_compute. }
    exists w'. split; [done|]. by rewrite Hlist.
  - destruct Hjobs as (w' & Hrun & Hlist & _).
    { apply (bool_decide_unpack _). by vm_compute. }
    exists w'. split; [done|]. by rewrite Hlist.
Defined.

(** Job [J9] names the unknown printer [P7]: two polls in a row end with
    [printJobsChanged]. *)
Lemma orphan_job_notifies_every_pass_witness :
  let j9 := sample_job "J9" "P7" "queued" 0 in
  let jobs := [sample_job "J1" "P1" "printing" 30; j9] in
  (∀ X : gset string, elements X ≡ₚ elements X) ∧
  jobs_wf sample_world ∧ jobs_unique sample_world ∧
  remote_jobs jobs !! "J9" = Some j9 ∧
  ("J9" ∉ dom (current_jobs sample_world)) ∧
  printer_of sample_world j9 = None ∧
  ∃ w' w'',
    _updatePrintJobs elements jobs sample_world = Ok tt w' ∧
    last (trace w') = Some printJobsChanged ∧
    _updatePrintJobs elements jobs w' = Ok tt w'' ∧
    last (trace w'') = Some printJobsChanged.
Proof.
  intros j9 jobs. destruct sample_world_wf as (_ & Hwf & Hnd & _).
  assert (Hj : remote_jobs jobs !! "J9" = Some j9) by (by vm_compute).
  assert (Hnew : "J9" ∉ dom (current_jobs sample_world)).
  { apply (bool_decide_unpack _). by vm_compute. }
  assert (Horphan : printer_of sample_world j9 = None) by (by vm_compute).
  split_and!; [done|done|done|done|done|done|].
  destruct (orphan_job_notifies_every_pass elements
              (λ X, reflexivity (elements X)) jobs sample_world "J9" j9
              Hwf Hnd Hj Hnew Horphan)
    as (w' & Hrun & Hlast & Hnew' & Horphan' & Hwf' & Hnd').
  destruct (orphan_job_notifies_every_pass elements
              (λ X, reflexivity (elements X)) jobs w' "J9" j9
              Hwf' Hnd' Hj Hnew' Horphan')
    as (w'' & Hrun' & Hlast' & _).
  by exists w', w''.
Defined.
